(** * RPS: the ESP32-S3 rock/paper/scissors classifier loop

    A shallow embedding of [esp32 s3 sense/main.py]: the [HTTPServer]
    class (bind policy, result cache, request handler) and the
    [RealTimeClassifier] class (preprocessing, inference with fallback,
    result construction, one iteration of the classification loop).

    Python floats are IEEE binary64 values ([SpecFloat], precision 53,
    emax 1024).  Calls to the outside world (sockets, camera, TFLite
    interpreter, console, clock) are recorded in a trace of events, and
    their outcomes are supplied by an environment; exceptions are values
    of type [exn] carried through a small trace-and-error monad.

    In [HTTPServer.handle_client] what is written to an accepted client
    goes through; [Writes.handle_client] is the same handler with
    [client.send] and [client.close] as calls that may raise.  Rational
    numbers ([QArith]) say what a float quotient is the rounding of. *)

From Stdlib Require Import ZArith List String Ascii Bool Lia.
From Stdlib Require Import Strings.Byte.
From Stdlib Require Import SpecFloat DecimalString.
From Stdlib Require Import QArith Qabs.
Import ListNotations.

Open Scope Z_scope.

(* ------------------------------------------------------------------ *)
(** ** Python floats *)

Module Float64.

Definition prec : Z := 53.
Definition emax : Z := 1024.

Definition add : spec_float -> spec_float -> spec_float := SFadd prec emax.
Definition sub : spec_float -> spec_float -> spec_float := SFsub prec emax.
Definition mul : spec_float -> spec_float -> spec_float := SFmul prec emax.
Definition div : spec_float -> spec_float -> spec_float := SFdiv prec emax.

(** [float(n)] for a Python int [n]. *)
Definition of_int (n : Z) : spec_float := binary_normalize prec emax n 0 false.

(** [x > y], [x == y], [x <= y]: all false as soon as one side is NaN. *)
Definition gtb (x y : spec_float) : bool := SFltb y x.
Definition eqb (x y : spec_float) : bool := SFeqb x y.
Definition leb (x y : spec_float) : bool := SFleb x y.

(** The literals of the program: a decimal literal denotes the binary64
    value nearest to it, which correctly rounded division produces. *)
Definition lit_0_0 : spec_float := S754_zero false.
Definition lit_1_0 : spec_float := Eval vm_compute in of_int 1.
Definition lit_100 : spec_float := Eval vm_compute in of_int 100.
Definition lit_255_0 : spec_float := Eval vm_compute in of_int 255.
Definition lit_0_33 : spec_float := Eval vm_compute in div (of_int 33) (of_int 100).
Definition lit_0_34 : spec_float := Eval vm_compute in div (of_int 34) (of_int 100).
Definition lit_1em9 : spec_float :=
  Eval vm_compute in div (of_int 1) (of_int 1000000000).

(** [0.0 <= x <= 1.0] *)
Definition in_unit_interval (x : spec_float) : bool :=
  leb lit_0_0 x && leb x lit_1_0.

(** [abs(x - 1.0) <= 1e-9] *)
Definition close_to_one (x : spec_float) : bool :=
  leb (SFabs (sub x lit_1_0)) lit_1em9.

End Float64.

(** A float object.  [list.index] compares with [is] before [==], so
    the identity of an object is kept next to its value; only a NaN, which
    is not equal to itself, can tell the two comparisons apart.  In a
    list display, equal literals stand for one constant object. *)
Record pyfloat : Type := mkfloat { addr : positive; fval : spec_float }.

(** [a is b or a == b], the comparison of [list.index]. *)
Definition py_same_or_equal (a b : pyfloat) : bool :=
  Pos.eqb (addr a) (addr b) || Float64.eqb (fval a) (fval b).

(* ------------------------------------------------------------------ *)
(** ** Exceptions, events and the monad *)

(** The subclasses of [Exception] that occur.  [OSError] carries
    [e.args[0]], the errno set by the socket layer. *)
Inductive exn : Type :=
| OSError (errno : Z)
| IndexError
| ValueError
| TypeError
| OtherError (name : string).

(** What [camera.capture()] may hand back. *)
Inductive frame_obj : Type :=
| FrameBytes (data : list byte)      (* bytes or bytearray *)
| FrameNone                          (* None *)
| FrameOther (truthy : bool).        (* any other object *)

(** The result dictionary with its three keys. *)
Record results : Type := mkresults {
  timestamp : Z;
  probabilities : list pyfloat;
  predicted_class : Z
}.

(** The console messages, one constructor per [print] of the program. *)
Inductive log : Type :=
| LogPortInUse (port alt_port : Z)
| LogServerStarted (port : Z)
| LogClientConnected
| LogServerError (e : exn)
| LogClientError (e : exn)
| LogProcessingImage (size : Z)
| LogRunningInference
| LogInferenceComplete
| LogRawOutput (output : list pyfloat)
| LogUnexpectedOutputs (expected got : Z)
| LogInferenceError (e : exn)
| LogStartingLoop
| LogCaptureFailed
| LogCaptureError (e : exn)
| LogNewPrediction (r : results)
| LogClassConfidence (class_name : string) (confidence : spec_float)
| LogMainLoopError (e : exn).

(** Bytes handed to [client.send]. *)
Inductive payload : Type :=
| Encoded (text : string)            (* str.encode() *)
| RawBytes (data : list byte).

Inductive event : Type :=
| EvSocketCreate
| EvSetReuseAddr
| EvBind (port : Z)
| EvListen (backlog : Z)
| EvSetBlocking (flag : bool)
| EvAccept
| EvSocketClose
| EvClientSetBlocking (flag : bool)
| EvRecv (bufsize : Z)
| EvSend (data : payload)
| EvClientClose
| EvCapture
| EvCameraDeinit
| EvSetInput (tensor : list spec_float)
| EvInvoke
| EvGetOutput
| EvTicksMs
| EvSleepMs (ms : Z)
| EvGcCollect
| EvPrint (msg : log).

(** A computation yields the events it performed and then either the
    exception it raised or its value. *)
Definition M (A : Type) : Type := (list event * (exn + A))%type.

Definition ret {A : Type} (a : A) : M A := ([], inr a).

Definition raise {A : Type} (e : exn) : M A := ([], inl e).

Definition bind {A B : Type} (m : M A) (k : A -> M B) : M B :=
  match m with
  | (tr, inl e) => (tr, inl e)
  | (tr, inr a) => let (tr', r) := k a in (tr ++ tr', r)
  end.

Definition emit (ev : event) : M unit := ([ev], inr tt).

(** [try: m  except Exception as e: h e] *)
Definition try_except {A : Type} (m : M A) (h : exn -> M A) : M A :=
  match m with
  | (tr, inl e) => let (tr', r) := h e in (tr ++ tr', r)
  | (tr, inr a) => (tr, inr a)
  end.

(** An external call: the event, then the outcome the environment gives. *)
Definition call {A : Type} (ev : event) (outcome : exn + A) : M A :=
  ([ev], outcome).

Definition trace {A : Type} (m : M A) : list event := fst m.
Definition outcome {A : Type} (m : M A) : exn + A := snd m.

Declare Scope py_scope.
Delimit Scope py_scope with py.
Notation "x <- c1 ;; c2" := (bind c1 (fun x => c2))
  (at level 61, c1 at next level, right associativity) : py_scope.
Notation "c1 ;; c2" := (bind c1 (fun _ => c2))
  (at level 61, right associativity) : py_scope.
Open Scope py_scope.

(* ------------------------------------------------------------------ *)
(** ** Built-ins *)

Definition len {A : Type} (l : list A) : Z := Z.of_nat (List.length l).

(** [l[i]], with Python's negative indices. *)
Definition getitem {A : Type} (l : list A) (i : Z) : M A :=
  let j := if i <? 0 then i + len l else i in
  if j <? 0 then raise IndexError
  else match nth_error l (Z.to_nat j) with
       | Some x => ret x
       | None => raise IndexError
       end.

(** [range(start, stop, step)] for a positive step. *)
Definition py_range (start stop step : Z) : list Z :=
  let count := if start <? stop then (stop - start - 1) / step + 1 else 0 in
  map (fun k => start + Z.of_nat k * step) (seq 0 (Z.to_nat count)).

(** [max(l)]: the first item, replaced by each later item that compares
    greater than the current maximum. *)
Definition keep_greater (m item : pyfloat) : pyfloat :=
  if Float64.gtb (fval item) (fval m) then item else m.

Definition py_max (l : list pyfloat) : M pyfloat :=
  match l with
  | [] => raise ValueError
  | x :: rest => ret (fold_left keep_greater rest x)
  end.

(** [l.index(x)]: the first position holding [x] itself or an equal value. *)
Fixpoint index_from (l : list pyfloat) (x : pyfloat) (i : Z) : M Z :=
  match l with
  | [] => raise ValueError
  | y :: rest => if py_same_or_equal y x then ret i
                 else index_from rest x (i + 1)
  end.

Definition py_index (l : list pyfloat) (x : pyfloat) : M Z := index_from l x 0.

(** [s.split(sep)] for a one-character separator. *)
Fixpoint str_split (sep : ascii) (s : string) : list string :=
  match s with
  | EmptyString => [EmptyString]
  | String c rest =>
      if Ascii.eqb c sep then EmptyString :: str_split sep rest
      else match str_split sep rest with
           | [] => [String c EmptyString]
           | w :: ws => String c w :: ws
           end
  end.

(** [str(n)] for an int. *)
Definition str_of_int (n : Z) : string := NilZero.string_of_int (Z.to_int n).

(** [s.startswith(prefix)] *)
Fixpoint startswith (s prefix : string) {struct prefix} : bool :=
  match prefix, s with
  | EmptyString, _ => true
  | String _ _, EmptyString => false
  | String a prefix', String b s' => Ascii.eqb a b && startswith s' prefix'
  end.

(** [needle in hay] for strings. *)
Fixpoint contains (needle hay : string) : bool :=
  startswith hay needle ||
  match hay with
  | EmptyString => false
  | String _ rest => contains needle rest
  end.

Definition LF : ascii := "010"%char.
Definition CRLF : string := String "013"%char (String "010"%char EmptyString).
Definition DQUOTE : string := String "034"%char EmptyString.

Definition outcome_of (o : option exn) : exn + unit :=
  match o with
  | Some e => inl e
  | None => inr tt
  end.

(** A [for] loop threading the variables it updates. *)
Fixpoint for_each {A S : Type} (items : list A) (s : S) (body : S -> A -> M S)
  : M S :=
  match items with
  | [] => ret s
  | x :: rest => s' <- body s x ;; for_each rest s' body
  end.

(** Truth value of what [camera.capture()] returned. *)
Definition truthy (frame : frame_obj) : bool :=
  match frame with
  | FrameBytes data => negb (len data =? 0)
  | FrameNone => false
  | FrameOther t => t
  end.

(* ------------------------------------------------------------------ *)
(** ** class HTTPServer *)

Module HTTPServer.

Record t : Type := mk { port : Z; latest_results : results }.

(** Outcome of [bind] on the requested port and, if it comes to that,
    on the alternative port ([None]: the call succeeds). *)
Record bind_env : Type := {
  bind_primary : option exn;
  bind_alternate : option exn
}.

(** The request as the handler sees it: what [socket.accept()] does
    and, for an accepted client, what [client.recv(1024).decode()]
    gives; [camera.capture()] as called by the image route. *)
Record client_env : Type := { recv_decode : exn + string }.

Record net_env : Type := {
  accept : exn + client_env;
  capture : exn + frame_obj
}.

(** ['timestamp': 0, 'probabilities': [0.33, 0.34, 0.33],
     'predicted_class': 0] *)
Definition initial_results : results :=
  {| timestamp := 0;
     probabilities := [mkfloat 1 Float64.lit_0_33;
                       mkfloat 2 Float64.lit_0_34;
                       mkfloat 1 Float64.lit_0_33];
     predicted_class := 0 |}.

Definition __init__ (env : bind_env) (port : Z) : M t :=
  emit EvSocketCreate ;;
  emit EvSetReuseAddr ;;
  bound <- try_except
    (call (EvBind port) (outcome_of (bind_primary env)) ;;
     ret port)
    (fun e =>
       match e with
       | OSError errno =>
           if errno =? 112 then
             let alt_port := 8080 in
             emit (EvPrint (LogPortInUse port alt_port)) ;;
             call (EvBind alt_port) (outcome_of (bind_alternate env)) ;;
             ret alt_port
           else raise e
       | _ => raise e
       end) ;;
  emit (EvListen 1) ;;
  emit (EvPrint (LogServerStarted bound)) ;;
  ret {| port := bound; latest_results := initial_results |}.

Definition update_results (self : t) (r : results) : t :=
  {| port := port self; latest_results := r |}.

Definition json_header : string :=
  ("HTTP/1.1 200 OK" ++ CRLF ++ "Content-Type: application/json" ++ CRLF
   ++ "Access-Control-Allow-Origin: *" ++ CRLF ++ CRLF)%string.

Definition jpeg_header : string :=
  ("HTTP/1.1 200 OK" ++ CRLF ++ "Content-Type: image/jpeg" ++ CRLF
   ++ "Access-Control-Allow-Origin: *" ++ CRLF ++ CRLF)%string.

Definition error_response : string :=
  ("HTTP/1.1 500 Internal Server Error" ++ CRLF ++ CRLF)%string.

Definition html_header : string :=
  ("HTTP/1.1 200 OK" ++ CRLF ++ "Content-Type: text/html" ++ CRLF ++ CRLF)%string.

(** The status page of the default route. *)
Definition status_page (self : t) : string :=
  ("<html><body><h1>ESP32-S3 Classifier</h1>"
   ++ "<p>Status: Running</p>"
   ++ "<p>Latest class: " ++ str_of_int (predicted_class (latest_results self))
   ++ "</p>"
   ++ "<p>API Endpoints: <ul>"
   ++ "<li><a href=" ++ DQUOTE ++ "/classify" ++ DQUOTE
   ++ ">/classify</a> - JSON classification results</li>"
   ++ "<li><a href=" ++ DQUOTE ++ "/jpg" ++ DQUOTE
   ++ ">/jpg</a> - Latest camera image</li>"
   ++ "</ul></p>"
   ++ "</body></html>")%string.

(** [client.send(img)]: only a bytes-like object can be sent. *)
Definition send_frame (img : frame_obj) : M unit :=
  match img with
  | FrameBytes data => emit (EvSend (RawBytes data))
  | _ => raise TypeError
  end.

Section Handler.

(** [json.dumps], from the standard library. *)
Variable json_dumps : results -> string.

Definition handle_client (self : t) (env : net_env) : M unit :=
  emit (EvSetBlocking false) ;;
  try_except
    (client <- call EvAccept (accept env) ;;
     emit (EvPrint LogClientConnected) ;;
     emit (EvClientSetBlocking true) ;;
     request <- call (EvRecv 1024) (recv_decode client) ;;
     request_line <- getitem (str_split LF request) 0 ;;
     path <- getitem (str_split " " request_line) 1 ;;
     (if (path =? "/classify")%string || (path =? "/data")%string
         || (path =? "/api")%string then
        let response := json_dumps (latest_results self) in
        emit (EvSend (Encoded (json_header ++ response)%string))
      else if (path =? "/jpg")%string || (path =? "/capture")%string then
        try_except
          (img <- call EvCapture (capture env) ;;
           emit (EvSend (Encoded jpeg_header)) ;;
           send_frame img)
          (fun _ => emit (EvSend (Encoded error_response)))
      else
        let response := status_page self in
        emit (EvSend (Encoded (html_header ++ response)%string))) ;;
     emit EvClientClose)
    (fun e =>
       match e with
       | OSError errno =>
           if errno =? 11 then ret tt
           else emit (EvPrint (LogServerError e))
       | _ => emit (EvPrint (LogClientError e))
       end).

End Handler.

End HTTPServer.

(* ------------------------------------------------------------------ *)
(** ** class RealTimeClassifier *)

Module RealTimeClassifier.

Definition class_names : list string :=
  ["rock"%string; "paper"%string; "scissors"%string].

(** [224*224*3], the length of the model's input. *)
Definition INPUT_LEN : Z := 224 * 224 * 3.

(** [frame[i] / 255.0] *)
Definition normalize (b : byte) : spec_float :=
  Float64.div (Float64.of_int (Z.of_N (Byte.to_N b))) Float64.lit_255_0.

Definition preprocess_image (frame : frame_obj) : M (list spec_float) :=
  match frame with
  | FrameBytes data =>
      emit (EvPrint (LogProcessingImage (len data))) ;;
      let step := Z.max 1 (len data / INPUT_LEN) in
      processed_data <-
        for_each (py_range 0 (len data - 3) step) []
          (fun processed_data i =>
             r <- getitem data i ;;
             g <- getitem data (i + 1) ;;
             b <- getitem data (i + 2) ;;
             ret (processed_data ++ [normalize r; normalize g; normalize b])) ;;
      if len processed_data <? INPUT_LEN then
        ret (processed_data
               ++ repeat Float64.lit_0_0 (Z.to_nat (INPUT_LEN - len processed_data)))
      else
        ret (firstn (Z.to_nat INPUT_LEN) processed_data)
  | _ => ret (repeat Float64.lit_0_0 (Z.to_nat INPUT_LEN))
  end.

(** Outcomes of the three interpreter calls of one inference. *)
Record engine_env : Type := {
  set_input : option exn;
  invoke : option exn;
  get_output : exn + list pyfloat
}.

(** [[0.33, 0.33, 0.34]] *)
Definition fallback_probabilities : list pyfloat :=
  [mkfloat 1 Float64.lit_0_33; mkfloat 1 Float64.lit_0_33;
   mkfloat 2 Float64.lit_0_34].

Definition run_inference (eng : engine_env) (input_data : list spec_float)
  : M (list pyfloat) :=
  emit (EvPrint LogRunningInference) ;;
  try_except
    (call (EvSetInput input_data) (outcome_of (set_input eng)) ;;
     call EvInvoke (outcome_of (invoke eng)) ;;
     output <- call EvGetOutput (get_output eng) ;;
     emit (EvPrint LogInferenceComplete) ;;
     emit (EvPrint (LogRawOutput output)) ;;
     (if negb (len output =? len class_names) then
        emit (EvPrint (LogUnexpectedOutputs (len class_names) (len output)))
      else ret tt) ;;
     ret output)
    (fun e =>
       emit (EvPrint (LogInferenceError e)) ;;
       ret fallback_probabilities).

(** [now] is what [time.ticks_ms()] returns. *)
Definition process_result (now : Z) (output : list pyfloat) : M results :=
  ts <- call EvTicksMs (inr now) ;;
  let probs := if 3 <=? len output then firstn 3 output
               else fallback_probabilities in
  cls <- (if 3 <=? len output then
            top <- py_max (firstn 3 output) ;;
            py_index output top
          else ret 0) ;;
  ret {| timestamp := ts; probabilities := probs; predicted_class := cls |}.

(** What one pass through the body of [while True] meets. *)
Record tick_env : Type := {
  capture : exn + frame_obj;
  engine : engine_env;
  ticks_ms : Z;
  network : HTTPServer.net_env
}.

(** The variables that survive from one pass to the next. *)
Record loop_state : Type := {
  last_class : Z;
  http_server : HTTPServer.t
}.

Section Loop.

Variable json_dumps : results -> string.

(** The body of [while True] in [run_classification]; [None] from
    the capture step stands for its [continue]. *)
Definition loop_body (env : tick_env) (st : loop_state) : M loop_state :=
  captured <- try_except
    (frame <- call EvCapture (capture env) ;;
     if negb (truthy frame) then
       emit (EvPrint LogCaptureFailed) ;;
       emit (EvSleepMs 100) ;;
       ret None
     else ret (Some frame))
    (fun e =>
       emit (EvPrint (LogCaptureError e)) ;;
       emit (EvSleepMs 100) ;;
       ret None) ;;
  match captured with
  | None => ret st
  | Some frame =>
      input_data <- preprocess_image frame ;;
      match input_data with
      | [] => emit (EvSleepMs 50) ;; ret st
      | _ :: _ =>
          output <- run_inference (engine env) input_data ;;
          result <- process_result (ticks_ms env) output ;;
          last <- (if negb (predicted_class result =? last_class st) then
                     emit (EvPrint (LogNewPrediction result)) ;;
                     class_name <- getitem class_names (predicted_class result) ;;
                     top <- py_max (probabilities result) ;;
                     let confidence := Float64.mul (fval top) Float64.lit_100 in
                     emit (EvPrint (LogClassConfidence class_name confidence)) ;;
                     ret (predicted_class result)
                   else ret (last_class st)) ;;
          let server := HTTPServer.update_results (http_server st) result in
          HTTPServer.handle_client json_dumps server (network env) ;;
          emit EvGcCollect ;;
          emit (EvSleepMs 50) ;;
          ret {| last_class := last; http_server := server |}
      end
  end.

(** The first passes of the loop, one per environment of the list. *)
Fixpoint loop (envs : list tick_env) (st : loop_state) : M loop_state :=
  match envs with
  | [] => ret st
  | env :: rest => st' <- loop_body env st ;; loop rest st'
  end.

(** [run_classification] over its first passes.  An exception that
    leaves a pass leaves the loop; the clean-up clauses that follow
    the loop in the source are not part of this model. *)
Definition run_classification (self : HTTPServer.t) (envs : list tick_env)
  : M loop_state :=
  emit (EvPrint LogStartingLoop) ;;
  loop envs {| last_class := -1; http_server := self |}.

End Loop.

End RealTimeClassifier.

(* ------------------------------------------------------------------ *)
(** ** Vocabulary of the specification *)

(** [top] is a maximum of [l]: an entry that no entry exceeds. *)
Definition is_maximum (l : list pyfloat) (top : pyfloat) : Prop :=
  In top l /\
  forall x, In x l -> Float64.gtb (fval x) (fval top) = false.

(** [i] is the first index of [l] at which [top] occurs. *)
Definition first_occurrence (l : list pyfloat) (top : pyfloat) (i : Z) : Prop :=
  0 <= i /\
  (exists y, nth_error l (Z.to_nat i) = Some y /\ py_same_or_equal y top = true) /\
  (forall j y, (j < Z.to_nat i)%nat -> nth_error l j = Some y ->
               py_same_or_equal y top = false).

(** [i] is the index of the maximum of [l], the lowest one on a tie. *)
Definition argmax_lowest (l : list pyfloat) (i : Z) : Prop :=
  exists top, is_maximum l top /\ first_occurrence l top i.

(** [sum(l)], adding from the left, starting from the int 0. *)
Definition py_sum (l : list pyfloat) : spec_float :=
  fold_left Float64.add (map fval l) (Float64.of_int 0).

(** The results the system produces or holds: the cache's first content
    and whatever [process_result] returns. *)
Inductive held_by_system : results -> Prop :=
| held_initial : held_by_system HTTPServer.initial_results
| held_processed (now : Z) (output : list pyfloat) (r : results) :
    outcome (RealTimeClassifier.process_result now output) = inr r ->
    held_by_system r.

(** The three values one pass of the sampling loop appends at offset [i]. *)
Definition triple (data : list byte) (i : Z) : list spec_float :=
  [RealTimeClassifier.normalize (nth (Z.to_nat i) data x00);
   RealTimeClassifier.normalize (nth (Z.to_nat (i + 1)) data x00);
   RealTimeClassifier.normalize (nth (Z.to_nat (i + 2)) data x00)].

(** The number, from 0 to 255, that a byte stands for. *)
Definition byte_value (b : byte) : Z := Z.of_N (Byte.to_N b).

(** The byte that entry [j] of the tensor is taken from, as the
    specification words it: byte [j mod 3] of sample [j / 3], samples
    being [step] bytes apart; none once the samples are exhausted. *)
Definition sampled_byte (data : list byte) (j : Z) : option byte :=
  let step := Z.max 1 (len data / RealTimeClassifier.INPUT_LEN) in
  let i := (j / 3) * step in
  if i <? len data - 3 then nth_error data (Z.to_nat (i + j mod 3))
  else None.

(** [n] divided by 255: the quotient of the two numbers as floats. *)
Definition over_255 (n : Z) : spec_float :=
  Float64.div (Float64.of_int n) (Float64.of_int 255).

(** Entry [j] of the tensor as the specification words it: the sampled
    byte over 255; zero once the samples are exhausted. *)
Definition tensor_entry (data : list byte) (j : Z) : spec_float :=
  match sampled_byte data j with
  | Some b => over_255 (byte_value b)
  | None => Float64.lit_0_0
  end.

(** The rational number a finite float stands for. *)
Definition exact_value (x : spec_float) : option Q :=
  match x with
  | S754_zero _ => Some (0 # 1)
  | S754_finite s m e =>
      Some (Qmult (inject_Z (if s then Z.neg m else Z.pos m))
                  (Qpower (2 # 1) e))
  | _ => None
  end.

(** [x] is the rational [q] up to one rounding to binary64: a finite
    float whose distance from [q] is at most [2^-53] times [|q|]. *)
Definition rounding_of (q : Q) (x : spec_float) : bool :=
  match exact_value x with
  | Some v =>
      Qle_bool (Qabs (Qminus v q)) (Qmult (Qabs q) (Qpower (2 # 1) (-53)))
  | None => false
  end.

(** The path of a request: the second space-separated word of its first
    line, when there is one. *)
Definition request_path (request : string) : option string :=
  match str_split LF request with
  | request_line :: _ => nth_error (str_split " " request_line) 1
  | [] => None
  end.

Definition known_route (path : string) : bool :=
  existsb (String.eqb path)
    ["/classify"%string; "/data"%string; "/api"%string;
     "/jpg"%string; "/capture"%string].

(** The exception, if any, with which one inference fails. *)
Definition engine_failure (eng : RealTimeClassifier.engine_env) : option exn :=
  match RealTimeClassifier.set_input eng with
  | Some e => Some e
  | None =>
      match RealTimeClassifier.invoke eng with
      | Some e => Some e
      | None =>
          match RealTimeClassifier.get_output eng with
          | inl e => Some e
          | inr _ => None
          end
      end
  end.

(** Capture fails: it raises, or what it returns is falsy. *)
Definition capture_fails (env : RealTimeClassifier.tick_env) : bool :=
  match RealTimeClassifier.capture env with
  | inl _ => true
  | inr frame => negb (truthy frame)
  end.

(** Events on the listening socket or on a client connection. *)
Definition responder_event (ev : event) : bool :=
  match ev with
  | EvSetBlocking _ | EvAccept | EvClientSetBlocking _ | EvRecv _
  | EvSend _ | EvClientClose => true
  | _ => false
  end.

(** A stretch of trace without any such event. *)
Definition quiet (tr : list event) : Prop :=
  forallb (fun ev => negb (responder_event ev)) tr = true.

(** Events of the interpreter. *)
Definition inference_event (ev : event) : bool :=
  match ev with
  | EvSetInput _ | EvInvoke | EvGetOutput
  | EvPrint LogRunningInference => true
  | _ => false
  end.

(** The preprocessing step announces itself on the console. *)
Definition preprocessing_event (ev : event) : bool :=
  match ev with
  | EvPrint (LogProcessingImage _) => true
  | _ => false
  end.

Definition is_send (ev : event) : bool :=
  match ev with
  | EvSend _ => true
  | _ => false
  end.

(** The ports on which [bind] was called, in order. *)
Definition binds (tr : list event) : list Z :=
  flat_map (fun ev => match ev with EvBind p => [p] | _ => [] end) tr.

(* ------------------------------------------------------------------ *)
(** ** Further vocabulary: routes, kinds of event, sample inputs *)

(** The two groups of routes the handler tells apart by exact match. *)
Definition json_route (path : string) : bool :=
  ((path =? "/classify") || (path =? "/data") || (path =? "/api"))%string.

Definition image_route (path : string) : bool :=
  ((path =? "/jpg") || (path =? "/capture"))%string.

(** What every exchange with an accepted client begins with. *)
Definition exchange_start : list event :=
  [EvSetBlocking false; EvAccept; EvPrint LogClientConnected;
   EvClientSetBlocking true; EvRecv 1024].

Definition is_close (ev : event) : bool :=
  match ev with EvClientClose => true | _ => false end.

Definition is_accept (ev : event) : bool :=
  match ev with EvAccept => true | _ => false end.

Definition is_listen (ev : event) : bool :=
  match ev with EvListen _ => true | _ => false end.

Definition is_client_event (ev : event) : bool :=
  match ev with
  | EvClientSetBlocking _ | EvRecv _ | EvSend _ | EvClientClose => true
  | _ => false
  end.

Definition is_error_log (ev : event) : bool :=
  match ev with
  | EvPrint (LogServerError _) | EvPrint (LogClientError _) => true
  | _ => false
  end.

Definition new_prediction_event (ev : event) : bool :=
  match ev with EvPrint (LogNewPrediction _) => true | _ => false end.

(** [errno == 11] on an [OSError]: the would-block case. *)
Definition would_block (e : exn) : bool :=
  match e with OSError errno => errno =? 11 | _ => false end.

(** Events of the preprocessing and inference steps. *)
Definition pipeline_event (ev : event) : bool :=
  match ev with
  | EvSetInput _ | EvInvoke | EvGetOutput
  | EvPrint (LogProcessingImage _) | EvPrint LogRunningInference
  | EvPrint LogInferenceComplete | EvPrint (LogRawOutput _)
  | EvPrint (LogUnexpectedOutputs _ _) | EvPrint (LogInferenceError _) => true
  | _ => false
  end.

(** Events the request handler can produce. *)
Definition handler_event (ev : event) : bool :=
  match ev with
  | EvSetBlocking _ | EvAccept | EvClientSetBlocking _ | EvRecv _
  | EvSend _ | EvClientClose | EvCapture
  | EvPrint LogClientConnected | EvPrint (LogServerError _)
  | EvPrint (LogClientError _) => true
  | _ => false
  end.

(** [c in s] for a character. *)
Fixpoint occurs (c : ascii) (s : string) : bool :=
  match s with
  | EmptyString => false
  | String c' rest => Ascii.eqb c' c || occurs c rest
  end.

Definition CR : string := String "013"%char EmptyString.

(** Three probabilities and a class index that [class_names] has. *)
Definition well_shaped (r : results) : Prop :=
  len (probabilities r) = 3 /\ 0 <= predicted_class r < 3.

(** The number of sample triples that fill a tensor, and the number of
    leading bytes they cover when the stride is 1. *)
Definition FULL_SAMPLES : Z := RealTimeClassifier.INPUT_LEN / 3.
Definition STRIDE1_WINDOW : Z := FULL_SAMPLES + 2.

(** Inputs on which the statements below are tried. *)
Definition sample_server : HTTPServer.t :=
  {| HTTPServer.port := 80;
     HTTPServer.latest_results := HTTPServer.initial_results |}.

Definition sample_results : results :=
  {| timestamp := 4321;
     probabilities := [mkfloat 21 Float64.lit_0_33; mkfloat 22 Float64.lit_1_0;
                       mkfloat 23 Float64.lit_0_34];
     predicted_class := 1 |}.

Definition sample_client (request : string) : HTTPServer.client_env :=
  {| HTTPServer.recv_decode := inr request |}.

Definition sample_net (request : string) (frame : exn + frame_obj)
  : HTTPServer.net_env :=
  {| HTTPServer.accept := inr (sample_client request);
     HTTPServer.capture := frame |}.

Definition sample_request (path : string) : string :=
  ("GET " ++ path ++ " HTTP/1.1" ++ CRLF ++ "Host: esp32" ++ CRLF ++ CRLF)%string.

Definition sample_dumps (r : results) : string :=
  ("{" ++ str_of_int (predicted_class r) ++ "}")%string.

(** A frame of [STRIDE1_WINDOW] bytes [x80] followed by 1000 bytes [tail]. *)
Definition long_frame (tail : byte) : list byte :=
  repeat x80 (Z.to_nat STRIDE1_WINDOW) ++ repeat tail 1000.

Definition sample_engine (output : exn + list pyfloat)
  : RealTimeClassifier.engine_env :=
  {| RealTimeClassifier.set_input := None;
     RealTimeClassifier.invoke := None;
     RealTimeClassifier.get_output := output |}.

(** What holds of the loop's variables between two passes: the cached
    result is one the system produced, and [last_class] is -1 with the
    default still cached, or the class of the cached result. *)
Definition loop_invariant (st : RealTimeClassifier.loop_state) : Prop :=
  let cached := HTTPServer.latest_results (RealTimeClassifier.http_server st) in
  held_by_system cached /\
  well_shaped cached /\
  ((RealTimeClassifier.last_class st = -1 /\ cached = HTTPServer.initial_results)
   \/ RealTimeClassifier.last_class st = predicted_class cached).

Definition sample_tick (frame : exn + frame_obj) (output : exn + list pyfloat)
  (request : string) : RealTimeClassifier.tick_env :=
  {| RealTimeClassifier.capture := frame;
     RealTimeClassifier.engine := sample_engine output;
     RealTimeClassifier.ticks_ms := 5000;
     RealTimeClassifier.network := sample_net request (inr FrameNone) |}.

Definition sample_state (last : Z) : RealTimeClassifier.loop_state :=
  {| RealTimeClassifier.last_class := last;
     RealTimeClassifier.http_server := sample_server |}.

(* ------------------------------------------------------------------ *)
(** ** The handler when writing to the client can fail *)

Module Writes.

(** What becomes of the handler's writes: the outcome of
    [client.send(data)] for the data given and that of [client.close()]
    ([None]: the call returns), and the bytes that a captured object
    which is neither bytes nor [None] exposes to [send], if it is a
    buffer at all. *)
Record write_env : Type := {
  send_outcome : payload -> option exn;
  close_outcome : option exn;
  other_buffer : option (list byte)
}.

(** [client.send(data)] *)
Definition send (w : write_env) (data : payload) : M unit :=
  call (EvSend data) (outcome_of (send_outcome w data)).

(** [client.send(img)]: what is not a buffer raises before anything is
    written. *)
Definition send_frame (w : write_env) (img : frame_obj) : M unit :=
  match img with
  | FrameBytes data => send w (RawBytes data)
  | FrameNone => raise TypeError
  | FrameOther _ =>
      match other_buffer w with
      | Some data => send w (RawBytes data)
      | None => raise TypeError
      end
  end.

Section Handler.

Variable json_dumps : results -> string.

(** [HTTPServer.handle_client], every [send] and the [close] being
    calls that may raise. *)
Definition handle_client (self : HTTPServer.t) (env : HTTPServer.net_env)
  (w : write_env) : M unit :=
  emit (EvSetBlocking false) ;;
  try_except
    (client <- call EvAccept (HTTPServer.accept env) ;;
     emit (EvPrint LogClientConnected) ;;
     emit (EvClientSetBlocking true) ;;
     request <- call (EvRecv 1024) (HTTPServer.recv_decode client) ;;
     request_line <- getitem (str_split LF request) 0 ;;
     path <- getitem (str_split " " request_line) 1 ;;
     (if (path =? "/classify")%string || (path =? "/data")%string
         || (path =? "/api")%string then
        let response := json_dumps (HTTPServer.latest_results self) in
        send w (Encoded (HTTPServer.json_header ++ response)%string)
      else if (path =? "/jpg")%string || (path =? "/capture")%string then
        try_except
          (img <- call EvCapture (HTTPServer.capture env) ;;
           send w (Encoded HTTPServer.jpeg_header) ;;
           send_frame w img)
          (fun _ => send w (Encoded HTTPServer.error_response))
      else
        let response := HTTPServer.status_page self in
        send w (Encoded (HTTPServer.html_header ++ response)%string)) ;;
     call EvClientClose (outcome_of (close_outcome w)))
    (fun e =>
       match e with
       | OSError errno =>
           if errno =? 11 then ret tt
           else emit (EvPrint (LogServerError e))
       | _ => emit (EvPrint (LogClientError e))
       end).

End Handler.

(** Every write goes through; an object that is neither bytes nor
    [None] is no buffer. *)
Definition reliable : write_env :=
  {| send_outcome := fun _ => None;
     close_outcome := None;
     other_buffer := None |}.

(** The client has gone: every [send] raises [ECONNRESET]. *)
Definition broken_pipe : write_env :=
  {| send_outcome := fun _ => Some (OSError 104);
     close_outcome := None;
     other_buffer := None |}.

End Writes.

(* ------------------------------------------------------------------ *)
(** ** Start-up of the classifier: [RealTimeClassifier.__init__] and the
    three [setup_*] methods it calls *)

(** The console messages of the start-up code. *)
Inductive setup_log : Type :=
| LogConnectingWifi
| LogWifiConnected
| LogDeviceIP (ip : string)
| LogInitializingCamera
| LogCameraDefaults
| LogTestFrameIssue
| LogCameraInitialized
| LogCameraInitFailed (e : exn)
| LogLoadingModel
| LogCheckingModel
| LogFiles (files : list string)
| LogCouldNotList
| LogAttemptingLoad
| LogModelLoaded
| LogModelInformation
| LogInputShape (shape : option (list Z))
| LogOutputShape (shape : option (list Z))
| LogShapeWarning (shape : list Z) (expected : Z)
| LogNoModelInformation
| LogModelLoadingFailed (e : exn).

(** The calls the start-up code makes; those of [HTTPServer.__init__]
    are carried over as they are. *)
Inductive setup_event : Type :=
| SvWlanCreate
| SvWlanActive (flag : bool)
| SvWlanConnect (ssid password : string)
| SvIsConnected
| SvIfconfig
| SvSleep (seconds : Z)
| SvCameraInit
| SvFramesize (size : Z)
| SvPixformat (format : Z)
| SvQuality (quality : Z)
| SvCapture
| SvSleepMs (ms : Z)
| SvListdir
| SvLoadModel (path : string)
| SvGetInputShape
| SvGetOutputShape
| SvServer (ev : event)
| SvPrint (msg : setup_log).

Module Setup.

(** The same kind of computation as [M], over the start-up events. *)
Definition S (A : Type) : Type := (list setup_event * (exn + A))%type.

Definition ret {A : Type} (a : A) : S A := ([], inr a).

Definition raise {A : Type} (e : exn) : S A := ([], inl e).

Definition bind {A B : Type} (m : S A) (k : A -> S B) : S B :=
  match m with
  | (tr, inl e) => (tr, inl e)
  | (tr, inr a) => let (tr', r) := k a in (tr ++ tr', r)
  end.

Definition emit (ev : setup_event) : S unit := ([ev], inr tt).

Definition call {A : Type} (ev : setup_event) (outcome : exn + A) : S A :=
  ([ev], outcome).

Definition try_except {A : Type} (m : S A) (h : exn -> S A) : S A :=
  match m with
  | (tr, inl e) => let (tr', r) := h e in (tr ++ tr', r)
  | (tr, inr a) => (tr, inr a)
  end.

(** A computation of the server, run during start-up. *)
Definition lift {A : Type} (m : M A) : S A := (map SvServer (fst m), snd m).

Declare Scope setup_scope.
Delimit Scope setup_scope with setup.
Notation "x <- c1 ;; c2" := (bind c1 (fun x => c2))
  (at level 61, c1 at next level, right associativity) : setup_scope.
Notation "c1 ;; c2" := (bind c1 (fun _ => c2))
  (at level 61, right associativity) : setup_scope.
Local Open Scope setup_scope.

(** What the network interface does: the three calls that set it up,
    the successive answers of [isconnected()], and the address
    [ifconfig()[0]]. *)
Record wifi_env : Type := {
  wlan_create : option exn;
  wlan_active : option exn;
  wlan_connect : option exn;
  polls : list (exn + bool);
  ifconfig : exn + string
}.

(** [while not self.wlan.isconnected(): time.sleep(1)], over the answers
    given; [false] when they are used up and none was positive. *)
Fixpoint wait_connected (answers : list (exn + bool)) : S bool :=
  match answers with
  | [] => ret false
  | answer :: rest =>
      connected <- call SvIsConnected answer ;;
      if negb connected then emit (SvSleep 1) ;; wait_connected rest
      else ret true
  end.

(** [setup_wifi]; it returns [false] when the answers are used up while
    it is still waiting. *)
Definition setup_wifi (env : wifi_env) (ssid password : string) : S bool :=
  emit (SvPrint LogConnectingWifi) ;;
  call SvWlanCreate (outcome_of (wlan_create env)) ;;
  call (SvWlanActive true) (outcome_of (wlan_active env)) ;;
  call (SvWlanConnect ssid password) (outcome_of (wlan_connect env)) ;;
  connected <- wait_connected (polls env) ;;
  if connected then
    emit (SvPrint LogWifiConnected) ;;
    ip <- call SvIfconfig (ifconfig env) ;;
    emit (SvPrint (LogDeviceIP ip)) ;;
    ret true
  else ret false.

(** [for x in items: body(x)] *)
Fixpoint for_each {A : Type} (items : list A) (body : A -> S unit) : S unit :=
  match items with
  | [] => ret tt
  | x :: rest => body x ;; for_each rest body
  end.

(** What the camera does during start-up; [warmup k] is the outcome of
    the capture of warm-up round [k]. *)
Record camera_env : Type := {
  init : option exn;
  framesize : option exn;
  pixformat : option exn;
  quality : option exn;
  warmup : Z -> exn + frame_obj
}.

Definition setup_camera (env : camera_env) : S unit :=
  emit (SvPrint LogInitializingCamera) ;;
  try_except
    (call SvCameraInit (outcome_of (init env)) ;;
     try_except
       (call (SvFramesize 4) (outcome_of (framesize env)) ;;
        call (SvPixformat 0) (outcome_of (pixformat env)) ;;
        call (SvQuality 10) (outcome_of (quality env)))
       (fun _ => emit (SvPrint LogCameraDefaults)) ;;
     for_each (py_range 0 3 1)
       (fun k =>
          try_except
            (frame <- call SvCapture (warmup env k) ;;
             emit (SvSleepMs 100))
            (fun _ => emit (SvPrint LogTestFrameIssue))) ;;
     emit (SvPrint LogCameraInitialized))
    (fun e =>
       emit (SvPrint (LogCameraInitFailed e)) ;;
       raise e).

(** What the file system and the interpreter do during start-up. *)
Record model_env : Type := {
  listdir : exn + list string;
  load : option exn;
  get_input_shape : exn + option (list Z);
  get_output_shape : exn + option (list Z)
}.

Definition setup_model (env : model_env) : S unit :=
  emit (SvPrint LogLoadingModel) ;;
  try_except
    (emit (SvPrint LogCheckingModel) ;;
     try_except
       (files <- call SvListdir (listdir env) ;;
        emit (SvPrint (LogFiles files)))
       (fun _ => emit (SvPrint LogCouldNotList)) ;;
     emit (SvPrint LogAttemptingLoad) ;;
     call (SvLoadModel "model.tflite") (outcome_of (load env)) ;;
     emit (SvPrint LogModelLoaded) ;;
     try_except
       (emit (SvPrint LogModelInformation) ;;
        input_shape <- call SvGetInputShape (get_input_shape env) ;;
        output_shape <- call SvGetOutputShape (get_output_shape env) ;;
        emit (SvPrint (LogInputShape input_shape)) ;;
        emit (SvPrint (LogOutputShape output_shape)) ;;
        let expected_input := 224 * 224 * 3 in
        match input_shape with
        | Some (first :: dims) =>
            if negb (first =? expected_input) then
              emit (SvPrint (LogShapeWarning (first :: dims) expected_input))
            else ret tt
        | _ => ret tt
        end)
       (fun _ => emit (SvPrint LogNoModelInformation)))
    (fun e =>
       emit (SvPrint (LogModelLoadingFailed e)) ;;
       raise e).

Record init_env : Type := {
  wifi : wifi_env;
  camera : camera_env;
  model : model_env;
  server : HTTPServer.bind_env
}.

(** [RealTimeClassifier.__init__]; [None] when the wait for the network
    outlasts the answers given. *)
Definition __init__ (env : init_env) (ssid password : string)
  : S (option HTTPServer.t) :=
  connected <- setup_wifi (wifi env) ssid password ;;
  if connected then
    setup_camera (camera env) ;;
    setup_model (model env) ;;
    http_server <- lift (HTTPServer.__init__ (server env) 80) ;;
    ret (Some http_server)
  else ret None.

(** Kinds of start-up event. *)
Definition is_poll (ev : setup_event) : bool :=
  match ev with SvIsConnected => true | _ => false end.

Definition is_sleep (ev : setup_event) : bool :=
  match ev with SvSleep _ => true | _ => false end.

Definition is_capture (ev : setup_event) : bool :=
  match ev with SvCapture => true | _ => false end.

Definition is_pause (ev : setup_event) : bool :=
  match ev with SvSleepMs _ => true | _ => false end.

Definition is_parameter_call (ev : setup_event) : bool :=
  match ev with
  | SvFramesize _ | SvPixformat _ | SvQuality _ => true
  | _ => false
  end.

Definition is_shape_warning (ev : setup_event) : bool :=
  match ev with SvPrint (LogShapeWarning _ _) => true | _ => false end.

(** Events of the steps that follow the camera set-up. *)
Definition after_camera (ev : setup_event) : bool :=
  match ev with
  | SvListdir | SvLoadModel _ | SvGetInputShape | SvGetOutputShape
  | SvServer _ => true
  | _ => false
  end.

Definition succeeded {A : Type} (o : exn + A) : bool :=
  match o with inr _ => true | inl _ => false end.

(** Inputs on which the statements are tried. *)
Definition quiet_wifi (answers : list (exn + bool)) : wifi_env :=
  {| wlan_create := None; wlan_active := None; wlan_connect := None;
     polls := answers; ifconfig := inr "192.168.4.1"%string |}.

Definition sample_camera (f : option exn) : camera_env :=
  {| init := None; framesize := f; pixformat := None; quality := None;
     warmup := fun k => if k =? 1 then inl (OSError 5) else inr FrameNone |}.

Definition sample_model (shape : list Z) : model_env :=
  {| listdir := inl (OSError 2); load := None;
     get_input_shape := inr (Some shape); get_output_shape := inr (Some [3]) |}.

Definition is_server_event (ev : setup_event) : bool :=
  match ev with SvServer _ => true | _ => false end.

Definition sample_init (cam : option exn) (mdl : option exn) : init_env :=
  {| wifi := quiet_wifi [inr false; inr true];
     camera := {| init := cam; framesize := None; pixformat := None;
                  quality := None; warmup := fun _ => inr FrameNone |};
     model := {| listdir := inr ["boot.py"%string; "model.tflite"%string];
                 load := mdl;
                 get_input_shape := inr (Some [224 * 224 * 3]);
                 get_output_shape := inr (Some [3]) |};
     server := {| HTTPServer.bind_primary := None;
                  HTTPServer.bind_alternate := None |} |}.

End Setup.

(* ------------------------------------------------------------------ *)
(** ** The monad *)

Lemma bind_ret {A B : Type} (a : A) (k : A -> M B) : bind (ret a) k = k a.
Proof. unfold bind, ret. destruct (k a); reflexivity. Qed.

Lemma bind_value {A B : Type} (m : M A) (k : A -> M B) tr a :
  m = (tr, inr a) -> bind m k = (tr ++ trace (k a), outcome (k a)).
Proof. intros ->. unfold bind, trace, outcome. destruct (k a); reflexivity. Qed.

Lemma bind_step {A B : Type} (m : M A) (k : A -> M B) tr a tr' r :
  m = (tr, inr a) -> k a = (tr', r) -> bind m k = (tr ++ tr', r).
Proof. intros -> Hk. unfold bind. rewrite Hk. reflexivity. Qed.

Lemma surjective_M {A : Type} (m : M A) : m = (trace m, outcome m).
Proof. destruct m; reflexivity. Qed.

(* ------------------------------------------------------------------ *)
(** ** The model on small inputs *)

Example str_split_words :
  str_split " " "GET /api HTTP/1.1"
  = ["GET"%string; "/api"%string; "HTTP/1.1"%string].
Proof. reflexivity. Qed.

Example str_split_no_separator : str_split " " "GET" = ["GET"%string].
Proof. reflexivity. Qed.

Example py_range_stride : py_range 0 7 3 = [0; 3; 6].
Proof. reflexivity. Qed.

Example py_range_empty : py_range 0 (-1) 1 = [].
Proof. reflexivity. Qed.

Example getitem_negative_index : getitem [10; 20; 30] (-1) = ret 30.
Proof. reflexivity. Qed.

Example normalize_extremes :
  RealTimeClassifier.normalize x00 = Float64.lit_0_0 /\
  RealTimeClassifier.normalize xff = Float64.lit_1_0.
Proof. split; reflexivity. Qed.

(** [[0.1, 0.7, 0.2]] gives class 1. *)
Example process_result_middle_class :
  outcome (RealTimeClassifier.process_result 0
             [mkfloat 1 (Float64.div (Float64.of_int 1) (Float64.of_int 10));
              mkfloat 2 (Float64.div (Float64.of_int 7) (Float64.of_int 10));
              mkfloat 3 (Float64.div (Float64.of_int 2) (Float64.of_int 10))])
  = inr {| timestamp := 0;
           probabilities :=
             [mkfloat 1 (Float64.div (Float64.of_int 1) (Float64.of_int 10));
              mkfloat 2 (Float64.div (Float64.of_int 7) (Float64.of_int 10));
              mkfloat 3 (Float64.div (Float64.of_int 2) (Float64.of_int 10))];
           predicted_class := 1 |}.
Proof. reflexivity. Qed.

(** A NaN in front is what [max] returns, nothing being greater than it,
    and [index] finds that very object at index 0. *)
Example process_result_nan_in_front :
  outcome (RealTimeClassifier.process_result 0
             [mkfloat 1 S754_nan; mkfloat 2 Float64.lit_0_33;
              mkfloat 3 Float64.lit_0_34])
  = inr {| timestamp := 0;
           probabilities := [mkfloat 1 S754_nan; mkfloat 2 Float64.lit_0_33;
                             mkfloat 3 Float64.lit_0_34];
           predicted_class := 0 |}.
Proof. reflexivity. Qed.

(** Two entries tie for the maximum: the lower index wins. *)
Example process_result_tie :
  outcome (RealTimeClassifier.process_result 0
             [mkfloat 1 Float64.lit_0_33; mkfloat 2 Float64.lit_0_34;
              mkfloat 3 Float64.lit_0_34])
  = inr {| timestamp := 0;
           probabilities := [mkfloat 1 Float64.lit_0_33; mkfloat 2 Float64.lit_0_34;
                             mkfloat 3 Float64.lit_0_34];
           predicted_class := 1 |}.
Proof. reflexivity. Qed.

(** [EAGAIN] on [accept]: the handler returns at once, silently. *)
Example handle_client_would_block :
  HTTPServer.handle_client (fun _ => EmptyString)
    {| HTTPServer.port := 80;
       HTTPServer.latest_results := HTTPServer.initial_results |}
    {| HTTPServer.accept := inl (OSError 11);
       HTTPServer.capture := inr FrameNone |}
  = ([EvSetBlocking false; EvAccept], inr tt).
Proof. reflexivity. Qed.

(* ------------------------------------------------------------------ *)
(** ** Order on floats *)

Ltac compare_cases :=
  repeat match goal with
  | |- context [Z.compare ?a ?b] => destruct (Z.compare_spec a b)
  | H : context [Z.compare ?a ?b] |- _ => destruct (Z.compare_spec a b)
  | |- context [Pos.compare_cont Eq ?a ?b] =>
      change (Pos.compare_cont Eq a b) with (Pos.compare a b);
      destruct (Pos.compare_spec a b)
  | H : context [Pos.compare_cont Eq ?a ?b] |- _ =>
      change (Pos.compare_cont Eq a b) with (Pos.compare a b) in H;
      destruct (Pos.compare_spec a b)
  end; simpl in *; try discriminate; try reflexivity; try lia.

Lemma gtb_irrefl x : Float64.gtb x x = false.
Proof.
  unfold Float64.gtb, SFltb, SFcompare.
  destruct x as [[]|[]| |[] m e]; try reflexivity; compare_cases.
Qed.

Lemma gtb_trans x y z :
  Float64.gtb x y = true -> Float64.gtb y z = true -> Float64.gtb x z = true.
Proof.
  unfold Float64.gtb, SFltb, SFcompare.
  destruct x as [[]|[]| |[] mx ex], y as [[]|[]| |[] my ey],
           z as [[]|[]| |[] mz ez];
    try discriminate; try reflexivity; intros H1 H2; compare_cases.
Qed.

Lemma py_same_or_equal_refl x : py_same_or_equal x x = true.
Proof. unfold py_same_or_equal. rewrite Pos.eqb_refl. reflexivity. Qed.

(* ------------------------------------------------------------------ *)
(** ** [max] and [list.index] *)

Lemma fold_keep_greater rest : forall seen m,
  In m seen ->
  (forall x, In x seen -> Float64.gtb (fval x) (fval m) = false) ->
  let top := fold_left keep_greater rest m in
  In top (seen ++ rest) /\
  forall x, In x (seen ++ rest) -> Float64.gtb (fval x) (fval top) = false.
Proof.
  induction rest as [|item rest IH]; intros seen m Hin Hmax; simpl.
  - rewrite app_nil_r. split; assumption.
  - replace (seen ++ item :: rest) with ((seen ++ [item]) ++ rest)
      by (rewrite <- app_assoc; reflexivity).
    apply IH.
    + unfold keep_greater. apply in_or_app.
      destruct (Float64.gtb (fval item) (fval m)); simpl; auto.
    + intros x Hx. unfold keep_greater.
      destruct (Float64.gtb (fval item) (fval m)) eqn:Hgt.
      * apply in_app_or in Hx. destruct Hx as [Hx | [<- | []]].
        -- destruct (Float64.gtb (fval x) (fval item)) eqn:Hx'; [|reflexivity].
           rewrite <- (Hmax x Hx). symmetry.
           apply gtb_trans with (y := fval item); assumption.
        -- apply gtb_irrefl.
      * apply in_app_or in Hx. destruct Hx as [Hx | [<- | []]]; auto.
Qed.

Lemma py_max_is_maximum x rest :
  exists top, py_max (x :: rest) = ret top /\ is_maximum (x :: rest) top.
Proof.
  exists (fold_left keep_greater rest x). split; [reflexivity|].
  apply (fold_keep_greater rest [x] x).
  - left; reflexivity.
  - intros y [<- | []]. apply gtb_irrefl.
Qed.

Lemma index_from_first l x : forall i0,
  (exists y, In y l /\ py_same_or_equal y x = true) ->
  exists n,
    index_from l x i0 = ret (i0 + Z.of_nat n) /\
    (exists y, nth_error l n = Some y /\ py_same_or_equal y x = true) /\
    (forall j y, (j < n)%nat -> nth_error l j = Some y ->
                 py_same_or_equal y x = false).
Proof.
  induction l as [|a l IH]; intros i0 [y [Hin Hy]].
  - destruct Hin.
  - simpl. destruct (py_same_or_equal a x) eqn:Ha.
    + exists 0%nat. rewrite Z.add_0_r. split; [reflexivity|]. split.
      * exists a. split; [reflexivity | assumption].
      * intros j z Hj. lia.
    + destruct Hin as [-> | Hin]; [congruence|].
      destruct (IH (i0 + 1) (ex_intro _ y (conj Hin Hy)))
        as [n [Hidx [Hat Hbefore]]].
      exists (S n). split; [|split].
      * rewrite Hidx.
        replace (i0 + 1 + Z.of_nat n) with (i0 + Z.of_nat (S n)) by lia.
        reflexivity.
      * exact Hat.
      * intros [|j] z Hj Hz; simpl in Hz.
        -- congruence.
        -- apply (Hbefore j z); [lia | assumption].
Qed.

(** Past its first three entries an output plays no part. *)
Lemma firstn3_cases (output : list pyfloat) :
  3 <= len output ->
  exists a b c rest, output = a :: b :: c :: rest /\ firstn 3 output = [a; b; c].
Proof.
  unfold len. destruct output as [|a [|b [|c rest]]]; simpl; try lia.
  intros _. exists a, b, c, rest. split; reflexivity.
Qed.

Lemma nth_error_firstn_lt {A : Type} (l : list A) (n j : nat) :
  (j < n)%nat -> nth_error (firstn n l) j = nth_error l j.
Proof.
  revert l j. induction n as [|n IH]; intros l j Hj; [lia|].
  destruct l as [|a l]; [reflexivity|].
  destruct j as [|j]; [reflexivity|]. simpl. apply IH. lia.
Qed.

(** [process_result] on an output of at least three entries. *)
Lemma process_result_long now output :
  3 <= len output ->
  exists top cls,
    RealTimeClassifier.process_result now output
    = ([EvTicksMs],
       inr {| timestamp := now;
              probabilities := firstn 3 output;
              predicted_class := cls |}) /\
    is_maximum (firstn 3 output) top /\
    first_occurrence (firstn 3 output) top cls /\
    0 <= cls < 3.
Proof.
  intros Hlen.
  destruct (firstn3_cases output Hlen) as [a [b [c [rest [Hout H3]]]]].
  destruct (py_max_is_maximum a [b; c]) as [top [Hmax Htop]].
  assert (Hin : In top output).
  { destruct Htop as [Hin _]. rewrite Hout.
    destruct Hin as [<- | [<- | [<- | []]]]; simpl; auto. }
  destruct (index_from_first output top 0) as [n [Hidx [[y [Hy Hsame]] Hfirst]]].
  { exists top. split; [assumption | apply py_same_or_equal_refl]. }
  assert (Hn : (n < 3)%nat).
  { destruct (Nat.lt_ge_cases n 3) as [|Hge]; [assumption|].
    destruct Htop as [Htop _]. rewrite Hout in Hfirst.
    destruct Htop as [<- | [<- | [<- | []]]].
    - specialize (Hfirst 0%nat a). rewrite py_same_or_equal_refl in Hfirst.
      discriminate Hfirst; [lia | reflexivity].
    - specialize (Hfirst 1%nat b). rewrite py_same_or_equal_refl in Hfirst.
      discriminate Hfirst; [lia | reflexivity].
    - specialize (Hfirst 2%nat c). rewrite py_same_or_equal_refl in Hfirst.
      discriminate Hfirst; [lia | reflexivity]. }
  exists top, (Z.of_nat n). split; [|split; [|split]].
  - unfold RealTimeClassifier.process_result.
    apply Z.leb_le in Hlen. rewrite Hlen. rewrite H3, Hmax, bind_ret.
    unfold py_index. rewrite Hidx. reflexivity.
  - rewrite H3. exact Htop.
  - split; [lia|]. rewrite Nat2Z.id. split.
    + exists y. rewrite nth_error_firstn_lt by assumption. auto.
    + intros j z Hj Hz. apply (Hfirst j z Hj).
      rewrite nth_error_firstn_lt in Hz by lia. exact Hz.
  - lia.
Qed.

(* ------------------------------------------------------------------ *)
(** ** Preprocessing *)

Lemma getitem_in_range {A : Type} (l : list A) (i : Z) (d : A) :
  0 <= i < len l -> getitem l i = ret (nth (Z.to_nat i) l d).
Proof.
  intros Hi. unfold getitem.
  destruct (i <? 0) eqn:Hneg; [apply Z.ltb_lt in Hneg; lia|].
  rewrite Hneg.
  rewrite (nth_error_nth' l d) by (unfold len in Hi; lia).
  reflexivity.
Qed.

(** [frame[i] / 255.0] is the value of the byte over 255. *)
Lemma normalize_over_255 (b : byte) :
  RealTimeClassifier.normalize b = over_255 (byte_value b).
Proof. reflexivity. Qed.

(** The float quotient is the rational one, up to its rounding. *)
Lemma over_255_rounding (b : byte) :
  rounding_of (byte_value b # 255) (over_255 (byte_value b)) = true.
Proof. destruct b; vm_compute; reflexivity. Qed.

Lemma normalize_in_unit_interval (b : byte) :
  Float64.in_unit_interval (RealTimeClassifier.normalize b) = true.
Proof. destruct b; vm_compute; reflexivity. Qed.

Lemma for_each_samples (data : list byte) : forall idxs acc,
  Forall (fun i => 0 <= i /\ i + 2 < len data) idxs ->
  for_each idxs acc
    (fun processed_data i =>
       r <- getitem data i ;;
       g <- getitem data (i + 1) ;;
       b <- getitem data (i + 2) ;;
       ret (processed_data ++ [RealTimeClassifier.normalize r;
                               RealTimeClassifier.normalize g;
                               RealTimeClassifier.normalize b]))
  = ret (acc ++ flat_map (triple data) idxs).
Proof.
  induction idxs as [|i idxs IH]; intros acc Hall; simpl.
  - rewrite app_nil_r. reflexivity.
  - inversion Hall as [|? ? [Hlo Hhi] Hrest]; subst.
    rewrite (getitem_in_range data i x00) by lia. rewrite bind_ret.
    rewrite (getitem_in_range data (i + 1) x00) by lia. rewrite bind_ret.
    rewrite (getitem_in_range data (i + 2) x00) by lia. rewrite !bind_ret.
    rewrite IH by assumption. rewrite <- app_assoc. reflexivity.
Qed.

(** The number of samples taken from [size] bytes at distance [step]. *)
Lemma py_range_from_zero stop step :
  py_range 0 stop step
  = map (fun k => Z.of_nat k * step)
        (seq 0 (Z.to_nat (if 0 <? stop then (stop - 1) / step + 1 else 0))).
Proof.
  unfold py_range. rewrite Z.sub_0_r. reflexivity.
Qed.

Lemma py_range_bounds stop step :
  0 < step -> Forall (fun i => 0 <= i /\ i < stop) (py_range 0 stop step).
Proof.
  intros Hstep. rewrite py_range_from_zero. apply Forall_forall.
  intros i Hi. apply in_map_iff in Hi. destruct Hi as [k [<- Hk]].
  apply in_seq in Hk.
  destruct (0 <? stop) eqn:Hstop; [|simpl in Hk; lia].
  apply Z.ltb_lt in Hstop.
  assert (0 <= (stop - 1) / step) by (apply Z.div_pos; lia).
  assert (Z.of_nat k <= (stop - 1) / step) by lia.
  assert (step * ((stop - 1) / step) <= stop - 1)
    by (apply Z.mul_div_le; lia).
  split; nia.
Qed.

Lemma sample_count_spec stop step k :
  0 < step -> 0 <= k ->
  (k < (if 0 <? stop then (stop - 1) / step + 1 else 0)) <-> k * step < stop.
Proof.
  intros Hstep Hk. destruct (0 <? stop) eqn:Hstop.
  - apply Z.ltb_lt in Hstop.
    assert (step * ((stop - 1) / step) <= stop - 1)
      by (apply Z.mul_div_le; lia).
    split; intros H1.
    + nia.
    + assert (k <= (stop - 1) / step)
        by (apply Z.div_le_lower_bound; lia).
      lia.
  - apply Z.ltb_ge in Hstop. split; intros H1; nia.
Qed.

Lemma nth_error_flat_map_triples {A B : Type} (f : A -> list B) :
  (forall x, List.length (f x) = 3%nat) ->
  forall l j,
    nth_error (flat_map f l) j
    = match nth_error l (j / 3) with
      | Some x => nth_error (f x) (j mod 3)
      | None => None
      end.
Proof.
  intros Hf. induction l as [|x l IH]; intros j; cbn [flat_map].
  - assert (E : forall (T : Type) n, @nth_error T [] n = None)
      by (intros T [|n]; reflexivity).
    rewrite !E. reflexivity.
  - rewrite nth_error_app, Hf.
    destruct (j <? 3)%nat eqn:Hj.
    + apply Nat.ltb_lt in Hj.
      rewrite Nat.div_small, Nat.mod_small by assumption. reflexivity.
    + apply Nat.ltb_ge in Hj. rewrite IH.
      assert (Hk : exists k, j = (k + 1 * 3)%nat) by (exists (j - 3)%nat; lia).
      destruct Hk as [k ->].
      replace (k + 1 * 3 - 3)%nat with k by lia.
      rewrite Nat.div_add, Nat.Div0.mod_add by lia.
      rewrite Nat.add_1_r. reflexivity.
Qed.

Lemma length_flat_map_triples {A B : Type} (f : A -> list B) :
  (forall x, List.length (f x) = 3%nat) ->
  forall l, List.length (flat_map f l) = (3 * List.length l)%nat.
Proof.
  intros Hf. induction l as [|x l IH]; simpl; [reflexivity|].
  rewrite length_app, Hf, IH. lia.
Qed.

Lemma length_triple data i : List.length (triple data i) = 3%nat.
Proof. reflexivity. Qed.

Lemma step_positive (data : list byte) :
  0 < Z.max 1 (len data / RealTimeClassifier.INPUT_LEN).
Proof. lia. Qed.

(** What the sampling loop has collected when it ends. *)
Lemma len_processed data :
  let step := Z.max 1 (len data / RealTimeClassifier.INPUT_LEN) in
  let stop := len data - 3 in
  len (flat_map (triple data) (py_range 0 stop step))
  = 3 * Z.max 0 (if 0 <? stop then (stop - 1) / step + 1 else 0).
Proof.
  intros step stop. unfold len.
  rewrite (length_flat_map_triples _ (length_triple data)).
  rewrite py_range_from_zero, length_map, length_seq. lia.
Qed.

Lemma processed_entry data j :
  let step := Z.max 1 (len data / RealTimeClassifier.INPUT_LEN) in
  let processed := flat_map (triple data) (py_range 0 (len data - 3) step) in
  0 <= j ->
  (j < len processed ->
   nth_error processed (Z.to_nat j) = Some (tensor_entry data j)) /\
  (len processed <= j -> tensor_entry data j = Float64.lit_0_0).
Proof.
  intros step processed Hj.
  pose proof (step_positive data) as Hstep. fold step in Hstep.
  pose proof (len_processed data) as Hlen. cbv zeta in Hlen.
  fold step in Hlen. fold processed in Hlen.
  set (stop := len data - 3) in *.
  set (count := if 0 <? stop then (stop - 1) / step + 1 else 0) in *.
  assert (Hdiv : 0 <= j / 3) by (apply Z.div_pos; lia).
  pose proof (sample_count_spec stop step (j / 3) Hstep Hdiv) as Hcount.
  fold count in Hcount.
  pose proof (Z.div_mod j 3 ltac:(lia)) as Hdm.
  pose proof (Z.mod_pos_bound j 3 ltac:(lia)) as Hmod.
  unfold tensor_entry, sampled_byte. fold step. fold stop.
  split; intros Hin.
  - assert (Hk : j / 3 < count) by lia.
    apply Hcount in Hk. apply Z.ltb_lt in Hk as Hk'. rewrite Hk'.
    unfold processed.
    rewrite (nth_error_flat_map_triples _ (length_triple data)).
    rewrite py_range_from_zero. fold stop. fold count.
    rewrite nth_error_map, nth_error_seq.
    assert (Hq : Z.of_nat (Z.to_nat j / 3) = j / 3)
      by (rewrite Nat2Z.inj_div, Z2Nat.id by lia; reflexivity).
    assert (Hr : Z.of_nat (Z.to_nat j mod 3) = j mod 3)
      by (rewrite Nat2Z.inj_mod, Z2Nat.id by lia; reflexivity).
    destruct (Z.to_nat j / 3 <? Z.to_nat count)%nat eqn:Hlt;
      [|apply Nat.ltb_ge in Hlt; lia].
    cbn [option_map Nat.add]. rewrite Hq.
    assert (Hrange : (Z.to_nat (j / 3 * step + j mod 3) < List.length data)%nat)
      by (unfold stop, len in Hk; lia).
    rewrite (nth_error_nth' data x00 Hrange).
    rewrite <- Hr.
    destruct (Z.to_nat j mod 3)%nat as [|[|[|r]]] eqn:Hrem.
    + cbn [nth_error triple]. rewrite Z.add_0_r. reflexivity.
    + reflexivity.
    + reflexivity.
    + lia.
  - destruct (j / 3 * step <? stop) eqn:Hk; [|reflexivity].
    apply Z.ltb_lt in Hk. apply Hcount in Hk. lia.
Qed.

Lemma INPUT_LEN_positive : 0 < RealTimeClassifier.INPUT_LEN.
Proof. reflexivity. Qed.

Lemma Forall_unit_interval_zeros n :
  Forall (fun x => Float64.in_unit_interval x = true) (repeat Float64.lit_0_0 n).
Proof. apply Forall_forall. intros x Hx. apply repeat_spec in Hx. subst. reflexivity. Qed.

Lemma Forall_unit_interval_processed data idxs :
  Forall (fun x => Float64.in_unit_interval x = true)
         (flat_map (triple data) idxs).
Proof.
  apply Forall_flat_map. apply Forall_forall. intros i _.
  unfold triple. repeat constructor; apply normalize_in_unit_interval.
Qed.

Lemma Forall_firstn_keeps {A : Type} (P : A -> Prop) (l : list A) :
  Forall P l -> forall n, Forall P (firstn n l).
Proof.
  induction 1 as [|x l Hx Hl IH]; intros [|n]; cbn [firstn]; constructor; auto.
Qed.

Lemma preprocess_image_bytes data :
  let step := Z.max 1 (len data / RealTimeClassifier.INPUT_LEN) in
  let processed := flat_map (triple data) (py_range 0 (len data - 3) step) in
  RealTimeClassifier.preprocess_image (FrameBytes data)
  = ([EvPrint (LogProcessingImage (len data))],
     inr (if len processed <? RealTimeClassifier.INPUT_LEN then
            processed ++ repeat Float64.lit_0_0
              (Z.to_nat (RealTimeClassifier.INPUT_LEN - len processed))
          else firstn (Z.to_nat RealTimeClassifier.INPUT_LEN) processed)).
Proof.
  intros step processed. unfold RealTimeClassifier.preprocess_image.
  fold step.
  rewrite (for_each_samples data).
  - rewrite bind_ret. cbn [app]. fold processed.
    destruct (len processed <? RealTimeClassifier.INPUT_LEN); reflexivity.
  - pose proof (py_range_bounds (len data - 3) step (step_positive data)) as Hb.
    eapply Forall_impl; [|exact Hb]. intros i Hi. cbv beta in Hi. lia.
Qed.

(** The tensor [preprocess_image] returns, entry by entry. *)
Lemma preprocess_image_spec (frame : frame_obj) :
  exists tensor,
    outcome (RealTimeClassifier.preprocess_image frame) = inr tensor /\
    len tensor = 224 * 224 * 3 /\
    Forall (fun x => Float64.in_unit_interval x = true) tensor /\
    match frame with
    | FrameBytes data =>
        forall j, 0 <= j < 224 * 224 * 3 ->
                  nth_error tensor (Z.to_nat j) = Some (tensor_entry data j)
    | _ => tensor = repeat Float64.lit_0_0 (Z.to_nat (224 * 224 * 3))
    end.
Proof.
  change (224 * 224 * 3) with RealTimeClassifier.INPUT_LEN.
  pose proof INPUT_LEN_positive as Hpos.
  assert (Hzeros : len (repeat Float64.lit_0_0 (Z.to_nat RealTimeClassifier.INPUT_LEN))
                   = RealTimeClassifier.INPUT_LEN).
  { unfold len. rewrite repeat_length. lia. }
  destruct frame as [data| |t].
  - rewrite preprocess_image_bytes. cbv zeta.
    set (step := Z.max 1 (len data / RealTimeClassifier.INPUT_LEN)).
    set (processed := flat_map (triple data) (py_range 0 (len data - 3) step)).
    pose proof (Forall_unit_interval_processed data
                  (py_range 0 (len data - 3) step)) as Hunit.
    fold processed in Hunit.
    assert (Hentry := fun j => processed_entry data j). cbv zeta in Hentry.
    fold step in Hentry. fold processed in Hentry.
    destruct (len processed <? RealTimeClassifier.INPUT_LEN) eqn:Hshort.
    + apply Z.ltb_lt in Hshort. eexists. split; [reflexivity|].
      split; [|split].
      * unfold len in *. rewrite length_app, repeat_length. lia.
      * apply Forall_app. split; [assumption | apply Forall_unit_interval_zeros].
      * intros j Hj. destruct (Hentry j ltac:(lia)) as [Hin Hout].
        destruct (Z.lt_ge_cases j (len processed)) as [Hlt | Hge].
        -- rewrite nth_error_app1 by (unfold len in Hlt; lia). auto.
        -- rewrite nth_error_app2 by (unfold len in Hge; lia).
           rewrite nth_error_repeat by (unfold len in *; lia).
           rewrite Hout by assumption. reflexivity.
    + apply Z.ltb_ge in Hshort. eexists. split; [reflexivity|].
      split; [|split].
      * unfold len in *. rewrite length_firstn. lia.
      * apply Forall_firstn_keeps. assumption.
      * intros j Hj. destruct (Hentry j ltac:(lia)) as [Hin _].
        rewrite nth_error_firstn_lt by lia. apply Hin. lia.
  - eexists. split; [reflexivity|]. split; [assumption|].
    split; [apply Forall_unit_interval_zeros | reflexivity].
  - eexists. split; [reflexivity|]. split; [assumption|].
    split; [apply Forall_unit_interval_zeros | reflexivity].
Qed.

(** Four bytes make one sample: its three bytes over 255, then zeros. *)
Example preprocess_image_four_bytes :
  exists tensor,
    outcome (RealTimeClassifier.preprocess_image (FrameBytes [x00; xff; x80; x01]))
    = inr tensor /\
    nth_error tensor 0 = Some Float64.lit_0_0 /\
    nth_error tensor 1 = Some Float64.lit_1_0 /\
    nth_error tensor 2
    = Some (Float64.div (Float64.of_int 128) (Float64.of_int 255)) /\
    nth_error tensor 3 = Some Float64.lit_0_0.
Proof.
  destruct (preprocess_image_spec (FrameBytes [x00; xff; x80; x01]))
    as [tensor [Hout [_ [_ Hentry]]]].
  exists tensor. split; [exact Hout|].
  split; [exact (Hentry 0 ltac:(lia))|].
  split; [exact (Hentry 1 ltac:(lia))|].
  split; [exact (Hentry 2 ltac:(lia)) | exact (Hentry 3 ltac:(lia))].
Qed.

(** C2: for every input frame, [preprocess_image] returns a list of
    exactly 224*224*3 floats, each in [0, 1].  A frame that is not a
    byte buffer gives the all-zero list of that length; a byte buffer is
    sampled every [max(1, len(frame) // (224*224*3))] bytes, three
    consecutive bytes per sample, each divided by 255, and the values
    are padded with zeros or cut to exactly that length.  Entry [j] is
    the float quotient of the value of its sampled byte by 255, which is
    the rational quotient up to one rounding; it is 0.0 when the samples
    are exhausted. *)
Theorem preprocess_image_tensor (frame : frame_obj) :
  exists tensor,
    outcome (RealTimeClassifier.preprocess_image frame) = inr tensor /\
    len tensor = 224 * 224 * 3 /\
    Forall (fun x => Float64.in_unit_interval x = true) tensor /\
    match frame with
    | FrameBytes data =>
        forall j, 0 <= j < 224 * 224 * 3 ->
          exists x,
            nth_error tensor (Z.to_nat j) = Some x /\
            match sampled_byte data j with
            | Some b =>
                x = Float64.div (Float64.of_int (byte_value b))
                                (Float64.of_int 255) /\
                rounding_of (byte_value b # 255) x = true
            | None => x = Float64.lit_0_0
            end
    | _ => tensor = repeat Float64.lit_0_0 (Z.to_nat (224 * 224 * 3))
    end.
Proof.
  destruct (preprocess_image_spec frame) as [tensor [Hout [Hlen [Hunit Hentry]]]].
  exists tensor. split; [exact Hout|]. split; [exact Hlen|].
  split; [exact Hunit|].
  destruct frame as [data| |t]; [|exact Hentry..].
  intros j Hj. rewrite (Hentry j Hj). unfold tensor_entry.
  destruct (sampled_byte data j) as [b|].
  - eexists. split; [reflexivity|].
    split; [reflexivity | apply over_255_rounding].
  - eexists. split; reflexivity.
Qed.

(* ------------------------------------------------------------------ *)
(** ** The request handler *)

Lemma str_split_nonempty sep s :
  exists w ws, str_split sep s = w :: ws.
Proof.
  destruct s as [|c s]; cbn [str_split]; [eauto|].
  destruct (Ascii.eqb c sep); [eauto|].
  destruct (str_split sep s); eauto.
Qed.

Lemma getitem_nth_error {A : Type} (l : list A) (n : nat) :
  getitem l (Z.of_nat n)
  = match nth_error l n with
    | Some x => ret x
    | None => raise IndexError
    end.
Proof.
  unfold getitem.
  destruct (Z.of_nat n <? 0) eqn:Hneg; [apply Z.ltb_lt in Hneg; lia|].
  rewrite Hneg, Nat2Z.id. reflexivity.
Qed.

(** How the handler reads the path out of the request. *)
Lemma parse_request_path request :
  (request_line <- getitem (str_split LF request) 0 ;;
   getitem (str_split " " request_line) 1)
  = match request_path request with
    | Some path => ret path
    | None => raise IndexError
    end.
Proof.
  unfold request_path.
  destruct (str_split_nonempty LF request) as [w [ws ->]].
  change 0 with (Z.of_nat 0). change 1 with (Z.of_nat 1).
  rewrite !getitem_nth_error. cbn [nth_error]. rewrite bind_ret.
  reflexivity.
Qed.

Lemma bind_assoc {A B C : Type} (m : M A) (f : A -> M B) (g : B -> M C) :
  bind (bind m f) g = bind m (fun a => bind (f a) g).
Proof.
  destruct m as [tr [e|a]]; [reflexivity|].
  unfold bind. destruct (f a) as [tr1 [e1|b]]; [reflexivity|].
  destruct (g b) as [tr2 r]. rewrite app_assoc. reflexivity.
Qed.

Lemma known_route_false path :
  known_route path = false ->
  ((path =? "/classify") || (path =? "/data") || (path =? "/api"))%string = false /\
  ((path =? "/jpg") || (path =? "/capture"))%string = false.
Proof.
  unfold known_route. cbn [existsb].
  destruct (path =? "/classify")%string, (path =? "/data")%string,
           (path =? "/api")%string, (path =? "/jpg")%string,
           (path =? "/capture")%string; cbn; intros H; try discriminate H; auto.
Qed.

Section HandlerFacts.

Variable json_dumps : results -> string.

(** The default route: the status page, then the connection is closed. *)
Lemma default_route_response self env client request path :
  HTTPServer.accept env = inr client ->
  HTTPServer.recv_decode client = inr request ->
  request_path request = Some path ->
  known_route path = false ->
  HTTPServer.handle_client json_dumps self env
  = ([EvSetBlocking false; EvAccept; EvPrint LogClientConnected;
      EvClientSetBlocking true; EvRecv 1024;
      EvSend (Encoded (HTTPServer.html_header ++ HTTPServer.status_page self)%string);
      EvClientClose],
     inr tt).
Proof.
  intros Haccept Hrecv Hpath Hroute.
  destruct (known_route_false path Hroute) as [Hjson Himg].
  pose proof (parse_request_path request) as Hparse. rewrite Hpath in Hparse.
  unfold HTTPServer.handle_client, call, emit. rewrite Haccept.
  cbn [bind app]. rewrite Hrecv. cbn [bind app].
  rewrite <- bind_assoc, Hparse, bind_ret.
  rewrite Hjson, Himg. reflexivity.
Qed.

(** No path: nothing is sent; the [IndexError] is caught and logged. *)
Lemma no_path_no_response self env client request :
  HTTPServer.accept env = inr client ->
  HTTPServer.recv_decode client = inr request ->
  request_path request = None ->
  HTTPServer.handle_client json_dumps self env
  = ([EvSetBlocking false; EvAccept; EvPrint LogClientConnected;
      EvClientSetBlocking true; EvRecv 1024;
      EvPrint (LogClientError IndexError)],
     inr tt).
Proof.
  intros Haccept Hrecv Hpath.
  pose proof (parse_request_path request) as Hparse. rewrite Hpath in Hparse.
  unfold HTTPServer.handle_client, call, emit. rewrite Haccept.
  cbn [bind app]. rewrite Hrecv. cbn [bind app].
  rewrite <- bind_assoc, Hparse. reflexivity.
Qed.

(** Whatever arrives, the handler returns to the loop. *)
Lemma handle_client_returns self env :
  outcome (HTTPServer.handle_client json_dumps self env) = inr tt.
Proof.
  unfold HTTPServer.handle_client, call, emit.
  destruct (HTTPServer.accept env) as [e|client].
  - destruct e as [errno| | | |name]; cbn; try reflexivity.
    destruct (errno =? 11); reflexivity.
  - cbn [bind app].
    destruct (HTTPServer.recv_decode client) as [e|request].
    + destruct e as [errno| | | |name]; cbn; try reflexivity.
      destruct (errno =? 11); reflexivity.
    + cbn [bind app]. rewrite <- bind_assoc, parse_request_path.
      destruct (request_path request) as [path|]; [|reflexivity].
      rewrite bind_ret.
      destruct ((path =? "/classify") || (path =? "/data") || (path =? "/api"))%string;
        [reflexivity|].
      destruct ((path =? "/jpg") || (path =? "/capture"))%string; [|reflexivity].
      destruct (HTTPServer.capture env) as [e|[data| |t]]; reflexivity.
Qed.

End HandlerFacts.

Lemma append_assoc (a b c : string) : ((a ++ b) ++ c = a ++ b ++ c)%string.
Proof. induction a as [|x a IH]; cbn [append]; [|rewrite IH]; reflexivity. Qed.

Lemma startswith_append (x b : string) : startswith (x ++ b) x = true.
Proof.
  induction x as [|c x IH]; [reflexivity|].
  cbn [append startswith]. rewrite Ascii.eqb_refl, IH. reflexivity.
Qed.

Lemma contains_append (a x b : string) : contains x (a ++ x ++ b) = true.
Proof.
  induction a as [|c a IH].
  - cbn [append]. destruct (x ++ b)%string eqn:E; cbn [contains];
      rewrite <- E, startswith_append; reflexivity.
  - cbn [append contains]. rewrite IH. apply orb_true_r.
Qed.

Lemma status_page_shows_index self :
  contains ("<p>Latest class: "
            ++ str_of_int (predicted_class (HTTPServer.latest_results self))
            ++ "</p>")
           (HTTPServer.status_page self) = true.
Proof.
  unfold HTTPServer.status_page.
  set (n := str_of_int (predicted_class (HTTPServer.latest_results self))).
  rewrite <- (append_assoc "<html><body><h1>ESP32-S3 Classifier</h1>").
  rewrite <- (append_assoc n "</p>").
  rewrite <- (append_assoc "<p>Latest class: " (n ++ "</p>")).
  apply contains_append.
Qed.




(** C4, as amended: a request whose path is none of [/classify],
    [/data], [/api], [/jpg], [/capture] is answered with status 200 and
    the fixed HTML status page, and that page shows the predicted class
    held in the cache at that time as its decimal index (the page has
    no class name in it). *)
Theorem default_route_reports_class_index
  (json_dumps : results -> string) self env client request path :
  HTTPServer.accept env = inr client ->
  HTTPServer.recv_decode client = inr request ->
  request_path request = Some path ->
  known_route path = false ->
  exists page,
    HTTPServer.handle_client json_dumps self env
    = ([EvSetBlocking false; EvAccept; EvPrint LogClientConnected;
        EvClientSetBlocking true; EvRecv 1024;
        EvSend (Encoded (("HTTP/1.1 200 OK" ++ CRLF
                          ++ "Content-Type: text/html" ++ CRLF ++ CRLF)
                         ++ page)%string);
        EvClientClose],
       inr tt) /\
    page = HTTPServer.status_page self /\
    contains ("<p>Latest class: "
              ++ str_of_int (predicted_class (HTTPServer.latest_results self))
              ++ "</p>") page = true.
Proof.
  intros Haccept Hrecv Hpath Hroute.
  exists (HTTPServer.status_page self). split; [|split].
  - exact (default_route_response json_dumps self env client request path
             Haccept Hrecv Hpath Hroute).
  - reflexivity.
  - apply status_page_shows_index.
Qed.

Lemma default_route_reports_class_index_witness :
  exists page,
    HTTPServer.handle_client (fun _ => EmptyString)
      {| HTTPServer.port := 80;
         HTTPServer.latest_results :=
           {| timestamp := 1234;
              probabilities := RealTimeClassifier.fallback_probabilities;
              predicted_class := 2 |} |}
      {| HTTPServer.accept :=
           inr {| HTTPServer.recv_decode :=
                    inr ("GET /status HTTP/1.1" ++ CRLF ++ CRLF)%string |};
         HTTPServer.capture := inr FrameNone |}
    = ([EvSetBlocking false; EvAccept; EvPrint LogClientConnected;
        EvClientSetBlocking true; EvRecv 1024;
        EvSend (Encoded (("HTTP/1.1 200 OK" ++ CRLF
                          ++ "Content-Type: text/html" ++ CRLF ++ CRLF)
                         ++ page)%string);
        EvClientClose],
       inr tt) /\
    page = HTTPServer.status_page
             {| HTTPServer.port := 80;
                HTTPServer.latest_results :=
                  {| timestamp := 1234;
                     probabilities := RealTimeClassifier.fallback_probabilities;
                     predicted_class := 2 |} |} /\
    contains ("<p>Latest class: " ++ str_of_int 2 ++ "</p>") page = true.
Proof.
  exact (default_route_reports_class_index
           (fun _ => EmptyString) _
           {| HTTPServer.accept :=
                inr {| HTTPServer.recv_decode :=
                         inr ("GET /status HTTP/1.1" ++ CRLF ++ CRLF)%string |};
              HTTPServer.capture := inr FrameNone |}
           {| HTTPServer.recv_decode :=
                inr ("GET /status HTTP/1.1" ++ CRLF ++ CRLF)%string |}
           ("GET /status HTTP/1.1" ++ CRLF ++ CRLF)%string
           "/status"%string eq_refl eq_refl eq_refl eq_refl).
Defined.

(** The cache holds class 0, whose name is [rock]; the page sent for
    [GET /] does not contain that name. *)
Lemma status_page_omits_class_name :
  let self := {| HTTPServer.port := 80;
                 HTTPServer.latest_results := HTTPServer.initial_results |} in
  let env := {| HTTPServer.accept :=
                  inr {| HTTPServer.recv_decode :=
                           inr ("GET / HTTP/1.1" ++ CRLF ++ CRLF)%string |};
                HTTPServer.capture := inr FrameNone |} in
  request_path ("GET / HTTP/1.1" ++ CRLF ++ CRLF) = Some "/"%string /\
  known_route "/" = false /\
  getitem RealTimeClassifier.class_names
          (predicted_class (HTTPServer.latest_results self))
  = ret "rock"%string /\
  exists response,
    HTTPServer.handle_client (fun _ => EmptyString) self env
    = ([EvSetBlocking false; EvAccept; EvPrint LogClientConnected;
        EvClientSetBlocking true; EvRecv 1024;
        EvSend (Encoded response); EvClientClose],
       inr tt) /\
    contains "rock" response = false.
Proof.
  repeat split. eexists. split; [reflexivity|]. vm_compute. reflexivity.
Qed.

(* ------------------------------------------------------------------ *)
(** ** Inference and result construction *)


Lemma quiet_app tr1 tr2 : quiet tr1 -> quiet tr2 -> quiet (tr1 ++ tr2).
Proof. unfold quiet. intros H1 H2. rewrite forallb_app, H1, H2. reflexivity. Qed.

(** The interpreter's failure is absorbed where the call is made. *)
Lemma run_inference_returns eng input_data :
  exists tr output,
    RealTimeClassifier.run_inference eng input_data = (tr, inr output) /\
    quiet tr /\
    match engine_failure eng with
    | Some _ => output = RealTimeClassifier.fallback_probabilities
    | None => RealTimeClassifier.get_output eng = inr output
    end.
Proof.
  unfold RealTimeClassifier.run_inference, engine_failure, call, emit.
  destruct (RealTimeClassifier.set_input eng) as [e|]; cbn [outcome_of].
  { do 2 eexists. split; [reflexivity|]. split; reflexivity. }
  destruct (RealTimeClassifier.invoke eng) as [e|]; cbn [outcome_of].
  { do 2 eexists. split; [reflexivity|]. split; reflexivity. }
  destruct (RealTimeClassifier.get_output eng) as [e|output].
  { do 2 eexists. split; [reflexivity|]. split; reflexivity. }
  destruct (negb (len output =? len RealTimeClassifier.class_names)) eqn:Hlen;
    cbn [bind app try_except]; rewrite Hlen;
    do 2 eexists; (split; [reflexivity|]); split; reflexivity.
Qed.

Lemma process_result_short now output :
  len output < 3 ->
  RealTimeClassifier.process_result now output
  = ([EvTicksMs],
     inr {| timestamp := now;
            probabilities := RealTimeClassifier.fallback_probabilities;
            predicted_class := 0 |}).
Proof.
  intros Hlen. unfold RealTimeClassifier.process_result.
  apply Z.leb_gt in Hlen. rewrite Hlen. reflexivity.
Qed.

(** [process_result] always returns, with three probabilities and a
    class index that [class_names] has. *)
Lemma process_result_returns now output :
  exists r,
    RealTimeClassifier.process_result now output = ([EvTicksMs], inr r) /\
    timestamp r = now /\
    len (probabilities r) = 3 /\
    0 <= predicted_class r < 3.
Proof.
  destruct (Z.lt_ge_cases (len output) 3) as [Hshort | Hlong].
  - eexists. split; [apply process_result_short; assumption|].
    cbn. repeat split; lia.
  - destruct (process_result_long now output Hlong)
      as [top [cls [Heq [_ [_ Hcls]]]]].
    eexists. split; [exact Heq|]. cbn [timestamp probabilities predicted_class].
    split; [reflexivity|]. split; [|exact Hcls].
    destruct (firstn3_cases output Hlong) as [a [b [c [rest [_ ->]]]]].
    reflexivity.
Qed.

Lemma process_result_fallback now :
  RealTimeClassifier.process_result now RealTimeClassifier.fallback_probabilities
  = ([EvTicksMs],
     inr {| timestamp := now;
            probabilities := RealTimeClassifier.fallback_probabilities;
            predicted_class := 2 |}).
Proof. reflexivity. Qed.

(* ------------------------------------------------------------------ *)
(** ** One pass of the loop *)

Section LoopFacts.

Variable json_dumps : results -> string.

(** A pass whose capture fails: the pause, and nothing else. *)
Lemma loop_body_capture_failure env st :
  capture_fails env = true ->
  exists msg,
    RealTimeClassifier.loop_body json_dumps env st
    = ([EvCapture; EvPrint msg; EvSleepMs 100], inr st) /\
    (msg = LogCaptureFailed \/ exists e, msg = LogCaptureError e).
Proof.
  unfold capture_fails, RealTimeClassifier.loop_body, call, emit.
  destruct (RealTimeClassifier.capture env) as [e|frame]; intros Hfail.
  - exists (LogCaptureError e). split; [reflexivity | eauto].
  - exists LogCaptureFailed. cbn [bind try_except app]. rewrite Hfail.
    split; [reflexivity | auto].
Qed.

(** The console report on a change of class never fails. *)
Lemma report_change_returns (r : results) (last : Z) :
  len (probabilities r) = 3 ->
  0 <= predicted_class r < 3 ->
  exists tr,
    (if negb (predicted_class r =? last) then
       emit (EvPrint (LogNewPrediction r)) ;;
       class_name <- getitem RealTimeClassifier.class_names (predicted_class r) ;;
       top <- py_max (probabilities r) ;;
       let confidence := Float64.mul (fval top) Float64.lit_100 in
       emit (EvPrint (LogClassConfidence class_name confidence)) ;;
       ret (predicted_class r)
     else ret last)
    = (tr, inr (predicted_class r)) /\ quiet tr.
Proof.
  intros Hlen Hcls.
  destruct (predicted_class r =? last) eqn:Hsame; cbn [negb].
  - apply Z.eqb_eq in Hsame. subst last. exists []. split; reflexivity.
  - destruct (probabilities r) as [|x rest] eqn:Hprobs; [discriminate Hlen|].
    assert (Hc : predicted_class r = 0 \/ predicted_class r = 1
                 \/ predicted_class r = 2) by lia.
    destruct Hc as [Hc | [Hc | Hc]]; rewrite Hc;
      eexists; (split; [reflexivity|]); reflexivity.
Qed.

(** A pass whose capture succeeds runs to its end: the result of this
    pass is stored, and only then is the handler called, on the server
    that holds it. *)
Lemma loop_body_capture_success env st frame :
  RealTimeClassifier.capture env = inr frame ->
  truthy frame = true ->
  exists tr1 tensor tr2 output r pre,
    RealTimeClassifier.preprocess_image frame = (tr1, inr tensor) /\
    RealTimeClassifier.run_inference (RealTimeClassifier.engine env) tensor
    = (tr2, inr output) /\
    match engine_failure (RealTimeClassifier.engine env) with
    | Some _ => output = RealTimeClassifier.fallback_probabilities
    | None => RealTimeClassifier.get_output (RealTimeClassifier.engine env)
              = inr output
    end /\
    RealTimeClassifier.process_result (RealTimeClassifier.ticks_ms env) output
    = ([EvTicksMs], inr r) /\
    quiet pre /\
    let server :=
      HTTPServer.update_results (RealTimeClassifier.http_server st) r in
    RealTimeClassifier.loop_body json_dumps env st
    = (pre
       ++ trace (HTTPServer.handle_client json_dumps server
                   (RealTimeClassifier.network env))
       ++ [EvGcCollect; EvSleepMs 50],
       inr {| RealTimeClassifier.last_class := predicted_class r;
              RealTimeClassifier.http_server := server |}).
Proof.
  intros Hcap Htruthy.
  destruct (preprocess_image_spec frame) as [tensor [Hpre [Hlen _]]].
  pose proof (surjective_M (RealTimeClassifier.preprocess_image frame)) as Hp.
  rewrite Hpre in Hp. set (tr1 := trace _) in Hp.
  destruct (run_inference_returns (RealTimeClassifier.engine env) tensor)
    as [tr2 [output [Hinf [Hq2 Heng]]]].
  destruct (process_result_returns (RealTimeClassifier.ticks_ms env) output)
    as [r [Hres [_ [Hplen Hcls]]]].
  destruct (report_change_returns r (RealTimeClassifier.last_class st)
              Hplen Hcls) as [tr3 [Hrep Hq3]].
  exists tr1, tensor, tr2, output, r.
  exists ([EvCapture] ++ tr1 ++ tr2 ++ [EvTicksMs] ++ tr3).
  split; [exact Hp|]. split; [exact Hinf|]. split; [exact Heng|].
  split; [exact Hres|]. split.
  - apply quiet_app; [reflexivity|]. apply quiet_app.
    + subst tr1. destruct frame as [data| |t];
        [rewrite preprocess_image_bytes|..]; reflexivity.
    + apply quiet_app; [assumption|]. apply quiet_app; [reflexivity|assumption].
  - cbv zeta. cbv zeta in Hrep.
    pose proof (handle_client_returns json_dumps
                  (HTTPServer.update_results (RealTimeClassifier.http_server st) r)
                  (RealTimeClassifier.network env)) as Hret.
    pose proof (surjective_M (HTTPServer.handle_client json_dumps
                  (HTTPServer.update_results (RealTimeClassifier.http_server st) r)
                  (RealTimeClassifier.network env))) as Hh.
    rewrite Hret in Hh.
    destruct tensor as [|x tensor'].
    { unfold RealTimeClassifier.INPUT_LEN in Hlen. discriminate Hlen. }
    unfold RealTimeClassifier.loop_body. rewrite <- !app_assoc.
    eapply bind_step.
    { unfold call. rewrite Hcap. cbn [bind try_except app ret].
      rewrite Htruthy. reflexivity. }
    cbv beta iota.
    eapply bind_step; [exact Hp|]. cbv beta iota.
    eapply bind_step; [exact Hinf|]. cbv beta.
    eapply bind_step; [exact Hres|]. cbv beta.
    eapply bind_step; [exact Hrep|]. cbv beta.
    eapply bind_step; [exact Hh|]. reflexivity.
Qed.

End LoopFacts.

(* ------------------------------------------------------------------ *)
(** ** Results and their class index *)

(** C10: on an output of at least three entries (more are allowed),
    [process_result] stores exactly the first three as probabilities,
    and the predicted class is the first index at which the maximum of
    those three occurs; it therefore lies in [0, 3). *)
Theorem process_result_first_three now output :
  3 <= len output ->
  exists r,
    outcome (RealTimeClassifier.process_result now output) = inr r /\
    probabilities r = firstn 3 output /\
    len (probabilities r) = 3 /\
    argmax_lowest (firstn 3 output) (predicted_class r) /\
    0 <= predicted_class r < 3.
Proof.
  intros Hlong.
  destruct (process_result_long now output Hlong)
    as [top [cls [Heq [Hmax [Hfirst Hcls]]]]].
  eexists. rewrite Heq. split; [reflexivity|].
  cbn [probabilities predicted_class]. split; [reflexivity|]. split.
  - destruct (firstn3_cases output Hlong) as [a [b [c [rest [_ ->]]]]].
    reflexivity.
  - split; [exists top; split; assumption | exact Hcls].
Qed.

Lemma process_result_first_three_witness :
  exists r,
    outcome (RealTimeClassifier.process_result 7
               [mkfloat 11 Float64.lit_0_33; mkfloat 12 Float64.lit_0_34;
                mkfloat 13 Float64.lit_0_34; mkfloat 14 Float64.lit_1_0])
    = inr r /\
    probabilities r
    = firstn 3 [mkfloat 11 Float64.lit_0_33; mkfloat 12 Float64.lit_0_34;
                mkfloat 13 Float64.lit_0_34; mkfloat 14 Float64.lit_1_0] /\
    len (probabilities r) = 3 /\
    argmax_lowest
      (firstn 3 [mkfloat 11 Float64.lit_0_33; mkfloat 12 Float64.lit_0_34;
                 mkfloat 13 Float64.lit_0_34; mkfloat 14 Float64.lit_1_0])
      (predicted_class r) /\
    0 <= predicted_class r < 3.
Proof.
  apply process_result_first_three. unfold len. cbn [List.length]. lia.
Defined.

(** In neither of the two results written out in the program is the
    class index, 0, the position of the largest probability, 0.34. *)
Lemma default_class_not_argmax :
  ~ argmax_lowest (probabilities HTTPServer.initial_results) 0.
Proof.
  intros [top [[Hin Hmax] [_ [[y [Hy Hsame]] _]]]].
  cbn in Hy. injection Hy as <-.
  cbn in Hin. destruct Hin as [<- | [<- | [<- | []]]].
  - specialize (Hmax (mkfloat 2 Float64.lit_0_34)).
    discriminate Hmax. cbn. auto.
  - discriminate Hsame.
  - specialize (Hmax (mkfloat 2 Float64.lit_0_34)).
    discriminate Hmax. cbn. auto.
Qed.

Lemma fallback_class_not_argmax :
  ~ argmax_lowest RealTimeClassifier.fallback_probabilities 0.
Proof.
  intros [top [[Hin Hmax] [_ [[y [Hy Hsame]] _]]]].
  cbn in Hy. injection Hy as <-.
  cbn in Hin. destruct Hin as [<- | [<- | [<- | []]]].
  - specialize (Hmax (mkfloat 2 Float64.lit_0_34)).
    discriminate Hmax. cbn. auto.
  - specialize (Hmax (mkfloat 2 Float64.lit_0_34)).
    discriminate Hmax. cbn. auto.
  - discriminate Hsame.
Qed.

(** C1, as amended: every result the system produces or holds whose
    probabilities have length 3 carries a class index in [0, 3).  The
    index is that of the maximum probability, lowest index on a tie,
    for every result that [process_result] builds from an output of at
    least three entries.  The two fixed results, the cache's first
    content and the one [process_result] builds from a shorter output,
    carry index 0 as written, which is not the index of their largest
    entry.  Every held result is of one of these kinds, and
    [process_result] builds one for every output. *)
Theorem held_result_class_index r :
  held_by_system r ->
  len (probabilities r) = 3 ->
  0 <= predicted_class r < 3 /\
  (forall now output,
     3 <= len output ->
     outcome (RealTimeClassifier.process_result now output) = inr r ->
     argmax_lowest (probabilities r) (predicted_class r)) /\
  (forall now output,
     len output < 3 ->
     outcome (RealTimeClassifier.process_result now output) = inr r ->
     probabilities r = RealTimeClassifier.fallback_probabilities /\
     predicted_class r = 0 /\
     ~ argmax_lowest (probabilities r) (predicted_class r)) /\
  (r = HTTPServer.initial_results ->
     predicted_class r = 0 /\
     ~ argmax_lowest (probabilities r) (predicted_class r)) /\
  (r = HTTPServer.initial_results \/
   exists now output,
     outcome (RealTimeClassifier.process_result now output) = inr r) /\
  (forall now output,
     exists r',
       outcome (RealTimeClassifier.process_result now output) = inr r' /\
       held_by_system r' /\
       len (probabilities r') = 3).
Proof.
  intros Hheld _. split; [|split; [|split; [|split; [|split]]]].
  - destruct Hheld as [|now output r Hr]; [cbn; lia|].
    destruct (process_result_returns now output) as [r' [Heq [_ [_ Hcls]]]].
    rewrite Heq in Hr. injection Hr as <-. exact Hcls.
  - intros now output Hlong Hr.
    destruct (process_result_long now output Hlong)
      as [top [cls [Heq [Hmax [Hfirst _]]]]].
    rewrite Heq in Hr. injection Hr as <-.
    exists top. split; assumption.
  - intros now output Hshort Hr.
    rewrite (process_result_short now output Hshort) in Hr.
    injection Hr as <-. split; [reflexivity|]. split; [reflexivity|].
    exact fallback_class_not_argmax.
  - intros ->. split; [reflexivity | exact default_class_not_argmax].
  - destruct Hheld as [|now output r Hr]; [left; reflexivity|].
    right. exists now, output. exact Hr.
  - intros now output.
    destruct (process_result_returns now output) as [r' [Heq [_ [Hlen _]]]].
    exists r'. rewrite Heq. split; [reflexivity|]. split; [|exact Hlen].
    apply (held_processed now output). rewrite Heq. reflexivity.
Qed.

(** A result built from [[0.33, 1.0, 0.34]] has class 1, the index of
    its maximum; one built from an empty output has the fixed
    probabilities and class 0. *)
Lemma held_result_class_index_witness :
  (0 <= 1 < 3 /\
   argmax_lowest [mkfloat 11 Float64.lit_0_33; mkfloat 12 Float64.lit_1_0;
                  mkfloat 13 Float64.lit_0_34] 1) /\
  (RealTimeClassifier.fallback_probabilities
   = RealTimeClassifier.fallback_probabilities /\
   0 = 0 /\
   ~ argmax_lowest RealTimeClassifier.fallback_probabilities 0).
Proof.
  split.
  - pose (H := held_result_class_index _
                 (held_processed 7
                    [mkfloat 11 Float64.lit_0_33; mkfloat 12 Float64.lit_1_0;
                     mkfloat 13 Float64.lit_0_34] _ eq_refl)
                 eq_refl).
    split; [exact (proj1 H)|].
    refine (proj1 (proj2 H) 7
              [mkfloat 11 Float64.lit_0_33; mkfloat 12 Float64.lit_1_0;
               mkfloat 13 Float64.lit_0_34] _ eq_refl).
    unfold len. cbn [List.length]. lia.
  - pose (H := held_result_class_index _
                 (held_processed 7 [] _ eq_refl) eq_refl).
    refine (proj1 (proj2 (proj2 H)) 7 [] _ eq_refl).
    unfold len. cbn [List.length]. lia.
Defined.

(** The cache's first content has three probabilities and class index 0,
    while its largest probability, 0.34, stands at index 1. *)
Lemma initial_results_not_argmax :
  held_by_system HTTPServer.initial_results /\
  len (probabilities HTTPServer.initial_results) = 3 /\
  ~ argmax_lowest (probabilities HTTPServer.initial_results)
                  (predicted_class HTTPServer.initial_results).
Proof.
  split; [constructor|]. split; [reflexivity|].
  intros [top [[Hin Hmax] [_ [[y [Hy Hsame]] _]]]].
  cbn in Hy. injection Hy as <-.
  cbn in Hin. destruct Hin as [<- | [<- | [<- | []]]].
  - specialize (Hmax (mkfloat 2 Float64.lit_0_34)).
    discriminate Hmax. cbn. auto.
  - discriminate Hsame.
  - specialize (Hmax (mkfloat 2 Float64.lit_0_34)).
    discriminate Hmax. cbn. auto.
Qed.

(* ------------------------------------------------------------------ *)
(** ** Start-up *)

(** C6: when [bind] on the requested port fails with errno 112 (address
    in use), [__init__] calls [bind] once more, on port 8080, and on no
    other port; if that call fails too its exception leaves [__init__].
    A first failure of any other kind leaves [__init__] at once, with
    no second [bind]. *)
Theorem bind_retries_once_on_8080 (env : HTTPServer.bind_env) (port : Z) :
  (HTTPServer.bind_primary env = Some (OSError 112) ->
   binds (trace (HTTPServer.__init__ env port)) = [port; 8080] /\
   (HTTPServer.bind_alternate env = None ->
    exists self,
      outcome (HTTPServer.__init__ env port) = inr self /\
      HTTPServer.port self = 8080) /\
   (forall e, HTTPServer.bind_alternate env = Some e ->
              outcome (HTTPServer.__init__ env port) = inl e)) /\
  (forall e, HTTPServer.bind_primary env = Some e -> e <> OSError 112 ->
             binds (trace (HTTPServer.__init__ env port)) = [port] /\
             outcome (HTTPServer.__init__ env port) = inl e).
Proof.
  unfold HTTPServer.__init__, call, emit. split.
  - intros ->. cbn [outcome_of bind try_except app Z.eqb Pos.eqb].
    destruct (HTTPServer.bind_alternate env) as [e'|]; cbn.
    + split; [reflexivity|]. split; [discriminate|].
      intros e [= ->]. reflexivity.
    + split; [reflexivity|]. split; [eauto | discriminate].
  - intros e -> Hother. cbn [outcome_of bind try_except app].
    destruct e as [errno| | | |name]; try (split; reflexivity).
    destruct (errno =? 112) eqn:Herrno.
    + apply Z.eqb_eq in Herrno. subst errno. contradiction.
    + split; reflexivity.
Qed.

Lemma bind_retries_once_on_8080_witness :
  (binds (trace (HTTPServer.__init__
                   {| HTTPServer.bind_primary := Some (OSError 112);
                      HTTPServer.bind_alternate := Some (OSError 112) |} 80))
   = [80; 8080] /\
   outcome (HTTPServer.__init__
              {| HTTPServer.bind_primary := Some (OSError 112);
                 HTTPServer.bind_alternate := Some (OSError 112) |} 80)
   = inl (OSError 112)) /\
  (exists self,
     outcome (HTTPServer.__init__
                {| HTTPServer.bind_primary := Some (OSError 112);
                   HTTPServer.bind_alternate := None |} 80)
     = inr self /\ HTTPServer.port self = 8080) /\
  (binds (trace (HTTPServer.__init__
                   {| HTTPServer.bind_primary := Some (OSError 13);
                      HTTPServer.bind_alternate := None |} 80))
   = [80] /\
   outcome (HTTPServer.__init__
              {| HTTPServer.bind_primary := Some (OSError 13);
                 HTTPServer.bind_alternate := None |} 80)
   = inl (OSError 13)).
Proof.
  split; [|split].
  - pose proof (proj1 (bind_retries_once_on_8080
                         {| HTTPServer.bind_primary := Some (OSError 112);
                            HTTPServer.bind_alternate := Some (OSError 112) |}
                         80) eq_refl) as [Hbinds [_ Hfail]].
    exact (conj Hbinds (Hfail (OSError 112) eq_refl)).
  - exact (proj1 (proj2 (proj1 (bind_retries_once_on_8080
                                  {| HTTPServer.bind_primary := Some (OSError 112);
                                     HTTPServer.bind_alternate := None |}
                                  80) eq_refl)) eq_refl).
  - apply (proj2 (bind_retries_once_on_8080
                    {| HTTPServer.bind_primary := Some (OSError 13);
                       HTTPServer.bind_alternate := None |} 80)
                 (OSError 13) eq_refl).
    discriminate.
Defined.

(* ------------------------------------------------------------------ *)
(** ** Passes of the loop *)

(** C5, as amended: a pass whose capture fails (it raises, or returns
    something falsy) performs the capture call, one console message and
    a pause of 100 ms, and nothing else: no preprocessing, no inference,
    no update of the cached result, no call of the request handler.
    The loop goes straight on to its next pass. *)
Theorem capture_failure_skips_rest_of_pass
  (json_dumps : results -> string) env st rest :
  capture_fails env = true ->
  exists msg,
    (msg = LogCaptureFailed \/ exists e, msg = LogCaptureError e) /\
    RealTimeClassifier.loop_body json_dumps env st
    = ([EvCapture; EvPrint msg; EvSleepMs 100], inr st) /\
    existsb preprocessing_event
      (trace (RealTimeClassifier.loop_body json_dumps env st)) = false /\
    existsb inference_event
      (trace (RealTimeClassifier.loop_body json_dumps env st)) = false /\
    existsb responder_event
      (trace (RealTimeClassifier.loop_body json_dumps env st)) = false /\
    RealTimeClassifier.loop json_dumps (env :: rest) st
    = ([EvCapture; EvPrint msg; EvSleepMs 100]
       ++ trace (RealTimeClassifier.loop json_dumps rest st),
       outcome (RealTimeClassifier.loop json_dumps rest st)).
Proof.
  intros Hfail.
  destruct (loop_body_capture_failure json_dumps env st Hfail)
    as [msg [Hbody Hmsg]].
  exists msg. split; [exact Hmsg|]. split; [exact Hbody|].
  cbn [RealTimeClassifier.loop]. rewrite Hbody.
  split; [destruct Hmsg as [-> | [e ->]]; reflexivity|].
  split; [destruct Hmsg as [-> | [e ->]]; reflexivity|].
  split; [reflexivity|].
  apply bind_value. reflexivity.
Qed.

Lemma capture_failure_skips_rest_of_pass_witness :
  let env :=
    {| RealTimeClassifier.capture := inr FrameNone;
       RealTimeClassifier.engine :=
         {| RealTimeClassifier.set_input := None;
            RealTimeClassifier.invoke := None;
            RealTimeClassifier.get_output := inr [] |};
       RealTimeClassifier.ticks_ms := 1000;
       RealTimeClassifier.network :=
         {| HTTPServer.accept := inl (OSError 11);
            HTTPServer.capture := inr FrameNone |} |} in
  let st :=
    {| RealTimeClassifier.last_class := -1;
       RealTimeClassifier.http_server :=
         {| HTTPServer.port := 80;
            HTTPServer.latest_results := HTTPServer.initial_results |} |} in
  exists msg,
    (msg = LogCaptureFailed \/ exists e, msg = LogCaptureError e) /\
    RealTimeClassifier.loop_body (fun _ => EmptyString) env st
    = ([EvCapture; EvPrint msg; EvSleepMs 100], inr st) /\
    existsb preprocessing_event
      (trace (RealTimeClassifier.loop_body (fun _ => EmptyString) env st))
    = false /\
    existsb inference_event
      (trace (RealTimeClassifier.loop_body (fun _ => EmptyString) env st))
    = false /\
    existsb responder_event
      (trace (RealTimeClassifier.loop_body (fun _ => EmptyString) env st))
    = false /\
    RealTimeClassifier.loop (fun _ => EmptyString) [env] st
    = ([EvCapture; EvPrint msg; EvSleepMs 100]
       ++ trace (RealTimeClassifier.loop (fun _ => EmptyString) [] st),
       outcome (RealTimeClassifier.loop (fun _ => EmptyString) [] st)).
Proof.
  intros env st.
  exact (capture_failure_skips_rest_of_pass (fun _ => EmptyString) env st []
           eq_refl).
Defined.

(** A client is waiting for [/classify] while the capture fails: the
    pass ends without a single event on the sockets, and the state,
    cached result included, is what it was. *)
Lemma capture_failure_leaves_client_waiting :
  let env :=
    {| RealTimeClassifier.capture := inl (OtherError "RuntimeError");
       RealTimeClassifier.engine :=
         {| RealTimeClassifier.set_input := None;
            RealTimeClassifier.invoke := None;
            RealTimeClassifier.get_output :=
              inr RealTimeClassifier.fallback_probabilities |};
       RealTimeClassifier.ticks_ms := 1000;
       RealTimeClassifier.network :=
         {| HTTPServer.accept :=
              inr {| HTTPServer.recv_decode :=
                       inr ("GET /classify HTTP/1.1" ++ CRLF ++ CRLF)%string |};
            HTTPServer.capture := inr FrameNone |} |} in
  let st :=
    {| RealTimeClassifier.last_class := -1;
       RealTimeClassifier.http_server :=
         {| HTTPServer.port := 80;
            HTTPServer.latest_results := HTTPServer.initial_results |} |} in
  capture_fails env = true /\
  existsb responder_event
    (trace (RealTimeClassifier.loop_body (fun _ => EmptyString) env st)) = false /\
  outcome (RealTimeClassifier.loop_body (fun _ => EmptyString) env st) = inr st.
Proof. repeat split. Qed.

(** C8: in every pass that calls the request handler, the result built
    in this pass has been stored before the call: the handler runs on
    the server that holds that result, and no socket event of the pass
    precedes it.  A pass that does not reach the handler (its capture
    failed) touches neither the sockets nor the cached result. *)
Theorem result_stored_before_handler
  (json_dumps : results -> string) env st :
  (capture_fails env = true /\
   existsb responder_event
     (trace (RealTimeClassifier.loop_body json_dumps env st)) = false /\
   outcome (RealTimeClassifier.loop_body json_dumps env st) = inr st) \/
  (exists frame tensor tr output r pre,
     RealTimeClassifier.capture env = inr frame /\
     outcome (RealTimeClassifier.preprocess_image frame) = inr tensor /\
     RealTimeClassifier.run_inference (RealTimeClassifier.engine env) tensor
     = (tr, inr output) /\
     RealTimeClassifier.process_result (RealTimeClassifier.ticks_ms env) output
     = ([EvTicksMs], inr r) /\
     quiet pre /\
     let server :=
       HTTPServer.update_results (RealTimeClassifier.http_server st) r in
     HTTPServer.latest_results server = r /\
     RealTimeClassifier.loop_body json_dumps env st
     = (pre
        ++ trace (HTTPServer.handle_client json_dumps server
                    (RealTimeClassifier.network env))
        ++ [EvGcCollect; EvSleepMs 50],
        inr {| RealTimeClassifier.last_class := predicted_class r;
               RealTimeClassifier.http_server := server |})).
Proof.
  destruct (capture_fails env) eqn:Hfail.
  - left. destruct (loop_body_capture_failure json_dumps env st Hfail)
      as [msg [-> _]].
    repeat split.
  - right. unfold capture_fails in Hfail.
    destruct (RealTimeClassifier.capture env) as [e|frame] eqn:Hcap;
      [discriminate|].
    apply negb_false_iff in Hfail.
    destruct (loop_body_capture_success json_dumps env st frame Hcap Hfail)
      as [tr1 [tensor [tr2 [output [r [pre [Hp [Hinf [_ [Hres [Hq Hbody]]]]]]]]]]].
    exists frame, tensor, tr2, output, r, pre.
    split; [reflexivity|]. split; [rewrite Hp; reflexivity|].
    split; [exact Hinf|]. split; [exact Hres|]. split; [exact Hq|].
    cbv zeta. split; [reflexivity | exact Hbody].
Qed.

(** C7: when the interpreter raises during a pass, [run_inference]
    catches the exception and returns the fallback vector.  The result
    built in that pass has exactly three probabilities, whose sum is
    within 1e-9 of 1, and a class index in [0, 3); the pass ends
    normally and the loop goes on with that result stored. *)
Theorem inference_failure_is_absorbed
  (json_dumps : results -> string) env st frame e :
  RealTimeClassifier.capture env = inr frame ->
  truthy frame = true ->
  engine_failure (RealTimeClassifier.engine env) = Some e ->
  exists tensor tr r st',
    outcome (RealTimeClassifier.preprocess_image frame) = inr tensor /\
    RealTimeClassifier.run_inference (RealTimeClassifier.engine env) tensor
    = (tr, inr RealTimeClassifier.fallback_probabilities) /\
    outcome (RealTimeClassifier.process_result (RealTimeClassifier.ticks_ms env)
               RealTimeClassifier.fallback_probabilities) = inr r /\
    len (probabilities r) = 3 /\
    Float64.close_to_one (py_sum (probabilities r)) = true /\
    0 <= predicted_class r < 3 /\
    outcome (RealTimeClassifier.loop_body json_dumps env st) = inr st' /\
    HTTPServer.latest_results (RealTimeClassifier.http_server st') = r.
Proof.
  intros Hcap Htruthy Hfail.
  destruct (loop_body_capture_success json_dumps env st frame Hcap Htruthy)
    as [tr1 [tensor [tr2 [output [r [pre [Hp [Hinf [Heng [Hres [_ Hbody]]]]]]]]]]].
  rewrite Hfail in Heng. subst output.
  rewrite process_result_fallback in Hres. injection Hres as <-.
  cbv zeta in Hbody.
  exists tensor, tr2. eexists. eexists.
  split; [rewrite Hp; reflexivity|]. split; [exact Hinf|].
  split; [reflexivity|]. split; [reflexivity|]. split; [reflexivity|].
  split; [cbn; lia|]. rewrite Hbody. split; reflexivity.
Qed.

Lemma inference_failure_is_absorbed_witness :
  let env :=
    {| RealTimeClassifier.capture := inr (FrameBytes [x10; x20; x30; x40]);
       RealTimeClassifier.engine :=
         {| RealTimeClassifier.set_input := None;
            RealTimeClassifier.invoke := Some (OtherError "RuntimeError");
            RealTimeClassifier.get_output := inr [] |};
       RealTimeClassifier.ticks_ms := 1000;
       RealTimeClassifier.network :=
         {| HTTPServer.accept := inl (OSError 11);
            HTTPServer.capture := inr FrameNone |} |} in
  let st :=
    {| RealTimeClassifier.last_class := -1;
       RealTimeClassifier.http_server :=
         {| HTTPServer.port := 80;
            HTTPServer.latest_results := HTTPServer.initial_results |} |} in
  exists tensor tr r st',
    outcome (RealTimeClassifier.preprocess_image
               (FrameBytes [x10; x20; x30; x40])) = inr tensor /\
    RealTimeClassifier.run_inference (RealTimeClassifier.engine env) tensor
    = (tr, inr RealTimeClassifier.fallback_probabilities) /\
    outcome (RealTimeClassifier.process_result (RealTimeClassifier.ticks_ms env)
               RealTimeClassifier.fallback_probabilities) = inr r /\
    len (probabilities r) = 3 /\
    Float64.close_to_one (py_sum (probabilities r)) = true /\
    0 <= predicted_class r < 3 /\
    outcome (RealTimeClassifier.loop_body (fun _ => EmptyString) env st)
    = inr st' /\
    HTTPServer.latest_results (RealTimeClassifier.http_server st') = r.
Proof.
  intros env st.
  exact (inference_failure_is_absorbed (fun _ => EmptyString) env st
           (FrameBytes [x10; x20; x30; x40]) (OtherError "RuntimeError")
           eq_refl eq_refl eq_refl).
Defined.

(** C9: when the interpreter raises during a pass, the result built and
    stored in that pass has probabilities [0.33, 0.33, 0.34] and class
    index 2, [scissors]: the fallback vector goes through the ordinary
    maximum search, and its largest entry is the last. *)
Theorem inference_failure_predicts_scissors
  (json_dumps : results -> string) env st frame e :
  RealTimeClassifier.capture env = inr frame ->
  truthy frame = true ->
  engine_failure (RealTimeClassifier.engine env) = Some e ->
  exists r,
    outcome (RealTimeClassifier.loop_body json_dumps env st)
    = inr {| RealTimeClassifier.last_class := 2;
             RealTimeClassifier.http_server :=
               HTTPServer.update_results (RealTimeClassifier.http_server st) r |} /\
    timestamp r = RealTimeClassifier.ticks_ms env /\
    map fval (probabilities r)
    = [Float64.lit_0_33; Float64.lit_0_33; Float64.lit_0_34] /\
    predicted_class r = 2 /\
    getitem RealTimeClassifier.class_names (predicted_class r)
    = ret "scissors"%string /\
    argmax_lowest (probabilities r) (predicted_class r).
Proof.
  intros Hcap Htruthy Hfail.
  destruct (loop_body_capture_success json_dumps env st frame Hcap Htruthy)
    as [tr1 [tensor [tr2 [output [r [pre [Hp [Hinf [Heng [Hres [_ Hbody]]]]]]]]]]].
  rewrite Hfail in Heng. subst output.
  rewrite process_result_fallback in Hres. injection Hres as <-.
  cbv zeta in Hbody. eexists. rewrite Hbody.
  split; [reflexivity|]. split; [reflexivity|]. split; [reflexivity|].
  split; [reflexivity|]. split; [reflexivity|].
  destruct (process_result_long (RealTimeClassifier.ticks_ms env)
              RealTimeClassifier.fallback_probabilities ltac:(cbn; lia))
    as [top [cls [Heq [Hmax [Hfirst _]]]]].
  rewrite process_result_fallback in Heq. injection Heq as <-.
  exists top. split; assumption.
Qed.

Lemma inference_failure_predicts_scissors_witness :
  let env :=
    {| RealTimeClassifier.capture := inr (FrameBytes [x10; x20; x30; x40]);
       RealTimeClassifier.engine :=
         {| RealTimeClassifier.set_input := None;
            RealTimeClassifier.invoke := None;
            RealTimeClassifier.get_output := inl (OtherError "MemoryError") |};
       RealTimeClassifier.ticks_ms := 2000;
       RealTimeClassifier.network :=
         {| HTTPServer.accept := inl (OSError 11);
            HTTPServer.capture := inr FrameNone |} |} in
  let st :=
    {| RealTimeClassifier.last_class := 0;
       RealTimeClassifier.http_server :=
         {| HTTPServer.port := 8080;
            HTTPServer.latest_results := HTTPServer.initial_results |} |} in
  exists r,
    outcome (RealTimeClassifier.loop_body (fun _ => EmptyString) env st)
    = inr {| RealTimeClassifier.last_class := 2;
             RealTimeClassifier.http_server :=
               HTTPServer.update_results (RealTimeClassifier.http_server st) r |} /\
    timestamp r = RealTimeClassifier.ticks_ms env /\
    map fval (probabilities r)
    = [Float64.lit_0_33; Float64.lit_0_33; Float64.lit_0_34] /\
    predicted_class r = 2 /\
    getitem RealTimeClassifier.class_names (predicted_class r)
    = ret "scissors"%string /\
    argmax_lowest (probabilities r) (predicted_class r).
Proof.
  intros env st.
  exact (inference_failure_predicts_scissors (fun _ => EmptyString) env st
           (FrameBytes [x10; x20; x30; x40]) (OtherError "MemoryError")
           eq_refl eq_refl eq_refl).
Defined.

(* ------------------------------------------------------------------ *)
(** ** The routes of the handler *)

Lemma json_route_known path : json_route path = true -> known_route path = true.
Proof.
  unfold json_route, known_route. cbn [existsb].
  destruct (path =? "/classify")%string, (path =? "/data")%string,
           (path =? "/api")%string; cbn; intros H; try discriminate H; auto.
Qed.

Section RouteFacts.

Variable json_dumps : results -> string.

Lemma json_route_response self env client request path :
  HTTPServer.accept env = inr client ->
  HTTPServer.recv_decode client = inr request ->
  request_path request = Some path ->
  json_route path = true ->
  HTTPServer.handle_client json_dumps self env
  = (exchange_start
     ++ [EvSend (Encoded (HTTPServer.json_header
                          ++ json_dumps (HTTPServer.latest_results self))%string);
         EvClientClose],
     inr tt).
Proof.
  intros Haccept Hrecv Hpath Hroute.
  pose proof (parse_request_path request) as Hparse. rewrite Hpath in Hparse.
  unfold HTTPServer.handle_client, call, emit. rewrite Haccept.
  cbn [bind app]. rewrite Hrecv. cbn [bind app].
  rewrite <- bind_assoc, Hparse, bind_ret.
  unfold json_route in Hroute. rewrite Hroute. reflexivity.
Qed.

Lemma image_route_response self env client request path :
  HTTPServer.accept env = inr client ->
  HTTPServer.recv_decode client = inr request ->
  request_path request = Some path ->
  image_route path = true ->
  HTTPServer.handle_client json_dumps self env
  = (exchange_start
     ++ EvCapture
        :: match HTTPServer.capture env with
           | inr (FrameBytes data) =>
               [EvSend (Encoded HTTPServer.jpeg_header); EvSend (RawBytes data)]
           | inr _ =>
               [EvSend (Encoded HTTPServer.jpeg_header);
                EvSend (Encoded HTTPServer.error_response)]
           | inl _ => [EvSend (Encoded HTTPServer.error_response)]
           end
     ++ [EvClientClose],
     inr tt).
Proof.
  intros Haccept Hrecv Hpath Hroute.
  pose proof (parse_request_path request) as Hparse. rewrite Hpath in Hparse.
  assert (Hjson : json_route path = false).
  { unfold image_route in Hroute. unfold json_route.
    destruct (path =? "/jpg")%string eqn:H1.
    - apply String.eqb_eq in H1. subst path. reflexivity.
    - destruct (path =? "/capture")%string eqn:H2; [|discriminate Hroute].
      apply String.eqb_eq in H2. subst path. reflexivity. }
  unfold HTTPServer.handle_client, call, emit. rewrite Haccept.
  cbn [bind app]. rewrite Hrecv. cbn [bind app].
  rewrite <- bind_assoc, Hparse, bind_ret.
  unfold json_route in Hjson. unfold image_route in Hroute.
  rewrite Hjson, Hroute.
  destruct (HTTPServer.capture env) as [e|[data| |t]]; reflexivity.
Qed.

End RouteFacts.









(* ------------------------------------------------------------------ *)
(** ** Writes that fail *)

Lemma known_route_split path :
  known_route path = json_route path || image_route path.
Proof.
  unfold known_route, json_route, image_route. cbn [existsb].
  destruct (path =? "/classify")%string, (path =? "/data")%string,
           (path =? "/api")%string, (path =? "/jpg")%string,
           (path =? "/capture")%string; reflexivity.
Qed.

(** A [try] whose handlers all return leaves no exception behind. *)
Lemma try_except_returns (m : M unit) (h : exn -> M unit) :
  (forall e, outcome (h e) = inr tt) -> outcome (try_except m h) = inr tt.
Proof.
  intros Hh. destruct m as [tr [e|[]]]; [|reflexivity].
  specialize (Hh e). unfold try_except, outcome in *.
  destruct (h e) as [tr' r]. exact Hh.
Qed.

Lemma outcome_after_emit {A : Type} (ev : event) (m : M A) :
  outcome (emit ev ;; m) = outcome m.
Proof. unfold emit, bind, outcome. destruct m as [tr r]. reflexivity. Qed.

Ltac enter_route Haccept Hrecv Hparse :=
  unfold Writes.handle_client, Writes.send_frame, Writes.send, call, emit;
  rewrite Haccept; cbn [bind app]; rewrite Hrecv; cbn [bind app];
  rewrite <- bind_assoc, Hparse, bind_ret.

Ltac exchange_conditions :=
  split; [reflexivity|];
  repeat split; first [reflexivity | intros; discriminate].

Ltac exchange_shape :=
  cbn [outcome_of bind try_except app raise ret];
  try match goal with |- context [?n =? 11] => destruct (n =? 11) end;
  first [ solve [eexists [_], (@nil event); exchange_conditions]
        | solve [eexists [_], [_]; exchange_conditions]
        | solve [eexists [_; _], (@nil event); exchange_conditions]
        | solve [eexists [_; _], [_]; exchange_conditions]
        | solve [eexists [_; _; _], (@nil event); exchange_conditions]
        | solve [eexists [_; _; _], [_]; exchange_conditions] ].

Ltac failed_write Hfail ev :=
  let E := fresh "E" in
  destruct (Writes.send_outcome _ ev) as [[errno| | | |name]|] eqn:E;
  [idtac..|exfalso; exact (Hfail _ E)].

Section WriteFacts.

Variable json_dumps : results -> string.

(** Whatever is raised, by a write as by anything before it, the
    handler returns. *)
Lemma handle_client_survives_writes self env w :
  outcome (Writes.handle_client json_dumps self env w) = inr tt.
Proof.
  unfold Writes.handle_client. rewrite outcome_after_emit.
  apply try_except_returns. intros [errno| | | |name]; try reflexivity.
  destruct (errno =? 11); reflexivity.
Qed.

(** When every write goes through, the handler is the one of
    [HTTPServer]. *)
Lemma reliable_writes_agree self env w :
  (forall data, Writes.send_outcome w data = None) ->
  Writes.close_outcome w = None ->
  Writes.other_buffer w = None ->
  Writes.handle_client json_dumps self env w
  = HTTPServer.handle_client json_dumps self env.
Proof.
  intros Hsend Hclose Hother.
  destruct (HTTPServer.accept env) as [e|client] eqn:Haccept.
  { unfold Writes.handle_client, HTTPServer.handle_client, call, emit.
    rewrite Haccept. reflexivity. }
  destruct (HTTPServer.recv_decode client) as [e|request] eqn:Hrecv.
  { unfold Writes.handle_client, HTTPServer.handle_client, call, emit.
    rewrite Haccept. cbn [bind app]. rewrite Hrecv. reflexivity. }
  pose proof (parse_request_path request) as Hparse.
  destruct (request_path request) as [path|] eqn:Hpath.
  - destruct (json_route path) eqn:Hjson.
    { rewrite (json_route_response json_dumps self env client request path
                 Haccept Hrecv Hpath Hjson).
      enter_route Haccept Hrecv Hparse. unfold json_route in Hjson.
      rewrite Hjson, Hsend, Hclose. reflexivity. }
    destruct (image_route path) eqn:Himg.
    { rewrite (image_route_response json_dumps self env client request path
                 Haccept Hrecv Hpath Himg).
      enter_route Haccept Hrecv Hparse.
      unfold json_route in Hjson. unfold image_route in Himg.
      rewrite Hjson, Himg, Hclose, Hother, !Hsend.
      destruct (HTTPServer.capture env) as [e|[data| |t]];
        cbn [bind try_except app]; rewrite ?Hsend; reflexivity. }
    assert (Hroute : known_route path = false)
      by (rewrite known_route_split, Hjson, Himg; reflexivity).
    rewrite (default_route_response json_dumps self env client request path
               Haccept Hrecv Hpath Hroute).
    enter_route Haccept Hrecv Hparse.
    unfold json_route in Hjson. unfold image_route in Himg.
    rewrite Hjson, Himg, Hsend, Hclose. reflexivity.
  - rewrite (no_path_no_response json_dumps self env client request
               Haccept Hrecv Hpath).
    unfold Writes.handle_client, call, emit.
    rewrite Haccept. cbn [bind app]. rewrite Hrecv. cbn [bind app].
    rewrite <- bind_assoc, Hparse. reflexivity.
Qed.

(** A request with a path, every [send] returning. *)
Lemma answered_when_sends_return self env w client request path :
  HTTPServer.accept env = inr client ->
  HTTPServer.recv_decode client = inr request ->
  request_path request = Some path ->
  (forall data, Writes.send_outcome w data = None) ->
  exists answer logged,
    Writes.handle_client json_dumps self env w
    = (exchange_start ++ answer ++ [EvClientClose] ++ logged, inr tt) /\
    existsb is_send answer = true /\
    existsb is_close answer = false /\
    existsb is_client_event logged = false /\
    (Writes.close_outcome w = None -> logged = []).
Proof.
  intros Haccept Hrecv Hpath Hsend.
  pose proof (parse_request_path request) as Hparse. rewrite Hpath in Hparse.
  enter_route Haccept Hrecv Hparse.
  destruct ((path =? "/classify") || (path =? "/data") || (path =? "/api"))%string.
  { rewrite Hsend.
    destruct (Writes.close_outcome w) as [[errno| | | |name]|];
      exchange_shape. }
  destruct ((path =? "/jpg") || (path =? "/capture"))%string.
  { rewrite !Hsend.
    destruct (HTTPServer.capture env) as [e|[data| |t]];
      cbn [bind try_except app outcome_of];
      try (destruct (Writes.other_buffer w) as [data'|];
           cbn [bind try_except app outcome_of]);
      rewrite ?Hsend;
      destruct (Writes.close_outcome w) as [[errno| | | |name]|];
      exchange_shape. }
  rewrite Hsend.
  destruct (Writes.close_outcome w) as [[errno| | | |name]|];
    exchange_shape.
Qed.

(** A request with a path, every [send] raising. *)
Lemma not_closed_when_sends_raise self env w client request path :
  HTTPServer.accept env = inr client ->
  HTTPServer.recv_decode client = inr request ->
  request_path request = Some path ->
  (forall data, Writes.send_outcome w data <> None) ->
  exists attempted logged,
    Writes.handle_client json_dumps self env w
    = (exchange_start ++ attempted ++ logged, inr tt) /\
    existsb is_send attempted = true /\
    existsb is_close attempted = false /\
    existsb is_client_event logged = false.
Proof.
  intros Haccept Hrecv Hpath Hfail.
  pose proof (parse_request_path request) as Hparse. rewrite Hpath in Hparse.
  enter_route Haccept Hrecv Hparse.
  destruct ((path =? "/classify") || (path =? "/data") || (path =? "/api"))%string.
  { failed_write Hfail
      (Encoded (HTTPServer.json_header
                ++ json_dumps (HTTPServer.latest_results self))%string);
      exchange_shape. }
  destruct ((path =? "/jpg") || (path =? "/capture"))%string.
  { destruct (Writes.send_outcome w (Encoded HTTPServer.jpeg_header))
      as [e1|] eqn:E1; [|exfalso; exact (Hfail _ E1)].
    destruct (HTTPServer.capture env) as [e|frame];
      failed_write Hfail (Encoded HTTPServer.error_response);
      exchange_shape. }
  failed_write Hfail
    (Encoded (HTTPServer.html_header ++ HTTPServer.status_page self)%string);
    exchange_shape.
Qed.

End WriteFacts.

(** X5: once a path has been read from the request, and as long as
    [client.send] returns, the handler sends at least one message and
    then closes the connection, once, whatever the path, the camera and
    the captured object are; an exception from [close] is only logged.
    When [client.send] raises instead, the exception goes to the
    handler's [except] clauses: at least one write was attempted, the
    connection is not closed, and the handler still returns. *)
Theorem parsed_request_is_answered_and_closed
  (json_dumps : results -> string) self env w client request path :
  HTTPServer.accept env = inr client ->
  HTTPServer.recv_decode client = inr request ->
  request_path request = Some path ->
  ((forall data, Writes.send_outcome w data = None) ->
   exists answer logged,
     Writes.handle_client json_dumps self env w
     = (exchange_start ++ answer ++ [EvClientClose] ++ logged, inr tt) /\
     existsb is_send answer = true /\
     existsb is_close answer = false /\
     existsb is_client_event logged = false /\
     (Writes.close_outcome w = None -> logged = [])) /\
  ((forall data, Writes.send_outcome w data <> None) ->
   exists attempted logged,
     Writes.handle_client json_dumps self env w
     = (exchange_start ++ attempted ++ logged, inr tt) /\
     existsb is_send attempted = true /\
     existsb is_close attempted = false /\
     existsb is_client_event logged = false) /\
  outcome (Writes.handle_client json_dumps self env w) = inr tt.
Proof.
  intros Haccept Hrecv Hpath. split; [|split].
  - exact (answered_when_sends_return json_dumps self env w client request path
             Haccept Hrecv Hpath).
  - exact (not_closed_when_sends_raise json_dumps self env w client request path
             Haccept Hrecv Hpath).
  - apply handle_client_survives_writes.
Qed.

Lemma parsed_request_is_answered_and_closed_witness :
  (exists answer logged,
     Writes.handle_client sample_dumps sample_server
       (sample_net (sample_request "/favicon.ico") (inr FrameNone))
       Writes.reliable
     = (exchange_start ++ answer ++ [EvClientClose] ++ logged, inr tt) /\
     existsb is_send answer = true /\
     existsb is_close answer = false /\
     existsb is_client_event logged = false /\
     (Writes.close_outcome Writes.reliable = None -> logged = [])) /\
  (exists attempted logged,
     Writes.handle_client sample_dumps sample_server
       (sample_net (sample_request "/jpg") (inr (FrameBytes [xff; xd8])))
       Writes.broken_pipe
     = (exchange_start ++ attempted ++ logged, inr tt) /\
     existsb is_send attempted = true /\
     existsb is_close attempted = false /\
     existsb is_client_event logged = false).
Proof.
  split.
  - apply (proj1 (parsed_request_is_answered_and_closed sample_dumps
                    sample_server
                    (sample_net (sample_request "/favicon.ico") (inr FrameNone))
                    Writes.reliable
                    (sample_client (sample_request "/favicon.ico"))
                    (sample_request "/favicon.ico") "/favicon.ico"%string
                    eq_refl eq_refl eq_refl)).
    intros data. reflexivity.
  - apply (proj1 (proj2 (parsed_request_is_answered_and_closed sample_dumps
                    sample_server
                    (sample_net (sample_request "/jpg")
                       (inr (FrameBytes [xff; xd8])))
                    Writes.broken_pipe
                    (sample_client (sample_request "/jpg"))
                    (sample_request "/jpg") "/jpg"%string
                    eq_refl eq_refl eq_refl))).
    intros data H. discriminate H.
Defined.

(** X6: no exception leaves [handle_client]: whatever [accept], [recv]
    and [capture] raise or return, the handler returns normally. *)
Theorem handler_never_raises
  (json_dumps : results -> string) self env :
  outcome (HTTPServer.handle_client json_dumps self env) = inr tt.
Proof. exact (handle_client_returns json_dumps self env). Qed.

(** X7: when [accept] raises, no client is touched: nothing is received,
    sent or closed.  The exception is logged, unless it is an [OSError]
    with errno 11, which passes in silence. *)
Theorem failed_accept_touches_no_client
  (json_dumps : results -> string) self env e :
  HTTPServer.accept env = inl e ->
  exists logged,
    HTTPServer.handle_client json_dumps self env
    = ([EvSetBlocking false; EvAccept] ++ logged, inr tt) /\
    existsb is_client_event logged = false /\
    existsb is_error_log logged = negb (would_block e).
Proof.
  intros Haccept. unfold HTTPServer.handle_client, call, emit. rewrite Haccept.
  destruct e as [errno| | | |name]; cbn [bind try_except app would_block].
  - destruct (errno =? 11).
    + exists []. repeat split.
    + eexists [_]. repeat split.
  - eexists [_]. repeat split.
  - eexists [_]. repeat split.
  - eexists [_]. repeat split.
  - eexists [_]. repeat split.
Qed.

Lemma failed_accept_touches_no_client_witness :
  exists logged,
    HTTPServer.handle_client sample_dumps sample_server
      {| HTTPServer.accept := inl (OSError 104);
         HTTPServer.capture := inr FrameNone |}
    = ([EvSetBlocking false; EvAccept] ++ logged, inr tt) /\
    existsb is_client_event logged = false /\
    existsb is_error_log logged = negb (would_block (OSError 104)).
Proof.
  exact (failed_accept_touches_no_client sample_dumps sample_server
           {| HTTPServer.accept := inl (OSError 104);
              HTTPServer.capture := inr FrameNone |}
           (OSError 104) eq_refl).
Defined.

(** X8: when [recv] (or the decoding of what it returned) raises, the
    handler sends nothing and does not close the accepted connection;
    the exception is logged unless it is an [OSError] with errno 11. *)
Theorem failed_recv_leaves_connection_open
  (json_dumps : results -> string) self env client e :
  HTTPServer.accept env = inr client ->
  HTTPServer.recv_decode client = inl e ->
  exists logged,
    HTTPServer.handle_client json_dumps self env
    = (exchange_start ++ logged, inr tt) /\
    existsb is_client_event logged = false /\
    existsb is_error_log logged = negb (would_block e).
Proof.
  intros Haccept Hrecv. unfold HTTPServer.handle_client, call, emit.
  rewrite Haccept. cbn [bind app]. rewrite Hrecv.
  destruct e as [errno| | | |name]; cbn [bind try_except app would_block].
  - destruct (errno =? 11).
    + exists []. repeat split.
    + eexists [_]. repeat split.
  - eexists [_]. repeat split.
  - eexists [_]. repeat split.
  - eexists [_]. repeat split.
  - eexists [_]. repeat split.
Qed.

Lemma failed_recv_leaves_connection_open_witness :
  exists logged,
    HTTPServer.handle_client sample_dumps sample_server
      {| HTTPServer.accept := inr {| HTTPServer.recv_decode := inl ValueError |};
         HTTPServer.capture := inr FrameNone |}
    = (exchange_start ++ logged, inr tt) /\
    existsb is_client_event logged = false /\
    existsb is_error_log logged = negb (would_block ValueError).
Proof.
  exact (failed_recv_leaves_connection_open sample_dumps sample_server
           {| HTTPServer.accept :=
                inr {| HTTPServer.recv_decode := inl ValueError |};
              HTTPServer.capture := inr FrameNone |}
           {| HTTPServer.recv_decode := inl ValueError |}
           ValueError eq_refl eq_refl).
Defined.

(* ------------------------------------------------------------------ *)
(** ** Start-up, continued *)

Lemma init_cases (benv : HTTPServer.bind_env) (port : Z) :
  HTTPServer.__init__ benv port
  = match HTTPServer.bind_primary benv with
    | None =>
        ([EvSocketCreate; EvSetReuseAddr; EvBind port; EvListen 1;
          EvPrint (LogServerStarted port)],
         inr {| HTTPServer.port := port;
                HTTPServer.latest_results := HTTPServer.initial_results |})
    | Some e =>
        if match e with OSError errno => errno =? 112 | _ => false end then
          match HTTPServer.bind_alternate benv with
          | None =>
              ([EvSocketCreate; EvSetReuseAddr; EvBind port;
                EvPrint (LogPortInUse port 8080); EvBind 8080; EvListen 1;
                EvPrint (LogServerStarted 8080)],
               inr {| HTTPServer.port := 8080;
                      HTTPServer.latest_results := HTTPServer.initial_results |})
          | Some e' =>
              ([EvSocketCreate; EvSetReuseAddr; EvBind port;
                EvPrint (LogPortInUse port 8080); EvBind 8080],
               inl e')
          end
        else ([EvSocketCreate; EvSetReuseAddr; EvBind port], inl e)
    end.
Proof.
  unfold HTTPServer.__init__, call, emit.
  destruct (HTTPServer.bind_primary benv) as [e|]; [|reflexivity].
  destruct e as [errno| | | |name]; try reflexivity.
  cbn [outcome_of bind try_except app].
  destruct (errno =? 112); [|reflexivity].
  destruct (HTTPServer.bind_alternate benv) as [e'|]; reflexivity.
Qed.

Lemma init_returns_default_cache (benv : HTTPServer.bind_env) (port : Z) :
  match outcome (HTTPServer.__init__ benv port) with
  | inr self => HTTPServer.latest_results self = HTTPServer.initial_results
  | inl _ => True
  end.
Proof.
  rewrite init_cases.
  destruct (HTTPServer.bind_primary benv) as [e|]; [|reflexivity].
  destruct (match e with OSError errno => errno =? 112 | _ => false end);
    [|exact I].
  destruct (HTTPServer.bind_alternate benv) as [e'|]; [exact I | reflexivity].
Qed.

(** X9: [__init__] calls [listen] only after a [bind] has succeeded, and
    the port it stores and announces is the port of that last [bind].
    When it returns, the cache holds the default result; when it raises,
    [listen] has not been called. *)
Theorem init_listens_on_the_bound_port (benv : HTTPServer.bind_env) (port : Z) :
  match outcome (HTTPServer.__init__ benv port) with
  | inr self =>
      (exists before,
         trace (HTTPServer.__init__ benv port)
         = before ++ [EvBind (HTTPServer.port self); EvListen 1;
                      EvPrint (LogServerStarted (HTTPServer.port self))] /\
         existsb is_listen before = false) /\
      HTTPServer.latest_results self = HTTPServer.initial_results /\
      (HTTPServer.port self = port \/ HTTPServer.port self = 8080)
  | inl _ =>
      existsb is_listen (trace (HTTPServer.__init__ benv port)) = false
  end.
Proof.
  rewrite init_cases.
  destruct (HTTPServer.bind_primary benv) as [e|].
  - destruct (match e with OSError errno => errno =? 112 | _ => false end).
    + destruct (HTTPServer.bind_alternate benv) as [e'|]; cbn.
      * reflexivity.
      * split; [|auto]. eexists [_; _; _; _]. split; reflexivity.
    + reflexivity.
  - cbn. split; [|auto]. eexists [_; _]. split; reflexivity.
Qed.

(** X10: a server fresh from [__init__], on whichever port it ended up,
    answers a JSON route with [json.dumps] of the default result
    [{'timestamp': 0, 'probabilities': [0.33, 0.34, 0.33],
    'predicted_class': 0}]: there is a result to serve before the first
    inference. *)
Theorem fresh_server_serves_default
  (json_dumps : results -> string) benv port self env client request path :
  outcome (HTTPServer.__init__ benv port) = inr self ->
  HTTPServer.accept env = inr client ->
  HTTPServer.recv_decode client = inr request ->
  request_path request = Some path ->
  json_route path = true ->
  HTTPServer.handle_client json_dumps self env
  = (exchange_start
     ++ [EvSend (Encoded (HTTPServer.json_header
                          ++ json_dumps HTTPServer.initial_results)%string);
         EvClientClose],
     inr tt).
Proof.
  intros Hinit Haccept Hrecv Hpath Hroute.
  pose proof (init_returns_default_cache benv port) as Hcache.
  rewrite Hinit in Hcache. rewrite <- Hcache.
  exact (json_route_response json_dumps self env client request path
           Haccept Hrecv Hpath Hroute).
Qed.

Lemma fresh_server_serves_default_witness :
  HTTPServer.handle_client sample_dumps
    {| HTTPServer.port := 8080;
       HTTPServer.latest_results := HTTPServer.initial_results |}
    (sample_net (sample_request "/classify") (inr FrameNone))
  = (exchange_start
     ++ [EvSend (Encoded (HTTPServer.json_header
                          ++ sample_dumps HTTPServer.initial_results)%string);
         EvClientClose],
     inr tt).
Proof.
  exact (fresh_server_serves_default sample_dumps
           {| HTTPServer.bind_primary := Some (OSError 112);
              HTTPServer.bind_alternate := None |}
           80
           {| HTTPServer.port := 8080;
              HTTPServer.latest_results := HTTPServer.initial_results |}
           (sample_net (sample_request "/classify") (inr FrameNone))
           (sample_client (sample_request "/classify"))
           (sample_request "/classify") "/classify"%string
           eq_refl eq_refl eq_refl eq_refl eq_refl).
Defined.

(* ------------------------------------------------------------------ *)
(** ** Preprocessing, continued *)

(** X11: a byte buffer of at most three bytes yields the all-zero
    tensor: the sampling loop stops three bytes short of the end of the
    frame, so it does not run at all. *)
Theorem short_frame_gives_zero_tensor (data : list byte) :
  len data <= 3 ->
  outcome (RealTimeClassifier.preprocess_image (FrameBytes data))
  = inr (repeat Float64.lit_0_0 (Z.to_nat RealTimeClassifier.INPUT_LEN)).
Proof.
  intros Hshort. rewrite preprocess_image_bytes. cbv zeta.
  rewrite py_range_from_zero.
  assert (Hstop : (0 <? len data - 3) = false) by (apply Z.ltb_ge; lia).
  rewrite Hstop. change (Z.to_nat 0) with 0%nat. cbn [seq map flat_map].
  change (len (@nil spec_float)) with 0. rewrite Z.sub_0_r.
  pose proof INPUT_LEN_positive as Hpos. apply Z.ltb_lt in Hpos.
  rewrite Hpos. reflexivity.
Qed.

Lemma short_frame_gives_zero_tensor_witness :
  outcome (RealTimeClassifier.preprocess_image (FrameBytes [xff; xff; xff]))
  = inr (repeat Float64.lit_0_0 (Z.to_nat RealTimeClassifier.INPUT_LEN)).
Proof.
  apply short_frame_gives_zero_tensor. unfold len. cbn [List.length]. lia.
Defined.

Lemma tensor_entry_stride1 data j :
  STRIDE1_WINDOW < len data < 2 * RealTimeClassifier.INPUT_LEN ->
  0 <= j < RealTimeClassifier.INPUT_LEN ->
  0 <= j / 3 + j mod 3 < STRIDE1_WINDOW /\
  tensor_entry data j
  = match nth_error data (Z.to_nat (j / 3 + j mod 3)) with
    | Some b => RealTimeClassifier.normalize b
    | None => Float64.lit_0_0
    end.
Proof.
  unfold STRIDE1_WINDOW, FULL_SAMPLES, RealTimeClassifier.INPUT_LEN.
  change (224 * 224 * 3) with 150528. change (150528 / 3 + 2) with 50178.
  intros Hlen Hj.
  assert (Hq : 0 <= j / 3 < 50176)
    by (split; [apply Z.div_pos | apply Z.div_lt_upper_bound]; lia).
  pose proof (Z.mod_pos_bound j 3 ltac:(lia)) as Hr.
  split; [lia|].
  unfold tensor_entry, sampled_byte, RealTimeClassifier.INPUT_LEN.
  change (224 * 224 * 3) with 150528.
  assert (Hstep : Z.max 1 (len data / 150528) = 1).
  { assert (len data / 150528 < 2) by (apply Z.div_lt_upper_bound; lia). lia. }
  rewrite Hstep, Z.mul_1_r.
  assert (Hin : (j / 3 <? len data - 3) = true) by (apply Z.ltb_lt; lia).
  rewrite Hin. reflexivity.
Qed.

(** X12: for a frame of more than 50178 and fewer than 2*150528 bytes
    the stride is 1 and the tensor is filled from overlapping windows
    at the start of the frame: the tensor is a function of the first
    50178 bytes alone.  Two such frames that agree on those bytes give
    the same tensor, whatever follows. *)
Theorem tensor_depends_on_leading_bytes (data1 data2 : list byte) :
  STRIDE1_WINDOW < len data1 < 2 * RealTimeClassifier.INPUT_LEN ->
  STRIDE1_WINDOW < len data2 < 2 * RealTimeClassifier.INPUT_LEN ->
  firstn (Z.to_nat STRIDE1_WINDOW) data1 = firstn (Z.to_nat STRIDE1_WINDOW) data2 ->
  outcome (RealTimeClassifier.preprocess_image (FrameBytes data1))
  = outcome (RealTimeClassifier.preprocess_image (FrameBytes data2)).
Proof.
  intros Hlen1 Hlen2 Hsame.
  destruct (preprocess_image_spec (FrameBytes data1))
    as [t1 [Hout1 [Hl1 [_ Hentry1]]]].
  destruct (preprocess_image_spec (FrameBytes data2))
    as [t2 [Hout2 [Hl2 [_ Hentry2]]]].
  rewrite Hout1, Hout2. f_equal.
  change (224 * 224 * 3) with RealTimeClassifier.INPUT_LEN in *.
  apply nth_error_ext. intros n.
  destruct (Z.lt_ge_cases (Z.of_nat n) RealTimeClassifier.INPUT_LEN) as [Hn | Hn].
  - specialize (Hentry1 (Z.of_nat n) ltac:(lia)).
    specialize (Hentry2 (Z.of_nat n) ltac:(lia)).
    rewrite Nat2Z.id in Hentry1, Hentry2. rewrite Hentry1, Hentry2. f_equal.
    destruct (tensor_entry_stride1 data1 (Z.of_nat n) Hlen1 ltac:(lia))
      as [Hidx ->].
    destruct (tensor_entry_stride1 data2 (Z.of_nat n) Hlen2 ltac:(lia))
      as [_ ->].
    set (k := Z.of_nat n / 3 + Z.of_nat n mod 3) in *.
    rewrite <- (nth_error_firstn_lt data1 (Z.to_nat STRIDE1_WINDOW)) by lia.
    rewrite <- (nth_error_firstn_lt data2 (Z.to_nat STRIDE1_WINDOW)) by lia.
    rewrite Hsame. reflexivity.
  - unfold len in Hl1, Hl2.
    assert (H1 : nth_error t1 n = None) by (apply nth_error_None; lia).
    assert (H2 : nth_error t2 n = None) by (apply nth_error_None; lia).
    rewrite H1, H2. reflexivity.
Qed.

Lemma long_frames_agree (tail1 tail2 : byte) :
  firstn (Z.to_nat STRIDE1_WINDOW) (long_frame tail1)
  = firstn (Z.to_nat STRIDE1_WINDOW) (long_frame tail2).
Proof.
  unfold long_frame. rewrite !firstn_app, !repeat_length, Nat.sub_diag.
  reflexivity.
Qed.

Lemma tensor_depends_on_leading_bytes_witness :
  outcome (RealTimeClassifier.preprocess_image (FrameBytes (long_frame x00)))
  = outcome (RealTimeClassifier.preprocess_image (FrameBytes (long_frame xff))).
Proof.
  apply tensor_depends_on_leading_bytes.
  - vm_compute. split; reflexivity.
  - vm_compute. split; reflexivity.
  - apply long_frames_agree.
Defined.

(* ------------------------------------------------------------------ *)
(** ** Inference and result construction, continued *)

(** X13: when no interpreter call raises, [run_inference] returns what
    [get_output] gave, unchanged and whatever its length; a length
    other than 3 only adds a warning on the console. *)
Theorem run_inference_passes_output_through
  (eng : RealTimeClassifier.engine_env) (input_data : list spec_float) output :
  RealTimeClassifier.set_input eng = None ->
  RealTimeClassifier.invoke eng = None ->
  RealTimeClassifier.get_output eng = inr output ->
  RealTimeClassifier.run_inference eng input_data
  = ([EvPrint LogRunningInference; EvSetInput input_data; EvInvoke;
      EvGetOutput; EvPrint LogInferenceComplete; EvPrint (LogRawOutput output)]
     ++ (if len output =? 3 then []
         else [EvPrint (LogUnexpectedOutputs 3 (len output))]),
     inr output).
Proof.
  intros Hset Hinv Hget.
  unfold RealTimeClassifier.run_inference, call, emit.
  rewrite Hset, Hinv, Hget. cbn [outcome_of bind try_except app].
  change (len RealTimeClassifier.class_names) with 3.
  destruct (len output =? 3); reflexivity.
Qed.

Lemma run_inference_passes_output_through_witness :
  RealTimeClassifier.run_inference
    (sample_engine (inr [mkfloat 31 Float64.lit_1_0; mkfloat 32 Float64.lit_0_0]))
    [Float64.lit_0_0]
  = ([EvPrint LogRunningInference; EvSetInput [Float64.lit_0_0]; EvInvoke;
      EvGetOutput; EvPrint LogInferenceComplete;
      EvPrint (LogRawOutput [mkfloat 31 Float64.lit_1_0;
                             mkfloat 32 Float64.lit_0_0])]
     ++ (if len [mkfloat 31 Float64.lit_1_0; mkfloat 32 Float64.lit_0_0] =? 3
         then []
         else [EvPrint (LogUnexpectedOutputs 3
                          (len [mkfloat 31 Float64.lit_1_0;
                                mkfloat 32 Float64.lit_0_0]))]),
     inr [mkfloat 31 Float64.lit_1_0; mkfloat 32 Float64.lit_0_0]).
Proof.
  exact (run_inference_passes_output_through
           (sample_engine (inr [mkfloat 31 Float64.lit_1_0;
                                mkfloat 32 Float64.lit_0_0]))
           [Float64.lit_0_0] _ eq_refl eq_refl eq_refl).
Defined.

(** X14: [process_result] looks at the first three entries of the
    output only: any output of at least three entries gives the result
    its first three entries give on their own. *)
Theorem process_result_ignores_tail (now : Z) (output : list pyfloat) :
  3 <= len output ->
  RealTimeClassifier.process_result now output
  = RealTimeClassifier.process_result now (firstn 3 output).
Proof.
  intros Hlong.
  destruct (firstn3_cases output Hlong) as [a [b [c [rest [Hout H3]]]]].
  rewrite H3. unfold RealTimeClassifier.process_result.
  apply Z.leb_le in Hlong. rewrite Hlong, H3.
  change (3 <=? len [a; b; c]) with true.
  change (firstn 3 [a; b; c]) with [a; b; c].
  destruct (py_max_is_maximum a [b; c]) as [top [Hmax [Hin _]]].
  rewrite Hmax, !bind_ret. rewrite Hout.
  unfold py_index. cbn [index_from].
  destruct (py_same_or_equal a top) eqn:Ha; [reflexivity|].
  destruct (py_same_or_equal b top) eqn:Hb; [reflexivity|].
  destruct (py_same_or_equal c top) eqn:Hc; [reflexivity|].
  destruct Hin as [<- | [<- | [<- | []]]];
    rewrite py_same_or_equal_refl in *; discriminate.
Qed.

Lemma process_result_ignores_tail_witness :
  RealTimeClassifier.process_result 9
    [mkfloat 41 Float64.lit_0_34; mkfloat 42 Float64.lit_0_33;
     mkfloat 43 Float64.lit_0_33; mkfloat 44 Float64.lit_1_0]
  = RealTimeClassifier.process_result 9
      (firstn 3 [mkfloat 41 Float64.lit_0_34; mkfloat 42 Float64.lit_0_33;
                 mkfloat 43 Float64.lit_0_33; mkfloat 44 Float64.lit_1_0]).
Proof.
  apply process_result_ignores_tail. unfold len. cbn [List.length]. lia.
Defined.

(* ------------------------------------------------------------------ *)
(** ** Passes of the loop, continued *)

Lemma filter_excluded (p q : event -> bool) (tr : list event) :
  (forall ev, q ev = true -> p ev = false) ->
  forallb q tr = true -> filter p tr = [].
Proof.
  intros Hpq. induction tr as [|ev tr IH]; [reflexivity|].
  cbn [forallb filter]. intros H. apply andb_true_iff in H as [Hev Htr].
  rewrite (Hpq ev Hev). auto.
Qed.

Lemma run_inference_pipeline eng input_data :
  forallb pipeline_event (trace (RealTimeClassifier.run_inference eng input_data))
  = true.
Proof.
  unfold RealTimeClassifier.run_inference, call, emit.
  destruct (RealTimeClassifier.set_input eng) as [e|]; [reflexivity|].
  destruct (RealTimeClassifier.invoke eng) as [e|]; [reflexivity|].
  destruct (RealTimeClassifier.get_output eng) as [e|output]; [reflexivity|].
  cbn [outcome_of bind try_except app].
  destruct (negb (len output =? len RealTimeClassifier.class_names));
    reflexivity.
Qed.

Lemma preprocess_image_pipeline frame :
  forallb pipeline_event (trace (RealTimeClassifier.preprocess_image frame))
  = true.
Proof.
  destruct frame as [data| |t]; [rewrite preprocess_image_bytes|..]; reflexivity.
Qed.

Section PassFacts.

Variable json_dumps : results -> string.

(** The events of the handler, and its single call of [accept]. *)
Lemma handle_client_events self env :
  forallb handler_event (trace (HTTPServer.handle_client json_dumps self env))
  = true /\
  filter is_accept (trace (HTTPServer.handle_client json_dumps self env))
  = [EvAccept].
Proof.
  unfold HTTPServer.handle_client, call, emit.
  destruct (HTTPServer.accept env) as [e|client].
  - destruct e as [errno| | | |name]; cbn; try (split; reflexivity).
    destruct (errno =? 11); split; reflexivity.
  - cbn [bind app].
    destruct (HTTPServer.recv_decode client) as [e|request].
    + destruct e as [errno| | | |name]; cbn; try (split; reflexivity).
      destruct (errno =? 11); split; reflexivity.
    + cbn [bind app]. rewrite <- bind_assoc, parse_request_path.
      destruct (request_path request) as [path|]; [|split; reflexivity].
      rewrite bind_ret.
      destruct ((path =? "/classify") || (path =? "/data") || (path =? "/api"))%string;
        [split; reflexivity|].
      destruct ((path =? "/jpg") || (path =? "/capture"))%string;
        [|split; reflexivity].
      destruct (HTTPServer.capture env) as [e|[data| |t]]; split; reflexivity.
Qed.

(** A pass whose capture succeeds, event by event. *)
Lemma loop_body_success_trace env st frame :
  RealTimeClassifier.capture env = inr frame ->
  truthy frame = true ->
  exists tr1 tensor tr2 output r tr3,
    RealTimeClassifier.preprocess_image frame = (tr1, inr tensor) /\
    RealTimeClassifier.run_inference (RealTimeClassifier.engine env) tensor
    = (tr2, inr output) /\
    RealTimeClassifier.process_result (RealTimeClassifier.ticks_ms env) output
    = ([EvTicksMs], inr r) /\
    well_shaped r /\
    forallb pipeline_event (tr1 ++ tr2) = true /\
    ((predicted_class r = RealTimeClassifier.last_class st /\ tr3 = []) \/
     (predicted_class r <> RealTimeClassifier.last_class st /\
      exists class_name confidence,
        tr3 = [EvPrint (LogNewPrediction r);
               EvPrint (LogClassConfidence class_name confidence)])) /\
    let server :=
      HTTPServer.update_results (RealTimeClassifier.http_server st) r in
    RealTimeClassifier.loop_body json_dumps env st
    = ([EvCapture] ++ tr1 ++ tr2 ++ [EvTicksMs] ++ tr3
       ++ trace (HTTPServer.handle_client json_dumps server
                   (RealTimeClassifier.network env))
       ++ [EvGcCollect; EvSleepMs 50],
       inr {| RealTimeClassifier.last_class := predicted_class r;
              RealTimeClassifier.http_server := server |}).
Proof.
  intros Hcap Htruthy.
  destruct (preprocess_image_spec frame) as [tensor [Hpre [Hlen _]]].
  pose proof (surjective_M (RealTimeClassifier.preprocess_image frame)) as Hp.
  rewrite Hpre in Hp.
  pose proof (preprocess_image_pipeline frame) as Hq1.
  set (tr1 := trace (RealTimeClassifier.preprocess_image frame)) in *.
  destruct (run_inference_returns (RealTimeClassifier.engine env) tensor)
    as [tr2 [output [Hinf _]]].
  pose proof (run_inference_pipeline (RealTimeClassifier.engine env) tensor)
    as Hq2.
  rewrite Hinf in Hq2. cbn [trace fst] in Hq2.
  destruct (process_result_returns (RealTimeClassifier.ticks_ms env) output)
    as [r [Hres [_ [Hplen Hcls]]]].
  assert (Hrep : exists tr3,
    (if negb (predicted_class r =? RealTimeClassifier.last_class st) then
       emit (EvPrint (LogNewPrediction r)) ;;
       class_name <- getitem RealTimeClassifier.class_names (predicted_class r) ;;
       top <- py_max (probabilities r) ;;
       emit (EvPrint (LogClassConfidence class_name
                        (Float64.mul (fval top) Float64.lit_100))) ;;
       ret (predicted_class r)
     else ret (RealTimeClassifier.last_class st))
    = (tr3, inr (predicted_class r)) /\
    ((predicted_class r = RealTimeClassifier.last_class st /\ tr3 = []) \/
     (predicted_class r <> RealTimeClassifier.last_class st /\
      exists class_name confidence,
        tr3 = [EvPrint (LogNewPrediction r);
               EvPrint (LogClassConfidence class_name confidence)]))).
  { destruct (predicted_class r =? RealTimeClassifier.last_class st) eqn:Hsame;
      cbn [negb].
    - apply Z.eqb_eq in Hsame. exists []. rewrite <- Hsame. split; [reflexivity|].
      left. split; reflexivity.
    - apply Z.eqb_neq in Hsame.
      destruct (probabilities r) as [|x rest] eqn:Hprobs; [discriminate Hplen|].
      assert (Hc : predicted_class r = 0 \/ predicted_class r = 1
                   \/ predicted_class r = 2) by lia.
      destruct Hc as [Hc | [Hc | Hc]]; rewrite Hc;
        eexists; (split; [reflexivity|]); right;
        (split; [congruence|]); do 2 eexists; reflexivity. }
  destruct Hrep as [tr3 [Hrep Hshape]].
  exists tr1, tensor, tr2, output, r, tr3.
  split; [exact Hp|]. split; [exact Hinf|]. split; [exact Hres|].
  split; [split; assumption|].
  split; [rewrite forallb_app, Hq1, Hq2; reflexivity|].
  split; [exact Hshape|].
  cbv zeta.
  pose proof (handle_client_returns json_dumps
                (HTTPServer.update_results (RealTimeClassifier.http_server st) r)
                (RealTimeClassifier.network env)) as Hret.
  pose proof (surjective_M (HTTPServer.handle_client json_dumps
                (HTTPServer.update_results (RealTimeClassifier.http_server st) r)
                (RealTimeClassifier.network env))) as Hh.
  rewrite Hret in Hh.
  destruct tensor as [|x tensor'].
  { unfold RealTimeClassifier.INPUT_LEN in Hlen. discriminate Hlen. }
  unfold RealTimeClassifier.loop_body.
  eapply bind_step.
  { unfold call. rewrite Hcap. cbn [bind try_except app ret].
    rewrite Htruthy. reflexivity. }
  cbv beta iota zeta.
  eapply bind_step; [exact Hp|]. cbv beta iota.
  eapply bind_step; [exact Hinf|]. cbv beta.
  eapply bind_step; [exact Hres|]. cbv beta.
  eapply bind_step; [exact Hrep|]. cbv beta.
  eapply bind_step; [exact Hh|]. reflexivity.
Qed.

End PassFacts.

Lemma pipeline_not_new_prediction ev :
  pipeline_event ev = true -> new_prediction_event ev = false.
Proof. destruct ev as [| | | | | | | | | | | | | | | | | | |[]]; cbn; congruence. Qed.

Lemma handler_not_new_prediction ev :
  handler_event ev = true -> new_prediction_event ev = false.
Proof. destruct ev as [| | | | | | | | | | | | | | | | | | |[]]; cbn; congruence. Qed.

Lemma pipeline_not_accept ev :
  pipeline_event ev = true -> is_accept ev = false.
Proof. destruct ev as [| | | | | | | | | | | | | | | | | | |[]]; cbn; congruence. Qed.

Section PassTheorems.

Variable json_dumps : results -> string.

(** The console report of a pass whose capture succeeds. *)
Lemma pass_new_prediction_log env st frame :
  RealTimeClassifier.capture env = inr frame ->
  truthy frame = true ->
  exists r,
    outcome (RealTimeClassifier.loop_body json_dumps env st)
    = inr {| RealTimeClassifier.last_class := predicted_class r;
             RealTimeClassifier.http_server :=
               HTTPServer.update_results (RealTimeClassifier.http_server st) r |} /\
    held_by_system r /\
    well_shaped r /\
    filter new_prediction_event
      (trace (RealTimeClassifier.loop_body json_dumps env st))
    = if predicted_class r =? RealTimeClassifier.last_class st then []
      else [EvPrint (LogNewPrediction r)].
Proof.
  intros Hcap Htruthy.
  destruct (loop_body_success_trace json_dumps env st frame Hcap Htruthy)
    as [tr1 [tensor [tr2 [output [r [tr3
         [_ [_ [Hres [Hshape [Hpipe [Hrep Hbody]]]]]]]]]]]].
  cbv zeta in Hbody. exists r. rewrite Hbody. cbn [outcome snd trace fst].
  split; [reflexivity|].
  split; [apply (held_processed (RealTimeClassifier.ticks_ms env) output);
          rewrite Hres; reflexivity|].
  split; [exact Hshape|].
  destruct (handle_client_events json_dumps
              (HTTPServer.update_results (RealTimeClassifier.http_server st) r)
              (RealTimeClassifier.network env)) as [Hhandler _].
  rewrite forallb_app in Hpipe. apply andb_true_iff in Hpipe as [Hp1 Hp2].
  rewrite !filter_app.
  rewrite (filter_excluded _ _ _ pipeline_not_new_prediction Hp1).
  rewrite (filter_excluded _ _ _ pipeline_not_new_prediction Hp2).
  rewrite (filter_excluded _ _ _ handler_not_new_prediction Hhandler).
  destruct Hrep as [[Hsame ->] | [Hdiff [name [conf ->]]]].
  - apply Z.eqb_eq in Hsame. rewrite Hsame. reflexivity.
  - apply Z.eqb_neq in Hdiff. rewrite Hdiff. reflexivity.
Qed.

End PassTheorems.

(** X15: in a pass whose capture succeeds, the [New prediction] message
    is printed exactly when the class of the result built in that pass
    differs from [last_class], and at most once; the pass leaves
    [last_class] equal to that class. *)
Theorem new_prediction_logged_iff_class_changes
  (json_dumps : results -> string) env st frame :
  RealTimeClassifier.capture env = inr frame ->
  truthy frame = true ->
  exists r,
    outcome (RealTimeClassifier.loop_body json_dumps env st)
    = inr {| RealTimeClassifier.last_class := predicted_class r;
             RealTimeClassifier.http_server :=
               HTTPServer.update_results (RealTimeClassifier.http_server st) r |} /\
    filter new_prediction_event
      (trace (RealTimeClassifier.loop_body json_dumps env st))
    = if predicted_class r =? RealTimeClassifier.last_class st then []
      else [EvPrint (LogNewPrediction r)].
Proof.
  intros Hcap Htruthy.
  destruct (pass_new_prediction_log json_dumps env st frame Hcap Htruthy)
    as [r [Hout [_ [_ Hlog]]]].
  exists r. split; assumption.
Qed.

Lemma new_prediction_logged_iff_class_changes_witness :
  exists r,
    outcome (RealTimeClassifier.loop_body sample_dumps
               (sample_tick (inr (FrameBytes [x01; x02; x03; x04; x05]))
                  (inr (probabilities sample_results)) "GET")
               (sample_state 1))
    = inr {| RealTimeClassifier.last_class := predicted_class r;
             RealTimeClassifier.http_server :=
               HTTPServer.update_results sample_server r |} /\
    filter new_prediction_event
      (trace (RealTimeClassifier.loop_body sample_dumps
                (sample_tick (inr (FrameBytes [x01; x02; x03; x04; x05]))
                   (inr (probabilities sample_results)) "GET")
                (sample_state 1)))
    = if predicted_class r =? 1 then []
      else [EvPrint (LogNewPrediction r)].
Proof.
  exact (new_prediction_logged_iff_class_changes sample_dumps
           (sample_tick (inr (FrameBytes [x01; x02; x03; x04; x05]))
              (inr (probabilities sample_results)) "GET")
           (sample_state 1)
           (FrameBytes [x01; x02; x03; x04; x05]) eq_refl eq_refl).
Defined.

(** X16: over two consecutive passes whose captures succeed and whose
    results have the same class, [New prediction] is printed at most
    once: on entry into the class, not on every pass. *)
Theorem steady_class_is_logged_once
  (json_dumps : results -> string) env1 env2 st frame1 frame2 :
  RealTimeClassifier.capture env1 = inr frame1 -> truthy frame1 = true ->
  RealTimeClassifier.capture env2 = inr frame2 -> truthy frame2 = true ->
  exists st1 st2,
    outcome (RealTimeClassifier.loop_body json_dumps env1 st) = inr st1 /\
    outcome (RealTimeClassifier.loop_body json_dumps env2 st1) = inr st2 /\
    outcome (RealTimeClassifier.loop json_dumps [env1; env2] st) = inr st2 /\
    (predicted_class (HTTPServer.latest_results
                        (RealTimeClassifier.http_server st1))
     = predicted_class (HTTPServer.latest_results
                          (RealTimeClassifier.http_server st2)) ->
     (List.length
        (filter new_prediction_event
           (trace (RealTimeClassifier.loop json_dumps [env1; env2] st)))
      <= 1)%nat).
Proof.
  intros Hcap1 Ht1 Hcap2 Ht2.
  destruct (pass_new_prediction_log json_dumps env1 st frame1 Hcap1 Ht1)
    as [r1 [Hout1 [_ [_ Hlog1]]]].
  set (st1 := {| RealTimeClassifier.last_class := predicted_class r1;
                 RealTimeClassifier.http_server :=
                   HTTPServer.update_results
                     (RealTimeClassifier.http_server st) r1 |}) in *.
  destruct (pass_new_prediction_log json_dumps env2 st1 frame2 Hcap2 Ht2)
    as [r2 [Hout2 [_ [_ Hlog2]]]].
  set (st2 := {| RealTimeClassifier.last_class := predicted_class r2;
                 RealTimeClassifier.http_server :=
                   HTTPServer.update_results
                     (RealTimeClassifier.http_server st1) r2 |}) in *.
  exists st1, st2. split; [exact Hout1|]. split; [exact Hout2|].
  pose proof (surjective_M (RealTimeClassifier.loop_body json_dumps env1 st))
    as H1. rewrite Hout1 in H1.
  pose proof (surjective_M (RealTimeClassifier.loop_body json_dumps env2 st1))
    as H2. rewrite Hout2 in H2.
  assert (Hloop : RealTimeClassifier.loop json_dumps [env1; env2] st
                  = (trace (RealTimeClassifier.loop_body json_dumps env1 st)
                     ++ trace (RealTimeClassifier.loop_body json_dumps env2 st1)
                     ++ [], inr st2)).
  { cbn [RealTimeClassifier.loop].
    eapply bind_step; [exact H1|]. cbv beta.
    eapply bind_step; [exact H2|]. reflexivity. }
  rewrite Hloop. cbn [outcome snd trace fst]. split; [reflexivity|].
  cbn [st1 st2 RealTimeClassifier.http_server HTTPServer.update_results
       HTTPServer.latest_results].
  intros Hsame. rewrite !filter_app, Hlog1, Hlog2.
  cbn [st1 RealTimeClassifier.last_class]. rewrite Hsame, Z.eqb_refl.
  destruct (predicted_class r2 =? RealTimeClassifier.last_class st);
    cbn; lia.
Qed.

Lemma steady_class_is_logged_once_witness :
  exists st1 st2,
    outcome (RealTimeClassifier.loop_body sample_dumps
               (sample_tick (inr (FrameBytes [x01; x02; x03; x04]))
                  (inr (probabilities sample_results)) "GET")
               (sample_state (-1))) = inr st1 /\
    outcome (RealTimeClassifier.loop_body sample_dumps
               (sample_tick (inr (FrameBytes [x05; x06; x07; x08]))
                  (inr (probabilities sample_results)) "GET")
               st1) = inr st2 /\
    outcome (RealTimeClassifier.loop sample_dumps
               [sample_tick (inr (FrameBytes [x01; x02; x03; x04]))
                  (inr (probabilities sample_results)) "GET";
                sample_tick (inr (FrameBytes [x05; x06; x07; x08]))
                  (inr (probabilities sample_results)) "GET"]
               (sample_state (-1))) = inr st2 /\
    (predicted_class (HTTPServer.latest_results
                        (RealTimeClassifier.http_server st1))
     = predicted_class (HTTPServer.latest_results
                          (RealTimeClassifier.http_server st2)) ->
     (List.length
        (filter new_prediction_event
           (trace (RealTimeClassifier.loop sample_dumps
                     [sample_tick (inr (FrameBytes [x01; x02; x03; x04]))
                        (inr (probabilities sample_results)) "GET";
                      sample_tick (inr (FrameBytes [x05; x06; x07; x08]))
                        (inr (probabilities sample_results)) "GET"]
                     (sample_state (-1)))))
      <= 1)%nat).
Proof.
  exact (steady_class_is_logged_once sample_dumps
           (sample_tick (inr (FrameBytes [x01; x02; x03; x04]))
              (inr (probabilities sample_results)) "GET")
           (sample_tick (inr (FrameBytes [x05; x06; x07; x08]))
              (inr (probabilities sample_results)) "GET")
           (sample_state (-1))
           (FrameBytes [x01; x02; x03; x04]) (FrameBytes [x05; x06; x07; x08])
           eq_refl eq_refl eq_refl eq_refl).
Defined.

(** X17: a pass calls [accept] exactly once when its capture succeeds
    and not at all when it fails: one service attempt per completed
    pass, none in a pass cut short. *)
Theorem one_accept_per_completed_pass
  (json_dumps : results -> string) env st :
  List.length
    (filter is_accept (trace (RealTimeClassifier.loop_body json_dumps env st)))
  = if capture_fails env then 0%nat else 1%nat.
Proof.
  destruct (capture_fails env) eqn:Hfail.
  - destruct (loop_body_capture_failure json_dumps env st Hfail)
      as [msg [-> _]]. reflexivity.
  - unfold capture_fails in Hfail.
    destruct (RealTimeClassifier.capture env) as [e|frame] eqn:Hcap;
      [discriminate|].
    apply negb_false_iff in Hfail.
    destruct (loop_body_success_trace json_dumps env st frame Hcap Hfail)
      as [tr1 [tensor [tr2 [output [r [tr3
           [_ [_ [_ [_ [Hpipe [Hrep Hbody]]]]]]]]]]]].
    cbv zeta in Hbody. rewrite Hbody. cbn [trace fst].
    destruct (handle_client_events json_dumps
                (HTTPServer.update_results (RealTimeClassifier.http_server st) r)
                (RealTimeClassifier.network env)) as [_ Haccept].
    rewrite forallb_app in Hpipe. apply andb_true_iff in Hpipe as [Hp1 Hp2].
    rewrite !filter_app, Haccept.
    rewrite (filter_excluded _ _ _ pipeline_not_accept Hp1).
    rewrite (filter_excluded _ _ _ pipeline_not_accept Hp2).
    destruct Hrep as [[_ ->] | [_ [name [conf ->]]]]; reflexivity.
Qed.

(** X18: a pass in which the interpreter returns fewer than three
    values, none included, stores the fixed probabilities
    [0.33, 0.33, 0.34] with class 0 and the time of the pass; the
    values returned are dropped. *)
Theorem short_output_pass_caches_default
  (json_dumps : results -> string) env st frame output :
  RealTimeClassifier.capture env = inr frame ->
  truthy frame = true ->
  engine_failure (RealTimeClassifier.engine env) = None ->
  RealTimeClassifier.get_output (RealTimeClassifier.engine env) = inr output ->
  len output < 3 ->
  outcome (RealTimeClassifier.loop_body json_dumps env st)
  = inr {| RealTimeClassifier.last_class := 0;
           RealTimeClassifier.http_server :=
             HTTPServer.update_results (RealTimeClassifier.http_server st)
               {| timestamp := RealTimeClassifier.ticks_ms env;
                  probabilities := RealTimeClassifier.fallback_probabilities;
                  predicted_class := 0 |} |}.
Proof.
  intros Hcap Htruthy Hok Hget Hshort.
  destruct (loop_body_capture_success json_dumps env st frame Hcap Htruthy)
    as [tr1 [tensor [tr2 [output' [r [pre [_ [_ [Heng [Hres [_ Hbody]]]]]]]]]]].
  rewrite Hok, Hget in Heng. injection Heng as <-.
  rewrite (process_result_short _ _ Hshort) in Hres. injection Hres as <-.
  cbv zeta in Hbody. rewrite Hbody. reflexivity.
Qed.

Lemma short_output_pass_caches_default_witness :
  outcome (RealTimeClassifier.loop_body sample_dumps
             (sample_tick (inr (FrameBytes [x01; x02; x03; x04]))
                (inr [mkfloat 51 Float64.lit_1_0; mkfloat 52 Float64.lit_0_0])
                "GET")
             (sample_state 2))
  = inr {| RealTimeClassifier.last_class := 0;
           RealTimeClassifier.http_server :=
             HTTPServer.update_results sample_server
               {| timestamp := 5000;
                  probabilities := RealTimeClassifier.fallback_probabilities;
                  predicted_class := 0 |} |}.
Proof.
  apply (short_output_pass_caches_default sample_dumps
           (sample_tick (inr (FrameBytes [x01; x02; x03; x04]))
              (inr [mkfloat 51 Float64.lit_1_0; mkfloat 52 Float64.lit_0_0])
              "GET")
           (sample_state 2) (FrameBytes [x01; x02; x03; x04])
           [mkfloat 51 Float64.lit_1_0; mkfloat 52 Float64.lit_0_0]
           eq_refl eq_refl eq_refl eq_refl).
  unfold len. cbn [List.length]. lia.
Defined.

Lemma initial_results_well_shaped : well_shaped HTTPServer.initial_results.
Proof. split; cbn; lia. Qed.

Section LoopInvariant.

Variable json_dumps : results -> string.

(** One pass: it returns, keeps the port, and keeps the invariant. *)
Lemma loop_body_preserves env st :
  exists st',
    outcome (RealTimeClassifier.loop_body json_dumps env st) = inr st' /\
    HTTPServer.port (RealTimeClassifier.http_server st')
    = HTTPServer.port (RealTimeClassifier.http_server st) /\
    (loop_invariant st -> loop_invariant st').
Proof.
  destruct (capture_fails env) eqn:Hfail.
  - destruct (loop_body_capture_failure json_dumps env st Hfail)
      as [msg [-> _]].
    exists st. split; [reflexivity|]. split; [reflexivity | auto].
  - unfold capture_fails in Hfail.
    destruct (RealTimeClassifier.capture env) as [e|frame] eqn:Hcap;
      [discriminate|].
    apply negb_false_iff in Hfail.
    destruct (pass_new_prediction_log json_dumps env st frame Hcap Hfail)
      as [r [Hout [Hheld [Hshape _]]]].
    eexists. split; [exact Hout|]. split; [reflexivity|].
    intros _. unfold loop_invariant. cbn. auto.
Qed.

Lemma loop_preserves envs : forall st,
  exists st',
    outcome (RealTimeClassifier.loop json_dumps envs st) = inr st' /\
    HTTPServer.port (RealTimeClassifier.http_server st')
    = HTTPServer.port (RealTimeClassifier.http_server st) /\
    (loop_invariant st -> loop_invariant st').
Proof.
  induction envs as [|env envs IH]; intros st.
  - exists st. split; [reflexivity|]. split; [reflexivity | auto].
  - destruct (loop_body_preserves env st) as [st1 [Hout1 [Hport1 Hinv1]]].
    destruct (IH st1) as [st2 [Hout2 [Hport2 Hinv2]]].
    exists st2. split; [|split].
    + cbn [RealTimeClassifier.loop].
      pose proof (surjective_M (RealTimeClassifier.loop_body json_dumps env st))
        as H1. rewrite Hout1 in H1.
      rewrite (bind_value _ _ _ _ H1). exact Hout2.
    + congruence.
    + auto.
Qed.

End LoopInvariant.

(** X19: no sequence of environments makes the loop raise: every pass
    returns, whatever the camera, the interpreter and the network do,
    and the server's port is never changed. *)
Theorem loop_survives_every_environment
  (json_dumps : results -> string) envs st :
  exists st',
    outcome (RealTimeClassifier.loop json_dumps envs st) = inr st' /\
    HTTPServer.port (RealTimeClassifier.http_server st')
    = HTTPServer.port (RealTimeClassifier.http_server st).
Proof.
  destruct (loop_preserves json_dumps envs st) as [st' [Hout [Hport _]]].
  exists st'. split; assumption.
Qed.

(** X20: from start-up on, after any number of passes, the cached
    result is the default or a result of [process_result], it has three
    probabilities and a class index in [0, 3), and [last_class] is the
    class of the cached result, or still -1 with the default cached. *)
Theorem cache_invariant_from_startup
  (json_dumps : results -> string) benv port self envs :
  outcome (HTTPServer.__init__ benv port) = inr self ->
  exists st',
    outcome (RealTimeClassifier.run_classification json_dumps self envs)
    = inr st' /\
    loop_invariant st'.
Proof.
  intros Hinit.
  pose proof (init_returns_default_cache benv port) as Hcache.
  rewrite Hinit in Hcache.
  destruct (loop_preserves json_dumps envs
              {| RealTimeClassifier.last_class := -1;
                 RealTimeClassifier.http_server := self |})
    as [st' [Hout [_ Hinv]]].
  exists st'. split.
  - unfold RealTimeClassifier.run_classification, emit.
    pose proof (surjective_M
                  (RealTimeClassifier.loop json_dumps envs
                     {| RealTimeClassifier.last_class := -1;
                        RealTimeClassifier.http_server := self |})) as H.
    rewrite Hout in H. rewrite H. reflexivity.
  - apply Hinv. unfold loop_invariant. cbn. rewrite Hcache.
    split; [constructor|]. split; [apply initial_results_well_shaped|].
    left. split; reflexivity.
Qed.

Lemma cache_invariant_from_startup_witness :
  exists st',
    outcome (RealTimeClassifier.run_classification sample_dumps sample_server
               [sample_tick (inl (OSError 5)) (inr []) "GET";
                sample_tick (inr (FrameBytes [x01; x02; x03; x04]))
                  (inl (OtherError "RuntimeError")) "GET / HTTP/1.1"])
    = inr st' /\
    loop_invariant st'.
Proof.
  exact (cache_invariant_from_startup sample_dumps
           {| HTTPServer.bind_primary := None;
              HTTPServer.bind_alternate := None |}
           80 sample_server
           [sample_tick (inl (OSError 5)) (inr []) "GET";
            sample_tick (inr (FrameBytes [x01; x02; x03; x04]))
              (inl (OtherError "RuntimeError")) "GET / HTTP/1.1"]
           eq_refl).
Defined.

(* ------------------------------------------------------------------ *)
(** ** Reading the path *)

Lemma occurs_append c (a b : string) :
  occurs c (a ++ b) = occurs c a || occurs c b.
Proof.
  induction a as [|x a IH]; [reflexivity|].
  cbn [append occurs]. rewrite IH, orb_assoc. reflexivity.
Qed.

(** Up to the first separator, [split] copies. *)
Lemma str_split_before_separator sep (a b : string) :
  occurs sep a = false ->
  str_split sep (a ++ String sep b) = a :: str_split sep b.
Proof.
  induction a as [|x a IH]; cbn [append occurs str_split]; intros H.
  - rewrite Ascii.eqb_refl. reflexivity.
  - apply orb_false_iff in H as [Hx Ha]. rewrite Hx, (IH Ha). reflexivity.
Qed.

Lemma str_split_prefix sep (a b : string) :
  occurs sep a = false ->
  exists w ws,
    str_split sep b = w :: ws /\
    str_split sep (a ++ b) = (a ++ w)%string :: ws.
Proof.
  intros Ha. destruct (str_split_nonempty sep b) as [w [ws Hb]].
  exists w, ws. split; [exact Hb|].
  induction a as [|x a IH]; [exact Hb|].
  cbn [append occurs str_split] in *.
  apply orb_false_iff in Ha as [Hx Ha]. rewrite Hx, (IH Ha). reflexivity.
Qed.

(** The path is the second word of the first line, when the first two
    words are free of spaces and line feeds and a space follows. *)
Lemma request_path_second_word (method path rest : string) :
  occurs " " method = false -> occurs LF method = false ->
  occurs " " path = false -> occurs LF path = false ->
  request_path (method ++ " " ++ path ++ " " ++ rest) = Some path.
Proof.
  intros Hm1 Hm2 Hp1 Hp2. unfold request_path.
  assert (Hpre : occurs LF (method ++ " " ++ path ++ " ") = false).
  { rewrite !occurs_append, Hm2, Hp2. reflexivity. }
  destruct (str_split_prefix LF (method ++ " " ++ path ++ " ") rest Hpre)
    as [w [ws [_ Hsplit]]].
  rewrite !append_assoc in Hsplit. cbn [append] in Hsplit.
  cbn [append]. rewrite Hsplit.
  rewrite (str_split_before_separator " " method _ Hm1).
  rewrite (str_split_before_separator " " path _ Hp1).
  reflexivity.
Qed.

(** A line that ends right after the path hands the carriage return
    over with it. *)
Lemma request_path_bare_line (method path rest : string) :
  occurs " " method = false -> occurs LF method = false ->
  occurs " " path = false -> occurs LF path = false ->
  request_path (method ++ " " ++ path ++ CRLF ++ rest) = Some (path ++ CR)%string.
Proof.
  intros Hm1 Hm2 Hp1 Hp2. unfold request_path.
  assert (Hpre : occurs LF (method ++ " " ++ path ++ CR) = false).
  { rewrite !occurs_append, Hm2, Hp2. reflexivity. }
  replace (method ++ " " ++ path ++ CRLF ++ rest)%string
    with ((method ++ " " ++ path ++ CR) ++ String LF rest)%string
    by (rewrite !append_assoc; reflexivity).
  rewrite (str_split_before_separator LF _ rest Hpre).
  cbn [append].
  destruct (str_split_prefix " " (path ++ CR) EmptyString) as [w [ws [Hw Hsplit]]].
  { rewrite occurs_append, Hp1. reflexivity. }
  cbn [str_split] in Hw. injection Hw as <- <-.
  replace (method ++ String " " (path ++ CR))%string
    with (method ++ String " " ((path ++ CR) ++ EmptyString))%string.
  - rewrite (str_split_before_separator " " method _ Hm1), Hsplit.
    cbn [nth_error]. f_equal.
    clear. induction (path ++ CR)%string as [|x a IH]; [reflexivity|].
    cbn [append]. rewrite IH. reflexivity.
  - f_equal. f_equal.
    clear. induction (path ++ CR)%string as [|x a IH]; [reflexivity|].
    cbn [append]. rewrite IH. reflexivity.
Qed.

Lemma path_with_cr_is_no_route (path : string) :
  known_route (path ++ CR) = false.
Proof.
  assert (Hcr : occurs "013" (path ++ CR) = true)
    by (rewrite occurs_append; cbn; apply orb_true_r).
  unfold known_route. cbn [existsb].
  repeat match goal with
  | |- context [(?s =? ?r)%string] =>
      let E := fresh "E" in
      destruct (s =? r)%string eqn:E;
      [apply String.eqb_eq in E; rewrite E in Hcr; discriminate Hcr|]
  end.
  reflexivity.
Qed.

Lemma json_route_plain path :
  json_route path = true -> occurs " " path = false /\ occurs LF path = false.
Proof.
  unfold json_route. intros H.
  apply orb_true_iff in H as [H | H];
    [apply orb_true_iff in H as [H | H]|];
    apply String.eqb_eq in H; subst path; split; reflexivity.
Qed.

(** X21: a request whose first line is [method SP path SP ...], with a
    path among [/classify], [/data], [/api], is answered with the JSON
    of the cached result, whatever the method (it is never looked at),
    the protocol version and the lines that follow. *)
Theorem request_line_reaches_json_route
  (json_dumps : results -> string) self env client method path rest :
  occurs " " method = false ->
  occurs LF method = false ->
  json_route path = true ->
  HTTPServer.accept env = inr client ->
  HTTPServer.recv_decode client
  = inr (method ++ " " ++ path ++ " " ++ rest)%string ->
  HTTPServer.handle_client json_dumps self env
  = (exchange_start
     ++ [EvSend (Encoded (HTTPServer.json_header
                          ++ json_dumps (HTTPServer.latest_results self))%string);
         EvClientClose],
     inr tt).
Proof.
  intros Hm1 Hm2 Hroute Haccept Hrecv.
  destruct (json_route_plain path Hroute) as [Hp1 Hp2].
  exact (json_route_response json_dumps self env client _ path Haccept Hrecv
           (request_path_second_word method path rest Hm1 Hm2 Hp1 Hp2) Hroute).
Qed.

Lemma request_line_reaches_json_route_witness :
  HTTPServer.handle_client sample_dumps sample_server
    (sample_net ("POST" ++ " " ++ "/api" ++ " " ++ "HTTP/1.0" ++ CRLF ++ CRLF)
       (inr FrameNone))
  = (exchange_start
     ++ [EvSend (Encoded (HTTPServer.json_header
                          ++ sample_dumps (HTTPServer.latest_results sample_server))%string);
         EvClientClose],
     inr tt).
Proof.
  exact (request_line_reaches_json_route sample_dumps sample_server
           (sample_net ("POST" ++ " " ++ "/api" ++ " " ++ "HTTP/1.0" ++ CRLF ++ CRLF)
              (inr FrameNone))
           (sample_client ("POST" ++ " " ++ "/api" ++ " " ++ "HTTP/1.0" ++ CRLF ++ CRLF))
           "POST"%string "/api"%string ("HTTP/1.0" ++ CRLF ++ CRLF)%string
           eq_refl eq_refl eq_refl eq_refl eq_refl).
Defined.

(** X22: a request line that ends right after the path, [method SP path
    CR LF], is given the HTML status page whatever the path, a JSON or
    image route included: the carriage return stays on the path, which
    then matches no route. *)
Theorem bare_request_line_gets_status_page
  (json_dumps : results -> string) self env client method path rest :
  occurs " " method = false -> occurs LF method = false ->
  occurs " " path = false -> occurs LF path = false ->
  HTTPServer.accept env = inr client ->
  HTTPServer.recv_decode client
  = inr (method ++ " " ++ path ++ CRLF ++ rest)%string ->
  HTTPServer.handle_client json_dumps self env
  = (exchange_start
     ++ [EvSend (Encoded (HTTPServer.html_header
                          ++ HTTPServer.status_page self)%string);
         EvClientClose],
     inr tt).
Proof.
  intros Hm1 Hm2 Hp1 Hp2 Haccept Hrecv.
  exact (default_route_response json_dumps self env client _ (path ++ CR)
           Haccept Hrecv
           (request_path_bare_line method path rest Hm1 Hm2 Hp1 Hp2)
           (path_with_cr_is_no_route path)).
Qed.

Lemma bare_request_line_gets_status_page_witness :
  HTTPServer.handle_client sample_dumps sample_server
    (sample_net ("GET" ++ " " ++ "/classify" ++ CRLF ++ EmptyString) (inr FrameNone))
  = (exchange_start
     ++ [EvSend (Encoded (HTTPServer.html_header
                          ++ HTTPServer.status_page sample_server)%string);
         EvClientClose],
     inr tt).
Proof.
  exact (bare_request_line_gets_status_page sample_dumps sample_server
           (sample_net ("GET" ++ " " ++ "/classify" ++ CRLF ++ EmptyString) (inr FrameNone))
           (sample_client ("GET" ++ " " ++ "/classify" ++ CRLF ++ EmptyString))
           "GET"%string "/classify"%string EmptyString
           eq_refl eq_refl eq_refl eq_refl eq_refl eq_refl).
Defined.

(* ------------------------------------------------------------------ *)
(** ** Start-up of the classifier *)

Lemma setup_bind_step {A B : Type} (m : Setup.S A) (k : A -> Setup.S B) tr a tr' r :
  m = (tr, inr a) -> k a = (tr', r) -> Setup.bind m k = (tr ++ tr', r).
Proof. intros -> Hk. unfold Setup.bind. rewrite Hk. reflexivity. Qed.

(** Negative answers: as many polls and as many one-second sleeps, and
    the wait goes on with the answers that follow. *)
Lemma wait_connected_negative (n : nat) (rest : list (exn + bool)) :
  Setup.wait_connected (repeat (inr false) n ++ rest)
  = (flat_map (fun _ => [SvIsConnected; SvSleep 1]) (seq 0 n)
     ++ fst (Setup.wait_connected rest),
     snd (Setup.wait_connected rest)).
Proof.
  generalize 0%nat. induction n as [|n IH]; intros start.
  - cbn. destruct (Setup.wait_connected rest); reflexivity.
  - cbn [repeat app Setup.wait_connected seq flat_map].
    unfold Setup.call, Setup.emit. cbn [Setup.bind negb app].
    rewrite (IH (S start)). reflexivity.
Qed.

Lemma count_waits (p : setup_event -> bool) (n start : nat) :
  List.length
    (filter p (flat_map (fun _ => [SvIsConnected; SvSleep 1]) (seq start n)))
  = (n * List.length (filter p [SvIsConnected; SvSleep 1]))%nat.
Proof.
  revert start. induction n as [|n IH]; intros start; [reflexivity|].
  cbn [seq flat_map]. rewrite filter_app, length_app, IH. lia.
Qed.

Lemma setup_wifi_quiet (answers : list (exn + bool)) (ssid password : string) :
  Setup.setup_wifi (Setup.quiet_wifi answers) ssid password
  = ([SvPrint LogConnectingWifi; SvWlanCreate; SvWlanActive true;
      SvWlanConnect ssid password]
     ++ fst (Setup.wait_connected answers)
     ++ match snd (Setup.wait_connected answers) with
        | inr true => [SvPrint LogWifiConnected; SvIfconfig;
                       SvPrint (LogDeviceIP "192.168.4.1")]
        | _ => []
        end,
     snd (Setup.wait_connected answers)).
Proof.
  unfold Setup.setup_wifi, Setup.quiet_wifi, Setup.call, Setup.emit.
  cbn [Setup.wlan_create Setup.wlan_active Setup.wlan_connect
       Setup.polls Setup.ifconfig outcome_of].
  destruct (Setup.wait_connected answers) as [tr [e|[|]]]; cbn;
    rewrite ?app_nil_r; reflexivity.
Qed.

(** X23: [setup_wifi] polls [isconnected()] until the first positive
    answer and sleeps one second after each negative one: after [n]
    negative answers and a positive one it has polled [n + 1] times,
    slept [n] times, and returns.  It has no limit of its own: while
    the answers stay negative, however many, it is still waiting. *)
Theorem setup_wifi_waits_without_limit
  (n : nat) (later : list (exn + bool)) (ssid password : string) :
  (let m := Setup.setup_wifi
              (Setup.quiet_wifi (repeat (inr false) n ++ inr true :: later))
              ssid password in
   snd m = inr true /\
   List.length (filter Setup.is_poll (fst m)) = S n /\
   List.length (filter Setup.is_sleep (fst m)) = n) /\
  (let m := Setup.setup_wifi (Setup.quiet_wifi (repeat (inr false) n))
              ssid password in
   snd m = inr false /\
   List.length (filter Setup.is_poll (fst m)) = n /\
   List.length (filter Setup.is_sleep (fst m)) = n).
Proof.
  split; cbv zeta; rewrite setup_wifi_quiet.
  - rewrite wait_connected_negative. cbn [fst snd Setup.wait_connected].
    unfold Setup.call. cbn [Setup.bind negb Setup.ret fst snd app].
    split; [reflexivity|]. cbn [filter Setup.is_poll Setup.is_sleep].
    rewrite !filter_app, !length_app, !count_waits. cbn. split; lia.
  - rewrite <- (app_nil_r (repeat (inr false) n)).
    rewrite wait_connected_negative. cbn [fst snd Setup.wait_connected Setup.ret].
    split; [reflexivity|]. cbn [filter Setup.is_poll Setup.is_sleep].
    rewrite !filter_app, !length_app, !count_waits. cbn. split; lia.
Qed.

(** The three warm-up rounds, one capture attempt each. *)
Lemma warmup_rounds (env : Setup.camera_env) :
  exists tr,
    Setup.for_each (py_range 0 3 1)
      (fun k =>
         Setup.try_except
           (Setup.bind (Setup.call SvCapture (Setup.warmup env k))
              (fun _ => Setup.emit (SvSleepMs 100)))
           (fun _ => Setup.emit (SvPrint LogTestFrameIssue)))
    = (tr, inr tt) /\
    List.length (filter Setup.is_capture tr) = 3%nat /\
    List.length (filter Setup.is_pause tr)
    = List.length (filter Setup.succeeded
                     [Setup.warmup env 0; Setup.warmup env 1; Setup.warmup env 2]) /\
    filter Setup.is_parameter_call tr = [] /\
    filter Setup.after_camera tr = [].
Proof.
  change (py_range 0 3 1) with [0; 1; 2].
  cbn [Setup.for_each]. unfold Setup.call, Setup.emit.
  destruct (Setup.warmup env 0) as [e0|f0], (Setup.warmup env 1) as [e1|f1],
           (Setup.warmup env 2) as [e2|f2];
    eexists; (split; [reflexivity|]); repeat split.
Qed.

Lemma parameter_calls (env : Setup.camera_env) :
  exists tr,
    Setup.try_except
      (Setup.bind (Setup.call (SvFramesize 4) (outcome_of (Setup.framesize env)))
         (fun _ =>
            Setup.bind (Setup.call (SvPixformat 0) (outcome_of (Setup.pixformat env)))
              (fun _ => Setup.call (SvQuality 10) (outcome_of (Setup.quality env)))))
      (fun _ => Setup.emit (SvPrint LogCameraDefaults))
    = (tr, inr tt) /\
    filter Setup.is_parameter_call tr
    = match Setup.framesize env, Setup.pixformat env with
      | Some _, _ => [SvFramesize 4]
      | None, Some _ => [SvFramesize 4; SvPixformat 0]
      | None, None => [SvFramesize 4; SvPixformat 0; SvQuality 10]
      end /\
    filter Setup.is_capture tr = [] /\
    filter Setup.is_pause tr = [] /\
    filter Setup.after_camera tr = [].
Proof.
  unfold Setup.call, Setup.emit.
  destruct (Setup.framesize env) as [e1|], (Setup.pixformat env) as [e2|],
           (Setup.quality env) as [e3|];
    eexists; (split; [reflexivity|]); repeat split.
Qed.

Lemma setup_camera_cases (env : Setup.camera_env) :
  match Setup.init env with
  | Some e =>
      Setup.setup_camera env
      = ([SvPrint LogInitializingCamera; SvCameraInit;
          SvPrint (LogCameraInitFailed e)], inl e)
  | None =>
      exists params rounds,
        Setup.setup_camera env
        = ([SvPrint LogInitializingCamera; SvCameraInit] ++ params ++ rounds
           ++ [SvPrint LogCameraInitialized], inr tt) /\
        filter Setup.is_parameter_call (params ++ rounds)
        = match Setup.framesize env, Setup.pixformat env with
          | Some _, _ => [SvFramesize 4]
          | None, Some _ => [SvFramesize 4; SvPixformat 0]
          | None, None => [SvFramesize 4; SvPixformat 0; SvQuality 10]
          end /\
        List.length (filter Setup.is_capture (params ++ rounds)) = 3%nat /\
        List.length (filter Setup.is_pause (params ++ rounds))
        = List.length (filter Setup.succeeded
                         [Setup.warmup env 0; Setup.warmup env 1;
                          Setup.warmup env 2]) /\
        filter Setup.after_camera (params ++ rounds) = []
  end.
Proof.
  destruct (Setup.init env) as [e|] eqn:Hinit.
  - unfold Setup.setup_camera, Setup.call, Setup.emit. rewrite Hinit.
    reflexivity.
  - destruct (parameter_calls env) as [params [Hparams [Hp1 [Hp2 [Hp3 Hp4]]]]].
    destruct (warmup_rounds env) as [rounds [Hrounds [Hr1 [Hr2 [Hr3 Hr4]]]]].
    exists params, rounds. split.
    + unfold Setup.setup_camera. rewrite Hinit.
      change (Setup.emit (SvPrint LogInitializingCamera))
        with ([SvPrint LogInitializingCamera], @inr exn unit tt).
      cbn [Setup.bind]. unfold Setup.call at 1. cbn [outcome_of Setup.bind].
      rewrite Hparams. cbn [Setup.bind]. rewrite Hrounds.
      cbn [Setup.bind Setup.emit Setup.try_except app].
      reflexivity.
    + rewrite !filter_app, !length_app, Hp1, Hp2, Hp3, Hp4, Hr1, Hr2, Hr3, Hr4.
      rewrite !app_nil_r. repeat split.
Qed.

(** X24: [setup_camera] raises exactly when [camera.init()] raises, and
    then with that exception.  Once [init] has succeeded nothing stops
    it: it makes three warm-up captures whatever their outcomes, pauses
    100 ms after each one that succeeded, and returns. *)
Theorem setup_camera_fails_only_with_init (env : Setup.camera_env) :
  snd (Setup.setup_camera env) = outcome_of (Setup.init env) /\
  List.length (filter Setup.is_capture (fst (Setup.setup_camera env)))
  = match Setup.init env with Some _ => 0%nat | None => 3%nat end /\
  List.length (filter Setup.is_pause (fst (Setup.setup_camera env)))
  = match Setup.init env with
    | Some _ => 0%nat
    | None => List.length (filter Setup.succeeded
                             [Setup.warmup env 0; Setup.warmup env 1;
                              Setup.warmup env 2])
    end.
Proof.
  pose proof (setup_camera_cases env) as H.
  destruct (Setup.init env) as [e|].
  - rewrite H. repeat split.
  - destruct H as [params [rounds [-> [_ [Hcap [Hpause _]]]]]].
    cbn [fst snd outcome_of]. split; [reflexivity|].
    rewrite (app_assoc params rounds).
    cbn [app filter Setup.is_capture Setup.is_pause].
    rewrite (filter_app Setup.is_capture (params ++ rounds)).
    rewrite (filter_app Setup.is_pause (params ++ rounds)).
    rewrite !length_app, Hcap, Hpause. cbn. split; lia.
Qed.

(** X25: the three camera parameters are set in the order framesize,
    pixformat, quality, and the first call that fails ends the
    sequence: the later parameters are left at their defaults, and
    start-up goes on. *)
Theorem camera_parameters_stop_at_first_failure (env : Setup.camera_env) :
  Setup.init env = None ->
  snd (Setup.setup_camera env) = inr tt /\
  filter Setup.is_parameter_call (fst (Setup.setup_camera env))
  = match Setup.framesize env, Setup.pixformat env with
    | Some _, _ => [SvFramesize 4]
    | None, Some _ => [SvFramesize 4; SvPixformat 0]
    | None, None => [SvFramesize 4; SvPixformat 0; SvQuality 10]
    end.
Proof.
  intros Hinit. pose proof (setup_camera_cases env) as H. rewrite Hinit in H.
  destruct H as [params [rounds [-> [Hparams _]]]].
  cbn [fst snd]. split; [reflexivity|].
  rewrite (app_assoc params rounds).
  cbn [app filter Setup.is_parameter_call].
  rewrite filter_app, Hparams. cbn. apply app_nil_r.
Qed.

Lemma camera_parameters_stop_at_first_failure_witness :
  snd (Setup.setup_camera (Setup.sample_camera (Some (OSError 22)))) = inr tt /\
  filter Setup.is_parameter_call
    (fst (Setup.setup_camera (Setup.sample_camera (Some (OSError 22)))))
  = [SvFramesize 4].
Proof.
  exact (camera_parameters_stop_at_first_failure
           (Setup.sample_camera (Some (OSError 22))) eq_refl).
Defined.

(** X26: [setup_model] raises exactly when loading [model.tflite]
    raises, and then with that exception: a failure to list the files
    or to read the shapes is only reported.  A model whose input shape
    does not start with 224*224*3 is accepted all the same; the
    mismatch only prints a warning, and only when both shapes could be
    read. *)
Theorem setup_model_fails_only_with_load (env : Setup.model_env) :
  snd (Setup.setup_model env) = outcome_of (Setup.load env) /\
  existsb Setup.is_shape_warning (fst (Setup.setup_model env))
  = match Setup.load env, Setup.get_input_shape env,
          Setup.get_output_shape env with
    | None, inr (Some (first :: _)), inr _ => negb (first =? 224 * 224 * 3)
    | _, _, _ => false
    end.
Proof.
  unfold Setup.setup_model, Setup.call, Setup.emit.
  destruct (Setup.listdir env) as [e0|files], (Setup.load env) as [e1|];
    cbn [outcome_of Setup.bind Setup.try_except app fst snd];
    try (split; reflexivity);
    destruct (Setup.get_input_shape env) as [e2|[[|first dims]|]],
             (Setup.get_output_shape env) as [e3|out];
    cbn [Setup.bind Setup.try_except app fst snd]; try (split; reflexivity);
    destruct (first =? 224 * 224 * 3); split; reflexivity.
Qed.

Lemma wait_connected_before_camera (answers : list (exn + bool)) :
  filter Setup.after_camera (fst (Setup.wait_connected answers)) = [].
Proof.
  induction answers as [|answer rest IH]; [reflexivity|].
  cbn [Setup.wait_connected]. unfold Setup.call, Setup.emit.
  destruct answer as [e|[|]]; try reflexivity.
  cbn [Setup.bind negb]. destruct (Setup.wait_connected rest) as [tr r].
  cbn [fst] in *. cbn. exact IH.
Qed.

Lemma setup_wifi_before_camera (env : Setup.wifi_env) (ssid password : string) :
  filter Setup.after_camera (fst (Setup.setup_wifi env ssid password)) = [].
Proof.
  unfold Setup.setup_wifi, Setup.call, Setup.emit.
  pose proof (wait_connected_before_camera (Setup.polls env)) as Hwait.
  destruct (Setup.wlan_create env) as [e|]; [reflexivity|].
  destruct (Setup.wlan_active env) as [e|]; [reflexivity|].
  destruct (Setup.wlan_connect env) as [e|]; [reflexivity|].
  cbn [outcome_of Setup.bind app].
  destruct (Setup.wait_connected (Setup.polls env)) as [tr [e|[|]]];
    cbn [fst] in Hwait; cbn [Setup.bind app fst].
  - cbn. exact Hwait.
  - destruct (Setup.ifconfig env) as [e|ip]; cbn;
      rewrite filter_app, Hwait; reflexivity.
  - cbn. rewrite filter_app, Hwait. reflexivity.
Qed.

Lemma setup_model_before_server (env : Setup.model_env) :
  filter Setup.is_server_event (fst (Setup.setup_model env)) = [].
Proof.
  unfold Setup.setup_model, Setup.call, Setup.emit.
  destruct (Setup.listdir env) as [e0|files], (Setup.load env) as [e1|];
    cbn [outcome_of Setup.bind Setup.try_except app fst snd];
    try reflexivity;
    destruct (Setup.get_input_shape env) as [e2|[[|first dims]|]],
             (Setup.get_output_shape env) as [e3|out];
    cbn [Setup.bind Setup.try_except app fst snd]; try reflexivity;
    destruct (first =? 224 * 224 * 3); reflexivity.
Qed.

Lemma setup_model_outcome (env : Setup.model_env) :
  snd (Setup.setup_model env) = outcome_of (Setup.load env) /\
  filter Setup.is_capture (fst (Setup.setup_model env)) = [].
Proof.
  unfold Setup.setup_model, Setup.call, Setup.emit.
  destruct (Setup.listdir env) as [e0|files], (Setup.load env) as [e1|];
    cbn [outcome_of Setup.bind Setup.try_except app fst snd];
    try (split; reflexivity);
    destruct (Setup.get_input_shape env) as [e2|[[|first dims]|]],
             (Setup.get_output_shape env) as [e3|out];
    cbn [Setup.bind Setup.try_except app fst snd]; try (split; reflexivity);
    destruct (first =? 224 * 224 * 3); split; reflexivity.
Qed.

Lemma wait_makes_no_capture (answers : list (exn + bool)) :
  filter Setup.is_capture (fst (Setup.wait_connected answers)) = [].
Proof.
  induction answers as [|answer rest IH]; [reflexivity|].
  cbn [Setup.wait_connected]. unfold Setup.call, Setup.emit.
  destruct answer as [e|[|]]; try reflexivity.
  cbn [Setup.bind negb]. destruct (Setup.wait_connected rest) as [tr r].
  cbn [fst] in *. cbn. exact IH.
Qed.

Lemma wifi_makes_no_capture (env : Setup.wifi_env) (ssid password : string) :
  filter Setup.is_capture (fst (Setup.setup_wifi env ssid password)) = [].
Proof.
  unfold Setup.setup_wifi, Setup.call, Setup.emit.
  pose proof (wait_makes_no_capture (Setup.polls env)) as Hwait.
  destruct (Setup.wlan_create env) as [e|]; [reflexivity|].
  destruct (Setup.wlan_active env) as [e|]; [reflexivity|].
  destruct (Setup.wlan_connect env) as [e|]; [reflexivity|].
  cbn [outcome_of Setup.bind app].
  destruct (Setup.wait_connected (Setup.polls env)) as [tr [e|[|]]];
    cbn [fst] in Hwait; cbn [Setup.bind app fst].
  - cbn. exact Hwait.
  - destruct (Setup.ifconfig env) as [e|ip]; cbn;
      rewrite filter_app, Hwait; reflexivity.
  - cbn. rewrite filter_app, Hwait. reflexivity.
Qed.

Lemma setup_camera_facts (env : Setup.camera_env) :
  Setup.init env = None ->
  snd (Setup.setup_camera env) = inr tt /\
  filter Setup.after_camera (fst (Setup.setup_camera env)) = [] /\
  List.length (filter Setup.is_capture (fst (Setup.setup_camera env))) = 3%nat.
Proof.
  intros Hinit. pose proof (setup_camera_cases env) as H. rewrite Hinit in H.
  destruct H as [params [rounds [-> [_ [Hcap [_ Hafter]]]]]].
  cbn [fst snd]. split; [reflexivity|].
  rewrite (app_assoc params rounds).
  cbn [app filter Setup.after_camera Setup.is_capture].
  rewrite (filter_app Setup.after_camera (params ++ rounds)), Hafter.
  rewrite (filter_app Setup.is_capture (params ++ rounds)), length_app, Hcap.
  split; reflexivity.
Qed.

Lemma after_camera_server ev :
  Setup.is_server_event ev = true -> Setup.after_camera ev = true.
Proof. destruct ev; cbn; congruence. Qed.

Lemma filter_implied (p q : setup_event -> bool) (tr : list setup_event) :
  (forall ev, p ev = true -> q ev = true) ->
  filter q tr = [] -> filter p tr = [].
Proof.
  intros Hpq. induction tr as [|ev tr IH]; [reflexivity|].
  cbn [filter]. destruct (q ev) eqn:Hq; [discriminate|].
  intros Htr. destruct (p ev) eqn:Hp; [rewrite (Hpq ev Hp) in Hq; discriminate|].
  auto.
Qed.

Lemma setup_surjective {A : Type} (m : Setup.S A) : m = (fst m, snd m).
Proof. destruct m; reflexivity. Qed.

(** X27: when [camera.init()] raises, [RealTimeClassifier.__init__]
    raises that exception and stops there: the files are not listed,
    no model is loaded, no socket is created. *)
Theorem init_stops_at_camera_failure
  (env : Setup.init_env) (ssid password : string) (e : exn) :
  snd (Setup.setup_wifi (Setup.wifi env) ssid password) = inr true ->
  Setup.init (Setup.camera env) = Some e ->
  snd (Setup.__init__ env ssid password) = inl e /\
  filter Setup.after_camera (fst (Setup.__init__ env ssid password)) = [].
Proof.
  intros Hwifi Hcam.
  pose proof (setup_wifi_before_camera (Setup.wifi env) ssid password) as Hquiet.
  pose proof (setup_surjective (Setup.setup_wifi (Setup.wifi env) ssid password))
    as Hw. rewrite Hwifi in Hw.
  pose proof (setup_camera_cases (Setup.camera env)) as Hc. rewrite Hcam in Hc.
  unfold Setup.__init__. rewrite Hw. cbn [Setup.bind]. rewrite Hc.
  cbn [Setup.bind fst snd]. split; [reflexivity|].
  rewrite filter_app, Hquiet. reflexivity.
Qed.

Lemma init_stops_at_camera_failure_witness :
  snd (Setup.__init__ (Setup.sample_init (Some (OSError 19)) None)
         "iPhone" "123456789") = inl (OSError 19) /\
  filter Setup.after_camera
    (fst (Setup.__init__ (Setup.sample_init (Some (OSError 19)) None)
            "iPhone" "123456789")) = [].
Proof.
  exact (init_stops_at_camera_failure
           (Setup.sample_init (Some (OSError 19)) None)
           "iPhone" "123456789" (OSError 19) eq_refl eq_refl).
Defined.

(** X28: when the model cannot be loaded, [RealTimeClassifier.__init__]
    raises the loader's exception after the camera has been set up, and
    creates no socket. *)
Theorem init_stops_at_model_failure
  (env : Setup.init_env) (ssid password : string) (e : exn) :
  snd (Setup.setup_wifi (Setup.wifi env) ssid password) = inr true ->
  Setup.init (Setup.camera env) = None ->
  Setup.load (Setup.model env) = Some e ->
  snd (Setup.__init__ env ssid password) = inl e /\
  filter Setup.is_server_event (fst (Setup.__init__ env ssid password)) = [] /\
  List.length (filter Setup.is_capture (fst (Setup.__init__ env ssid password)))
  = 3%nat.
Proof.
  intros Hwifi Hcam Hload.
  pose proof (setup_wifi_before_camera (Setup.wifi env) ssid password) as Hquiet.
  pose proof (wifi_makes_no_capture (Setup.wifi env) ssid password) as Hwcap.
  pose proof (setup_surjective (Setup.setup_wifi (Setup.wifi env) ssid password))
    as Hw. rewrite Hwifi in Hw.
  destruct (setup_camera_facts (Setup.camera env) Hcam) as [Hcout [Hafter Hcap]].
  pose proof (setup_surjective (Setup.setup_camera (Setup.camera env))) as Hc.
  rewrite Hcout in Hc.
  destruct (setup_model_outcome (Setup.model env)) as [Hm Hmcap].
  pose proof (setup_model_before_server (Setup.model env)) as Hmsrv.
  pose proof (setup_surjective (Setup.setup_model (Setup.model env))) as Hms.
  rewrite Hm, Hload in Hms. cbn [outcome_of] in Hms.
  set (wtr := fst (Setup.setup_wifi (Setup.wifi env) ssid password)) in *.
  set (ctr := fst (Setup.setup_camera (Setup.camera env))) in *.
  set (mtr := fst (Setup.setup_model (Setup.model env))) in *.
  assert (Hrun : Setup.__init__ env ssid password = (wtr ++ ctr ++ mtr, inl e)).
  { unfold Setup.__init__. rewrite Hw. cbn [Setup.bind]. rewrite Hc.
    cbn [Setup.bind]. rewrite Hms. reflexivity. }
  rewrite Hrun. cbn [fst snd]. split; [reflexivity|]. split.
  - rewrite !filter_app, Hmsrv.
    rewrite (filter_implied _ _ _ after_camera_server Hquiet).
    rewrite (filter_implied _ _ _ after_camera_server Hafter). reflexivity.
  - rewrite !filter_app, !length_app, Hwcap, Hmcap, Hcap. reflexivity.
Qed.

Lemma init_stops_at_model_failure_witness :
  snd (Setup.__init__ (Setup.sample_init None (Some (OSError 2)))
         "iPhone" "123456789") = inl (OSError 2) /\
  filter Setup.is_server_event
    (fst (Setup.__init__ (Setup.sample_init None (Some (OSError 2)))
            "iPhone" "123456789")) = [] /\
  List.length
    (filter Setup.is_capture
       (fst (Setup.__init__ (Setup.sample_init None (Some (OSError 2)))
               "iPhone" "123456789"))) = 3%nat.
Proof.
  exact (init_stops_at_model_failure
           (Setup.sample_init None (Some (OSError 2)))
           "iPhone" "123456789" (OSError 2) eq_refl eq_refl eq_refl).
Defined.

(** X29: when the network is up, the camera initialises and the model
    loads, [RealTimeClassifier.__init__] ends by creating the server on
    port 80 and returns exactly when [HTTPServer.__init__] does; the
    server it then holds has the default result cached.  The steps run
    in the order network, camera, model, server. *)
Theorem init_ends_with_the_server
  (env : Setup.init_env) (ssid password : string) :
  snd (Setup.setup_wifi (Setup.wifi env) ssid password) = inr true ->
  Setup.init (Setup.camera env) = None ->
  Setup.load (Setup.model env) = None ->
  fst (Setup.__init__ env ssid password)
  = fst (Setup.setup_wifi (Setup.wifi env) ssid password)
    ++ fst (Setup.setup_camera (Setup.camera env))
    ++ fst (Setup.setup_model (Setup.model env))
    ++ map SvServer (trace (HTTPServer.__init__ (Setup.server env) 80)) /\
  match outcome (HTTPServer.__init__ (Setup.server env) 80) with
  | inr self =>
      snd (Setup.__init__ env ssid password) = inr (Some self) /\
      HTTPServer.latest_results self = HTTPServer.initial_results
  | inl e => snd (Setup.__init__ env ssid password) = inl e
  end.
Proof.
  intros Hwifi Hcam Hload.
  pose proof (setup_surjective (Setup.setup_wifi (Setup.wifi env) ssid password))
    as Hw. rewrite Hwifi in Hw.
  destruct (setup_camera_facts (Setup.camera env) Hcam) as [Hcout _].
  pose proof (setup_surjective (Setup.setup_camera (Setup.camera env))) as Hc.
  rewrite Hcout in Hc.
  destruct (setup_model_outcome (Setup.model env)) as [Hm _].
  pose proof (setup_surjective (Setup.setup_model (Setup.model env))) as Hms.
  rewrite Hm, Hload in Hms. cbn [outcome_of] in Hms.
  pose proof (init_returns_default_cache (Setup.server env) 80) as Hcache.
  pose proof (surjective_M (HTTPServer.__init__ (Setup.server env) 80)) as Hs.
  set (wtr := fst (Setup.setup_wifi (Setup.wifi env) ssid password)) in *.
  set (ctr := fst (Setup.setup_camera (Setup.camera env))) in *.
  set (mtr := fst (Setup.setup_model (Setup.model env))) in *.
  unfold Setup.__init__. rewrite Hw. cbn [Setup.bind]. rewrite Hc.
  cbn [Setup.bind]. rewrite Hms. cbn [Setup.bind]. unfold Setup.lift.
  unfold trace, outcome in *.
  destruct (HTTPServer.__init__ (Setup.server env) 80) as [str [e|self]];
    cbn [fst snd Setup.bind Setup.ret] in *.
  - split; reflexivity.
  - rewrite app_nil_r. split; [reflexivity|]. split; [reflexivity | exact Hcache].
Qed.

Lemma init_ends_with_the_server_witness :
  fst (Setup.__init__ (Setup.sample_init None None) "iPhone" "123456789")
  = fst (Setup.setup_wifi (Setup.wifi (Setup.sample_init None None))
           "iPhone" "123456789")
    ++ fst (Setup.setup_camera (Setup.camera (Setup.sample_init None None)))
    ++ fst (Setup.setup_model (Setup.model (Setup.sample_init None None)))
    ++ map SvServer
         (trace (HTTPServer.__init__
                   (Setup.server (Setup.sample_init None None)) 80)) /\
  match outcome (HTTPServer.__init__
                   (Setup.server (Setup.sample_init None None)) 80) with
  | inr self =>
      snd (Setup.__init__ (Setup.sample_init None None) "iPhone" "123456789")
      = inr (Some self) /\
      HTTPServer.latest_results self = HTTPServer.initial_results
  | inl e =>
      snd (Setup.__init__ (Setup.sample_init None None) "iPhone" "123456789")
      = inl e
  end.
Proof.
  exact (init_ends_with_the_server (Setup.sample_init None None)
           "iPhone" "123456789" eq_refl eq_refl eq_refl).
Defined.
